(** * Active particles in 3D: the video generation scripts

    A shallow embedding of [generate_mp4.py] (and of the parts that
    [generate_video.py] and [scripts/generate_mp4.py] share with it):
    the binary and CSV trajectory readers, the parameter reader, the
    cylinder dimensions computed in [main], the choice and colouring of
    the tracked particles, the per-timestep frame loop, the call of the
    encoder and the removal of the frame directory, and the exit code of
    the script.  It also covers the animated figure that
    [create_standard_visualization] of [generate_video.py] builds and
    the summary printed by [visualize_benchmark.py].

    Python values are modelled as follows.
    - [float] / [np.float64]: IEEE binary64 as [spec_float] with the
      operations of [SpecFloat] at precision 53 and [emax] 1024.
    - [int], [np.int32]: [Z]; an [int32] read from a file is decoded from
      its four little-endian bytes in two's complement.
    - [bytes] and file contents: [list byte]; [str]: [string].
    - exceptions: the type [exn]; a function that can raise returns
      [exn + A], a function with effects is a state-and-exception
      computation [M A] over the [World].
    - the external collaborators (the image export of the rendering
      backend, the encoder process, [pandas.read_csv], [float(str)],
      the decoder of text and the permutation drawn by NumPy's generator)
      are the fields of the class [Backend]. *)

From Stdlib Require Import ZArith NArith Lia.
From Stdlib Require Import SpecFloat.
From Stdlib Require Import Strings.Byte Strings.Ascii.
From stdpp Require Import gmap strings list pretty sorting.

(** ** Floating point numbers *)

Definition float : Type := spec_float.

Definition fmul : float → float → float := SFmul 53 1024.
Definition fsub : float → float → float := SFsub 53 1024.
Definition fdiv : float → float → float := SFdiv 53 1024.
Definition fabs : float → float := SFabs.
Definition fltb : float → float → bool := SFltb.
Definition fleb : float → float → bool := SFleb.

Definition is_nan (f : float) : bool :=
  match f with S754_nan => true | _ => false end.

(** Conversion of a Python [int] to [float]. *)
Definition float_of_Z (z : Z) : float := binary_normalize 53 1024 z 0 false.

(** The float with a given 64-bit pattern (sign, 11 exponent bits, 52
    fraction bits). *)
Definition float_of_bits (b : Z) : float :=
  let s := Z.testbit b 63 in
  let e := Z.land (Z.shiftr b 52) 2047 in
  let m := Z.land b (2 ^ 52 - 1) in
  if (e =? 0)%Z then
    match m with
    | Zpos p => S754_finite s p (-1074)
    | _ => S754_zero s
    end
  else if (e =? 2047)%Z then
    if (m =? 0)%Z then S754_infinity s else S754_nan
  else
    match (m + 2 ^ 52)%Z with
    | Zpos p => S754_finite s p (e - 1075)
    | _ => S754_nan
    end.

(** The literals of the scripts. *)
Definition F1_1 : float := float_of_bits 0x3FF199999999999A.   (* 1.1 *)
Definition F0_01 : float := float_of_bits 0x3F847AE147AE147B.  (* 0.01 *)
Definition F1 : float := float_of_Z 1.
Definition F100 : float := float_of_Z 100.

(** ** Exceptions *)

Inductive exn : Type :=
  | FileNotFoundError (msg : string)
  | FileExistsError (path : string)
  | IndexError (index size : Z)
  | KeyError (key : string)
  | ValueError (msg : string)
  | OverflowError (msg : string)
  | UnicodeDecodeError
  | ImportError (module : string)
  | CalledProcessError (returncode : Z) (cmd : list string)
      (stdout stderr : list byte)
  | BackendError (msg : string).

Definition is_IndexError (e : exn) : bool :=
  match e with IndexError _ _ => true | _ => false end.

(** [int(x)] on a float: truncation toward zero. *)
Definition int_of_float (f : float) : exn + Z :=
  match f with
  | S754_nan => inl (ValueError "cannot convert float NaN to integer")
  | S754_infinity _ =>
      inl (OverflowError "cannot convert float infinity to integer")
  | S754_zero _ => inr 0%Z
  | S754_finite s m e =>
      let a := if (0 <=? e)%Z then Z.shiftl (Zpos m) e
               else Z.shiftr (Zpos m) (- e) in
      inr (if s then (- a)%Z else a)
  end.

(** ** Bytes and [np.fromfile] *)

(** Little-endian value of a group of bytes. *)
Definition le_value (bs : list byte) : Z :=
  foldr (λ b acc, (Z.of_N (Byte.to_N b) + 256 * acc)%Z) 0%Z bs.

Definition decode_int32 (bs : list byte) : Z :=
  let v := le_value bs in
  if (v <? 2 ^ 31)%Z then v else (v - 2 ^ 32)%Z.

Definition decode_float64 (bs : list byte) : float :=
  float_of_bits (le_value bs).

(** [n] items of [itemsize] bytes each, decoded from the front of [s]. *)
Fixpoint decode_items {A} (itemsize : nat) (dec : list byte → A)
    (n : nat) (s : list byte) : list A :=
  match n with
  | O => []
  | S k => dec (take itemsize s) :: decode_items itemsize dec k (drop itemsize s)
  end.

(** [np.fromfile(f, dtype, count)] on the rest [s] of an open binary file:
    the array read and the rest of the file after the call.  A negative
    [count] reads every whole item that is left; a [count] larger than
    what is left yields a shorter array, without any error, and leaves the
    file at its end. *)
Definition fromfile {A} (itemsize : nat) (dec : list byte → A)
    (count : Z) (s : list byte) : list A * list byte :=
  let avail := (length s / itemsize)%nat in
  if (count <? 0)%Z then
    (decode_items itemsize dec avail s, drop (avail * itemsize) s)
  else if (Z.to_nat count <=? avail)%nat then
    (decode_items itemsize dec (Z.to_nat count) s,
     drop (Z.to_nat count * itemsize) s)
  else
    (decode_items itemsize dec avail s, []).

Definition fromfile_int32 := fromfile 4 decode_int32.
Definition fromfile_float64 := fromfile 8 decode_float64.

(** [a[i]] on a NumPy array, for a non-negative index. *)
Definition np_index {A} (a : list A) (i : nat) : exn + A :=
  match a !! i with
  | Some v => inr v
  | None => inl (IndexError (Z.of_nat i) (Z.of_nat (length a)))
  end.

(** ** Computations that can raise *)

Definition ebind {A B} (m : exn + A) (k : A → exn + B) : exn + B :=
  match m with
  | inl e => inl e
  | inr a => k a
  end.

Notation "'elet' x := m 'in' k" := (ebind m (λ x, k))
  (at level 10, x name, m at level 100, k at level 200, only parsing).

(** ** The table of particle rows ([pandas.DataFrame]) *)

(** One row of the table: the dictionary appended by the binary reader. *)
Record Row : Type := mkRow {
  Particles : Z;
  x_position : float;
  y_position : float;
  z_position : float;
  ex_orientation : float;
  ey_orientation : float;
  ez_orientation : float;
  time : Z
}.

(** A table has a list of column labels and its rows.  Selecting a column
    that is not among the labels raises [KeyError]. *)
Record DataFrame : Type := mkDataFrame {
  df_columns : list string;
  df_rows : list Row
}.

Definition binary_columns : list string :=
  ["Particles"; "x-position"; "y-position"; "z-position";
   "ex-orientation"; "ey-orientation"; "ez-orientation"; "time"].

(** [pd.DataFrame(data)] for a list of dictionaries with the keys of the
    binary reader: an empty list gives a table without any column. *)
Definition DataFrame_of_dicts (data : list Row) : DataFrame :=
  match data with
  | [] => mkDataFrame [] []
  | _ => mkDataFrame binary_columns data
  end.

(** [df[name]], with [proj] reading the cell of that column in a row. *)
Definition df_get {A} (df : DataFrame) (name : string) (proj : Row → A)
    : exn + list A :=
  if bool_decide (name ∈ df_columns df) then inr (proj <$> df_rows df)
  else inl (KeyError name).

(** [Series.unique()]: the distinct values in order of first appearance. *)
Fixpoint unique {A} `{EqDecision A} (l : list A) : list A :=
  match l with
  | [] => []
  | x :: r => x :: filter (λ y, y ≠ x) (unique r)
  end.

(** [sorted(...)] on integers. *)
Definition sorted (l : list Z) : list Z := merge_sort Z.le l.

(** [enumerate(...)]. *)
Definition enumerate {A} (l : list A) : list (nat * A) :=
  zip (seq 0 (length l)) l.

(** [Series.abs()]. *)
Definition series_abs (s : list float) : list float := fabs <$> s.

(** [Series.max()] and [Series.min()] on floats: missing values (NaN) are
    skipped, and the result is NaN when nothing is left. *)
Definition series_max (s : list float) : float :=
  match filter (λ v, is_nan v = false) s with
  | [] => S754_nan
  | v :: r => foldl (λ a b, if fleb b a then a else b) v r
  end.

Definition series_min (s : list float) : float :=
  match filter (λ v, is_nan v = false) s with
  | [] => S754_nan
  | v :: r => foldl (λ a b, if fleb a b then a else b) v r
  end.

(** The builtin [max(a, b)]: the first argument is kept unless the second
    is greater. *)
Definition py_max (a b : float) : float := if fltb a b then b else a.

(** ** Decoding the binary trajectory *)

(** The dictionary of one particle of one frame; the six subscripts are
    evaluated in the order of the dictionary display. *)
Definition particle_row (x y z ex ey ez : list float) (timestep : Z)
    (particle_id : nat) : exn + Row :=
  elet vx := np_index x particle_id in
  elet vy := np_index y particle_id in
  elet vz := np_index z particle_id in
  elet vex := np_index ex particle_id in
  elet vey := np_index ey particle_id in
  elet vez := np_index ez particle_id in
  inr (mkRow (Z.of_nat particle_id) vx vy vz vex vey vez timestep).

(** [for particle_id in range(num_particles): data.append(...)], with the
    ids still to visit. *)
Fixpoint append_particles (x y z ex ey ez : list float) (timestep : Z)
    (ids : list nat) (data : list Row) : exn + list Row :=
  match ids with
  | [] => inr data
  | particle_id :: rest =>
      elet row := particle_row x y z ex ey ez timestep particle_id in
      append_particles x y z ex ey ez timestep rest (data ++ [row])
  end.

(** The body of [for frame_idx in range(num_frames)], repeated
    [frames_left] times on the open file. *)
Fixpoint read_frames (frames_left : nat) (num_particles : Z)
    (f : list byte) (data : list Row) : exn + list Row :=
  match frames_left with
  | O => inr data
  | S k =>
      let '(a, f) := fromfile_int32 1 f in
      elet timestep := np_index a 0 in
      let '(x, f) := fromfile_float64 num_particles f in
      let '(y, f) := fromfile_float64 num_particles f in
      let '(z, f) := fromfile_float64 num_particles f in
      let '(ex, f) := fromfile_float64 num_particles f in
      let '(ey, f) := fromfile_float64 num_particles f in
      let '(ez, f) := fromfile_float64 num_particles f in
      elet data := append_particles x y z ex ey ez timestep
                     (seq 0 (Z.to_nat num_particles)) data in
      read_frames k num_particles f data
  end.

(** The two header reads: [num_particles], [num_frames] and the rest of
    the file. *)
Definition read_header (f : list byte) : exn + (Z * Z * list byte) :=
  let '(a, f) := fromfile_int32 1 f in
  elet num_particles := np_index a 0 in
  let '(a, f) := fromfile_int32 1 f in
  elet num_frames := np_index a 0 in
  inr (num_particles, num_frames, f).

(** The [with open(filename, "rb") as f:] block of
    [read_binary_simulation], on the contents of the file. *)
Definition read_binary_contents (f : list byte) : exn + DataFrame :=
  elet h := read_header f in
  let '(num_particles, num_frames, f) := h in
  elet data := read_frames (Z.to_nat num_frames) num_particles f [] in
  inr (DataFrame_of_dicts data).

(** ** Strings: the operations of the parameter and CSV readers *)

Definition ascii_code (c : ascii) : N := Ascii.N_of_ascii c.

(** Whitespace removed by [str.strip()]. *)
Definition is_space (c : ascii) : bool :=
  let n := ascii_code c in
  ((9 <=? n) && (n <=? 13) || (28 <=? n) && (n <=? 32))%N.

(** The class [\d] of the pattern, on ASCII text. *)
Definition is_digit (c : ascii) : bool :=
  let n := ascii_code c in
  ((48 <=? n) && (n <=? 57))%N.

Definition digit_value (c : ascii) : Z := (Z.of_N (ascii_code c) - 48)%Z.

Fixpoint lstrip (s : string) : string :=
  match s with
  | EmptyString => EmptyString
  | String c r => if is_space c then lstrip r else s
  end.

Fixpoint rstrip (s : string) : string :=
  match s with
  | EmptyString => EmptyString
  | String c r =>
      match rstrip r with
      | EmptyString => if is_space c then EmptyString else String c EmptyString
      | r' => String c r'
      end
  end.

Definition strip (s : string) : string := rstrip (lstrip s).

(** [f.readline()] on a file opened as text: the text up to and including
    the first line ending (a line feed or a carriage return, which the
    text layer hands over as a line feed). *)
Fixpoint readline (s : string) : string :=
  match s with
  | EmptyString => EmptyString
  | String c r =>
      if (N.eqb (ascii_code c) 10 || N.eqb (ascii_code c) 13)%bool
      then String (Ascii.ascii_of_N 10) EmptyString
      else String c (readline r)
  end.

(** [s.split(sep)] for a one-character separator. *)
Fixpoint split (sep : ascii) (s : string) : list string :=
  match s with
  | EmptyString => [EmptyString]
  | String c r =>
      if Ascii.eqb c sep then EmptyString :: split sep r
      else
        match split sep r with
        | [] => [String c EmptyString]
        | h :: t => String c h :: t
        end
  end.

Definition tab : ascii := Ascii.ascii_of_N 9.

(** [l[i]] on a Python list, for a non-negative index. *)
Definition list_index {A} (l : list A) (i : nat) : exn + A :=
  match l !! i with
  | Some v => inr v
  | None => inl (IndexError (Z.of_nat i) (Z.of_nat (length l)))
  end.

(** The maximal run of digits at the front of [s]. *)
Fixpoint take_digits (s : string) : string :=
  match s with
  | EmptyString => EmptyString
  | String c r => if is_digit c then String c (take_digits r) else EmptyString
  end.

(** The group captured by the pattern [(\d+)], searched from the left:
    the first maximal run of digits, if there is any digit. *)
Fixpoint first_digit_run (s : string) : option string :=
  match s with
  | EmptyString => None
  | String c r =>
      if is_digit c then Some (String c (take_digits r))
      else first_digit_run r
  end.

(** [int(s)] on a string of digits. *)
Definition int_of_digits (s : string) : Z :=
  foldl (λ acc c, (10 * acc + digit_value c)%Z) 0%Z (String.list_ascii_of_string s).

(** ** Paths *)

(** [Path(a) / b]. *)
Definition path_join (a b : string) : string := a +:+ "/" +:+ b.

Fixpoint string_rev_acc (s acc : string) : string :=
  match s with
  | EmptyString => acc
  | String c r => string_rev_acc r (String c acc)
  end.

Definition string_rev (s : string) : string := string_rev_acc s EmptyString.

(** On the reversed path: the text after the last dot of the final
    component is dropped together with the dot; a component without a dot
    (or with only a leading dot) is kept whole. *)
Fixpoint drop_suffix_rev (r : string) : option string :=
  match r with
  | EmptyString => None
  | String c r' =>
      if Ascii.eqb c "/" then None
      else if Ascii.eqb c "." then
        match r' with
        | EmptyString => None
        | String c' _ => if Ascii.eqb c' "/" then None else Some r'
        end
      else drop_suffix_rev r'
  end.

(** [path.with_suffix(suffix)]. *)
Definition with_suffix (path suffix : string) : string :=
  match drop_suffix_rev (string_rev path) with
  | Some stem_rev => string_rev stem_rev +:+ suffix
  | None => path +:+ suffix
  end.

(** The proper ancestors of a relative path, for [mkdir(parents=True)]. *)
Fixpoint ancestors_rev (r : string) : list string :=
  match r with
  | EmptyString => []
  | String c r' =>
      if Ascii.eqb c "/" then string_rev r' :: ancestors_rev r'
      else ancestors_rev r'
  end.

Definition ancestors (path : string) : list string :=
  ancestors_rev (string_rev path).

Fixpoint is_prefix (p s : string) : bool :=
  match p, s with
  | EmptyString, _ => true
  | String a p', String b s' => Ascii.eqb a b && is_prefix p' s'
  | String _ _, EmptyString => false
  end.

(** [path] is [dir] itself or lies below it. *)
Definition inside (dir path : string) : bool :=
  bool_decide (path = dir) || is_prefix (dir +:+ "/") path.

(** ** Formatting *)

Fixpoint str_repeat (s : string) (n : nat) : string :=
  match n with
  | O => EmptyString
  | S k => s +:+ str_repeat s k
  end.

(** [f"{idx:04d}"] for a non-negative index: decimal digits, padded with
    zeros on the left to a width of at least four. *)
Definition fmt_04d (idx : nat) : string :=
  let s := pretty idx in
  str_repeat "0" (4 - String.length s) +:+ s.

Definition frame_name (idx : nat) : string :=
  "frame_" +:+ fmt_04d idx +:+ ".png".

(** [f"hsl({h}, 70%, 50%)"]. *)
Definition hsl (h : Z) : string := "hsl(" +:+ pretty h +:+ ", 70%, 50%)".

(** [int(360 * i / num_tracked)] as evaluated by Python: [360 * i] and
    [num_tracked] are integers, [/] is their correctly rounded binary64
    quotient and [int] truncates it. *)
Definition hue_float (i num_tracked : Z) : exn + Z :=
  int_of_float (fdiv (float_of_Z (360 * i)) (float_of_Z num_tracked)).

(** The same value as an integer quotient; [hue_float_agrees] checks the
    two against each other. *)
Definition hue (i num_tracked : Z) : Z := (360 * i / num_tracked)%Z.

(** [[f"hsl({int(360 * i / num_tracked)}, 70%, 50%)"
      for i in range(num_tracked)]]. *)
Definition colors (num_tracked : Z) : list string :=
  (λ i : nat, hsl (hue (Z.of_nat i) num_tracked)) <$> seq 0 (Z.to_nat num_tracked).

(** [dict(zip(keys, values))]: later pairs overwrite earlier ones. *)
Definition dict_zip (keys : list Z) (values : list string) : gmap Z string :=
  foldl (λ d kv, <[kv.1 := kv.2]> d) ∅ (zip keys values).

(** [max(1, int(len(all_particles) * TRACK_PERCENTAGE))]. *)
Definition tracked_count (TRACK_PERCENTAGE : float) (population : nat)
    : exn + Z :=
  elet k := int_of_float
              (fmul (float_of_Z (Z.of_nat population)) TRACK_PERCENTAGE) in
  inr (Z.max 1 k).

(** ** The CSV table before its identifier column is converted *)

(** The column [Particles] as [pandas.read_csv] infers it: integers, or
    text ([dtype == object]) where a missing cell is [None]. *)
Inductive ParticlesColumn : Type :=
  | PInt (ids : list Z)
  | PObject (labels : list (option string)).

Record CsvTable : Type := mkCsvTable {
  csv_columns : list string;
  csv_particles : ParticlesColumn;
  csv_rows : list Row
}.

(** [.astype(int)] on one extracted cell: a missing value cannot be
    converted, and the integer has to fit 64 bits. *)
Definition astype_int (cell : option string) : exn + Z :=
  match cell with
  | None => inl (ValueError "cannot convert float NaN to integer")
  | Some digits =>
      let v := int_of_digits digits in
      if (v <? 2 ^ 63)%Z then inr v
      else inl (OverflowError "Python int too large to convert to C long")
  end.

Fixpoint astype_int_all (cells : list (option string)) : exn + list Z :=
  match cells with
  | [] => inr []
  | c :: r =>
      elet v := astype_int c in
      elet vs := astype_int_all r in
      inr (v :: vs)
  end.

(** [.str.extract(r"(\d+)")] on one cell. *)
Definition str_extract (cell : option string) : option string :=
  match cell with
  | None => None
  | Some label => first_digit_run label
  end.

(** [df["Particles"].str.extract(r"(\d+)").astype(int)]. *)
Definition extract_ids (labels : list (option string)) : exn + list Z :=
  astype_int_all (str_extract <$> labels).

Definition set_Particles (id : Z) (r : Row) : Row :=
  mkRow id (x_position r) (y_position r) (z_position r)
    (ex_orientation r) (ey_orientation r) (ez_orientation r) (time r).

(** The statements of [read_csv_simulation] after [pd.read_csv]. *)
Definition convert_csv (t : CsvTable) : exn + DataFrame :=
  if bool_decide ("Particles" ∈ csv_columns t) then
    elet ids := match csv_particles t with
                | PInt ids => inr ids
                | PObject labels => extract_ids labels
                end in
    inr (mkDataFrame (csv_columns t) (zip_with set_Particles ids (csv_rows t)))
  else inl (KeyError "Particles").

(** ** Figures, the collaborators and the world *)

Inductive MarkerColor : Type :=
  | ColorByHeight                       (* [color=frame_data["z-position"]] *)
  | ColorList (cs : list string).

(** What a frame's figure is built from: the title, the cylinder and axis
    parameters and the coordinates of the scatter trace. *)
Record Figure : Type := mkFigure {
  fig_title : string;
  fig_Wall : float;
  fig_height_min : float;
  fig_height_max : float;
  fig_x : list float;
  fig_y : list float;
  fig_z : list float;
  fig_marker_size : Z;
  fig_marker_color : MarkerColor
}.

(** The result of the encoder process: its status, what it wrote to its
    two captured streams, and the video it wrote, if any. *)
Record Completed : Type := mkCompleted {
  returncode : Z;
  stdout : list byte;
  stderr : list byte;
  written : option (list byte)
}.

Class Backend : Type := {
  (** [fig.write_image(path)]: the bytes of the image, or an exception *)
  write_image : Figure → exn + list byte;
  (** the encoder run on a command line, reading the files present *)
  run_encoder : list string → gmap string (list byte) → Completed;
  (** [pd.read_csv] on the contents of a file *)
  pd_read_csv : list byte → exn + CsvTable;
  (** [float(s)] on a string; [None] when it raises [ValueError] *)
  py_float : string → option float;
  (** decoding of UTF-8 text; [None] when it raises *)
  decode_utf8 : list byte → option string;
  (** [RandomState.permutation(n)]: the indices drawn and the next state *)
  rng_permutation : N → nat → list nat * N
}.

Inductive Level : Type := INFO | WARNING | ERROR.

(** A piece of a formatted log message. *)
Inductive Frag : Type :=
  | Txt (s : string)
  | Flt (f : float) (digits : nat)      (* [{f:.1f}], [{f:.0f}] *)
  | Exc (e : exn).

Inductive Event : Type :=
  | Log (level : Level) (msg : list Frag)
  | OpenRead (path : string)
  | Mkdir (path : string)
  | WriteImage (path : string) (fig : Figure)
  | RunProcess (cmd : list string)
  | Rmtree (path : string).

Record World : Type := mkWorld {
  files : gmap string (list byte);
  dirs : gset string;
  kaleido_installed : bool;               (* [import kaleido] succeeds *)
  ffmpeg_on_path : bool;                  (* [shutil.which("ffmpeg")] *)
  rng : N;                                (* state of [np.random] *)
  trace : list Event                      (* what happened, oldest first *)
}.

Definition set_files (fs : gmap string (list byte)) (w : World) : World :=
  mkWorld fs (dirs w) (kaleido_installed w) (ffmpeg_on_path w) (rng w) (trace w).
Definition set_dirs (ds : gset string) (w : World) : World :=
  mkWorld (files w) ds (kaleido_installed w) (ffmpeg_on_path w) (rng w) (trace w).
Definition set_rng (r : N) (w : World) : World :=
  mkWorld (files w) (dirs w) (kaleido_installed w) (ffmpeg_on_path w) r (trace w).
Definition add_event (ev : Event) (w : World) : World :=
  mkWorld (files w) (dirs w) (kaleido_installed w) (ffmpeg_on_path w) (rng w)
    (trace w ++ [ev]).

(** ** Computations with effects *)

Definition M (A : Type) : Type := World → (exn + A) * World.

Definition ret {A} (a : A) : M A := λ w, (inr a, w).
Definition raise {A} (e : exn) : M A := λ w, (inl e, w).
Definition lift {A} (r : exn + A) : M A := λ w, (r, w).

Definition bind {A B} (m : M A) (k : A → M B) : M B := λ w,
  match m w with
  | (inl e, w') => (inl e, w')
  | (inr a, w') => k a w'
  end.

Notation "'mlet' x := m 'in' k" := (bind m (λ x, k))
  (at level 10, x name, m at level 100, k at level 200, only parsing).
Notation "m ;; k" := (bind m (λ _, k))
  (at level 100, k at level 200, right associativity, only parsing).

(** [try: body except Exception as e: handler(e)]. *)
Definition try_except {A} (body : M A) (handler : exn → M A) : M A := λ w,
  match body w with
  | (inl e, w') => handler e w'
  | r => r
  end.

Definition get {A} (proj : World → A) : M A := λ w, (inr (proj w), w).
Definition modify (f : World → World) : M unit := λ w, (inr tt, f w).
Definition emit (ev : Event) : M unit := modify (add_event ev).

Definition logging_info (msg : list Frag) : M unit := emit (Log INFO msg).
Definition logging_warning (msg : list Frag) : M unit := emit (Log WARNING msg).
Definition logging_error (msg : list Frag) : M unit := emit (Log ERROR msg).

(** [for x in xs: body(x)]. *)
Fixpoint for_each {A} (xs : list A) (body : A → M unit) : M unit :=
  match xs with
  | [] => ret tt
  | x :: r => body x ;; for_each r body
  end.

(** [path.exists()]. *)
Definition path_exists (path : string) : M bool := λ w,
  (inr (bool_decide (is_Some (files w !! path)) || bool_decide (path ∈ dirs w)), w).

(** [path.mkdir(parents=True, exist_ok=True)]. *)
Definition mkdir_parents (path : string) : M unit := λ w,
  if bool_decide (is_Some (files w !! path)) then (inl (FileExistsError path), w)
  else
    (inr tt,
     add_event (Mkdir path)
       (set_dirs (dirs w ∪ {[path]} ∪ list_to_set (ancestors path)) w)).

(** [shutil.rmtree(path)]: the directory and everything below it goes. *)
Definition rmtree (path : string) : M unit := λ w,
  if bool_decide (path ∈ dirs w) then
    (inr tt,
     add_event (Rmtree path)
       (set_files (filter (λ kv, inside path kv.1 = false) (files w))
          (set_dirs (filter (λ d, inside path d = false) (dirs w)) w)))
  else (inl (FileNotFoundError path), w).

(** [open(path)] for reading: the contents of the file. *)
Definition open_read (path : string) : M (list byte) := λ w,
  match files w !! path with
  | Some contents => (inr contents, add_event (OpenRead path) w)
  | None => (inl (FileNotFoundError path), w)
  end.

(** ** The scripts *)

(** The module-level configuration, and the two places where
    [scripts/generate_mp4.py] differs from [generate_mp4.py]: the progress
    message of the frame loops and the last line of the file. *)
Record Script : Type := mkScript {
  INPUT_FILE : string;
  PARAMETER_FILE : string;
  OUTPUT_DIR : string;
  TEMP_FRAMES_DIR : string;
  TRACK_PERCENTAGE : float;
  FPS : Z;
  (** the messages logged for frame [idx] of [num_frames] at a timestep *)
  frame_progress : nat → nat → Z → list (list Frag);
  (** [exit(main())] rather than [main()] under [__main__] *)
  exits_with_main : bool
}.

(** The parameters read from [parameter.txt]. *)
Record Params : Type := mkParams {
  params_Wall : float;
  params_height : float
}.

(** The dimensions [main] passes on: [Wall], [height], [height_min] and
    [height_max]. *)
Record Cylinder : Type := mkCylinder {
  Wall : float;
  height : float;
  height_min : float;
  height_max : float
}.

(** The fallback of [main] in [generate_mp4.py], when [params] is
    [None]:
    [max(df["x-position"].abs().max(), df["y-position"].abs().max()) * 1.1]. *)
Definition data_Wall (df : DataFrame) : exn + float :=
  elet x := df_get df "x-position" x_position in
  elet y := df_get df "y-position" y_position in
  inr (fmul (py_max (series_max (series_abs x)) (series_max (series_abs y))) F1_1).

(** The statements of [main] in [generate_mp4.py] between the call of
    [read_parameters] and the first log line about the cylinder. *)
Definition main_dimensions (params : option Params) (df : DataFrame)
    : exn + Cylinder :=
  elet wh :=
    match params with
    | Some p => inr (params_Wall p, params_height p)
    | None =>
        elet W := data_Wall df in
        elet z1 := df_get df "z-position" z_position in
        elet z2 := df_get df "z-position" z_position in
        inr (W, fsub (series_max z1) (series_min z2))
    end in
  elet z3 := df_get df "z-position" z_position in
  elet z4 := df_get df "z-position" z_position in
  inr (mkCylinder wh.1 wh.2 (series_min z3) (series_max z4)).

(** The same statements in [generate_video.py]: with parameters the table
    is not consulted at all; without them the radius is
    [np.sqrt((x ** 2 + y ** 2).max()) * 1.1]. *)
Definition video_dimensions (params : option Params) (df : DataFrame)
    : exn + Cylinder :=
  match params with
  | Some p =>
      inr (mkCylinder (params_Wall p) (params_height p)
             (SFopp (params_height p)) (params_height p))
  | None =>
      elet x := df_get df "x-position" x_position in
      elet y := df_get df "y-position" y_position in
      let r2 := zip_with (λ a b, SFadd 53 1024 (fmul a a) (fmul b b)) x y in
      let max_r := SFsqrt 53 1024 (series_max r2) in
      elet z1 := df_get df "z-position" z_position in
      elet z2 := df_get df "z-position" z_position in
      let max_z := series_max z1 in
      let min_z := series_min z2 in
      inr (mkCylinder (fmul max_r F1_1) (fsub max_z min_z) min_z max_z)
  end.

Section Program.
Context `{Backend}.
Variable script : Script.

(** *** [read_parameters] *)

Definition float_of_str (s : string) : exn + float :=
  match py_float s with
  | Some f => inr f
  | None => inl (ValueError ("could not convert string to float: " +:+ s))
  end.

(** The body of the [with] block, on the text of the file. *)
Definition parse_parameters (text : string) : exn + Params :=
  let line := strip (readline text) in
  let params := split tab line in
  elet p6 := list_index params 6 in
  elet W := float_of_str p6 in
  elet p7 := list_index params 7 in
  elet h := float_of_str p7 in
  inr (mkParams W h).

Definition decode_text (contents : list byte) : exn + string :=
  match decode_utf8 contents with
  | Some text => inr text
  | None => inl UnicodeDecodeError
  end.

Definition read_parameters (parameter_file : string) : M (option Params) :=
  try_except
    (mlet contents := open_read parameter_file in
     mlet text := lift (decode_text contents) in
     mlet p := lift (parse_parameters text) in
     ret (Some p))
    (λ e,
       logging_warning [Txt "Error reading parameters: "; Exc e;
                        Txt ". Using data-based dimensions."] ;;
       ret None).

(** *** [read_csv_simulation] and [read_binary_simulation] *)

Definition read_csv_simulation (filename : string) : M DataFrame :=
  logging_info [Txt "Reading CSV file: "; Txt filename] ;;
  mlet contents := open_read filename in
  mlet table := lift (pd_read_csv contents) in
  lift (convert_csv table).

Definition read_binary_simulation (filename : string) : M DataFrame :=
  let input_path := filename in
  mlet found := path_exists input_path in
  if negb found then
    let csv_path := with_suffix input_path ".csv" in
    mlet csv_found := path_exists csv_path in
    if csv_found then
      logging_info [Txt "Binary file not found, using CSV: "; Txt csv_path] ;;
      read_csv_simulation csv_path
    else
      raise (FileNotFoundError
               ("Neither " +:+ input_path +:+ " nor " +:+ csv_path +:+ " found"))
  else
    mlet f := open_read filename in
    mlet h := lift (read_header f) in
    let '(num_particles, num_frames, f) := h in
    logging_info [Txt "Reading binary: "; Txt (pretty num_particles);
                  Txt " particles, "; Txt (pretty num_frames); Txt " frames"] ;;
    mlet data := lift (read_frames (Z.to_nat num_frames) num_particles f []) in
    ret (DataFrame_of_dicts data).

(** *** [check_dependencies] *)

Definition check_dependencies : M bool :=
  mlet kaleido := get kaleido_installed in
  if negb kaleido then
    logging_error [Txt "kaleido not installed. Install with: uv add kaleido"] ;;
    ret false
  else
    mlet ffmpeg := get ffmpeg_on_path in
    if negb ffmpeg then
      logging_error [Txt "ffmpeg not found. Install with: brew install ffmpeg"] ;;
      ret false
    else ret true.

(** *** Rendering one frame *)

(** [fig.write_image(path)]. *)
Definition fig_write_image (fig : Figure) (path : string) : M unit := λ w,
  let w := add_event (WriteImage path fig) w in
  match write_image fig with
  | inl e => (inl e, w)
  | inr image => (inr tt, set_files (<[path := image]> (files w)) w)
  end.

(** The figure of [render_standard_frame]. *)
Definition standard_figure (df : DataFrame) (timestep : Z) (c : Cylinder)
    : exn + Figure :=
  elet _t := df_get df "time" time in
  let frame_data :=
    mkDataFrame (df_columns df) (filter (λ r, time r = timestep) (df_rows df)) in
  elet x := df_get frame_data "x-position" x_position in
  elet y := df_get frame_data "y-position" y_position in
  elet z := df_get frame_data "z-position" z_position in
  elet _z := df_get frame_data "z-position" z_position in
  inr (mkFigure ("Active Brownian Particles - Frame " +:+ pretty timestep)
         (Wall c) (height_min c) (height_max c)
         x y z 5 ColorByHeight).

Definition render_standard_frame (df : DataFrame) (timestep : Z)
    (c : Cylinder) (output_path : string) : M unit :=
  mlet fig := lift (standard_figure df timestep c) in
  fig_write_image fig output_path.

(** [[particle_colors[p] for p in ps]]. *)
Fixpoint lookup_colors (particle_colors : gmap Z string) (ps : list Z)
    : exn + list string :=
  match ps with
  | [] => inr []
  | p :: r =>
      elet c := match particle_colors !! p with
                | Some c => inr c
                | None => inl (KeyError (pretty p))
                end in
      elet cs := lookup_colors particle_colors r in
      inr (c :: cs)
  end.

(** The figure of [render_tracking_frame]. *)
Definition tracking_figure (df : DataFrame) (timestep : Z)
    (tracked_particles : list Z) (particle_colors : gmap Z string)
    (c : Cylinder) : exn + Figure :=
  elet _t := df_get df "time" time in
  elet _p := df_get df "Particles" Particles in
  let frame_data :=
    mkDataFrame (df_columns df)
      (filter (λ r, time r = timestep ∧ Particles r ∈ tracked_particles)
         (df_rows df)) in
  elet ps := df_get frame_data "Particles" Particles in
  elet particle_color_list := lookup_colors particle_colors ps in
  elet x := df_get frame_data "x-position" x_position in
  elet y := df_get frame_data "y-position" y_position in
  elet z := df_get frame_data "z-position" z_position in
  let num_tracked := length tracked_particles in
  inr (mkFigure ("Particle Tracking - " +:+ pretty num_tracked
                   +:+ " Particles - Frame " +:+ pretty timestep)
         (Wall c) (height_min c) (height_max c)
         x y z 8 (ColorList particle_color_list)).

Definition render_tracking_frame (df : DataFrame) (timestep : Z)
    (tracked_particles : list Z) (particle_colors : gmap Z string)
    (c : Cylinder) (output_path : string) : M unit :=
  mlet fig := lift (tracking_figure df timestep tracked_particles
                      particle_colors c) in
  fig_write_image fig output_path.

(** *** The encoder *)

Definition ffmpeg_cmd (temp_dir output_mp4 : string) : list string :=
  ["ffmpeg"; "-y"; "-framerate"; pretty (FPS script); "-i";
   path_join temp_dir "frame_%04d.png"; "-c:v"; "libx264";
   "-pix_fmt"; "yuv420p"; "-crf"; "23"; output_mp4].

(** [subprocess.run(cmd, check=True, capture_output=True)] for the
    encoder, whose last argument is the file it writes.  The encoder
    reads the files present and writes nothing but that file; a status
    other than 0 becomes [CalledProcessError] with the captured
    streams. *)
Definition subprocess_run (cmd : list string) (output_mp4 : string)
    : M Completed := λ w,
  let w := add_event (RunProcess cmd) w in
  if ffmpeg_on_path w then
    let r := run_encoder cmd (files w) in
    let w := match written r with
             | Some video => set_files (<[output_mp4 := video]> (files w)) w
             | None => w
             end in
    if (returncode r =? 0)%Z then (inr r, w)
    else (inl (CalledProcessError (returncode r) cmd (stdout r) (stderr r)), w)
  else (inl (FileNotFoundError "ffmpeg"), w).

(** The statements of both [generate_*_mp4] functions after their frame
    loop. *)
Definition create_mp4 (temp_dir output_mp4 : string) : M unit :=
  logging_info [Txt "Creating MP4: "; Txt output_mp4] ;;
  let cmd := ffmpeg_cmd temp_dir output_mp4 in
  mlet _r := subprocess_run cmd output_mp4 in
  logging_info [Txt "✓ Created: "; Txt output_mp4] ;;
  rmtree temp_dir.

(** *** [generate_standard_mp4] *)

(** [sorted(df["time"].unique())]. *)
Definition timesteps_of (df : DataFrame) : exn + list Z :=
  elet t := df_get df "time" time in
  inr (sorted (unique t)).

(** [for idx, timestep in enumerate(timesteps): ...]. *)
Definition frame_loop (temp_dir : string) (timesteps : list Z)
    (render : Z → string → M unit) : M unit :=
  let num_frames := length timesteps in
  for_each (enumerate timesteps) (λ it,
    let '(idx, timestep) := it in
    let frame_path := path_join temp_dir (frame_name idx) in
    for_each (frame_progress script idx num_frames timestep) logging_info ;;
    render timestep frame_path).

Definition generate_standard_mp4 (df : DataFrame) (c : Cylinder) : M unit :=
  mlet timesteps := lift (timesteps_of df) in
  let num_frames := length timesteps in
  logging_info [Txt "Generating standard visualization (";
                Txt (pretty num_frames); Txt " frames)..."] ;;
  let temp_dir := path_join (TEMP_FRAMES_DIR script) "standard" in
  mkdir_parents temp_dir ;;
  frame_loop temp_dir timesteps
    (λ timestep frame_path, render_standard_frame df timestep c frame_path) ;;
  let output_mp4 := path_join (OUTPUT_DIR script) "particles_standard.mp4" in
  create_mp4 temp_dir output_mp4.

(** *** [generate_tracking_mp4] *)

Fixpoint index_all (a : list Z) (idx : list nat) : exn + list Z :=
  match idx with
  | [] => inr []
  | i :: r =>
      elet v := np_index a i in
      elet vs := index_all a r in
      inr (v :: vs)
  end.

(** [np.random.choice(a, size=size, replace=False)]: the first [size]
    indices of a random permutation of the population select the sample. *)
Definition np_random_choice (a : list Z) (size : Z) : M (list Z) := λ w,
  let pop_size := length a in
  if bool_decide (pop_size = 0%nat) && negb (size =? 0)%Z then
    (inl (ValueError "'a' cannot be empty unless no samples are taken"), w)
  else if (Z.of_nat pop_size <? size)%Z then
    (inl (ValueError
            "Cannot take a larger sample than population when 'replace=False'"),
     w)
  else if (size <? 0)%Z then
    (inl (ValueError "negative dimensions are not allowed"), w)
  else
    let '(perm, r) := rng_permutation (rng w) pop_size in
    (index_all a (take (Z.to_nat size) perm), set_rng r w).

(** The statements of [generate_tracking_mp4] that choose the tracked
    particles and their colours: the sample in draw order and the
    dictionary [particle_colors]. *)
Definition select_tracked (df : DataFrame) : M (list Z * gmap Z string) :=
  mlet p := lift (df_get df "Particles" Particles) in
  let all_particles := unique p in
  mlet num_tracked :=
    lift (tracked_count (TRACK_PERCENTAGE script) (length all_particles)) in
  mlet tracked_particles := np_random_choice all_particles num_tracked in
  logging_info [Txt "Generating tracking visualization (";
                Txt (pretty num_tracked); Txt " particles, ";
                Flt (fmul (TRACK_PERCENTAGE script) F100) 0; Txt "%)..."] ;;
  let particle_colors := dict_zip tracked_particles (colors num_tracked) in
  ret (tracked_particles, particle_colors).

Definition generate_tracking_mp4 (df : DataFrame) (c : Cylinder) : M unit :=
  mlet timesteps := lift (timesteps_of df) in
  mlet sel := select_tracked df in
  let '(tracked_particles, particle_colors) := sel in
  let temp_dir := path_join (TEMP_FRAMES_DIR script) "tracking" in
  mkdir_parents temp_dir ;;
  frame_loop temp_dir timesteps
    (λ timestep frame_path,
       render_tracking_frame df timestep tracked_particles particle_colors c
         frame_path) ;;
  let output_mp4 := path_join (OUTPUT_DIR script) "particles_tracked.mp4" in
  create_mp4 temp_dir output_mp4.

(** *** [main] and the entry point *)

(** [e.stderr.decode() if e.stderr else ""]. *)
Definition stderr_text (err : list byte) : exn + string :=
  match err with
  | [] => inr EmptyString
  | _ => decode_text err
  end.

(** The handler [except subprocess.CalledProcessError as e:] of [main];
    any other exception passes through. *)
Definition ffmpeg_failed (e : exn) : M (option Z) :=
  match e with
  | CalledProcessError _ _ _ err =>
      logging_error [Txt "ffmpeg failed: "; Exc e] ;;
      mlet text := lift (stderr_text err) in
      logging_error [Txt text] ;;
      ret (Some 1%Z)
  | _ => raise e
  end.

(** The body of the [try] statement of [main]. *)
Definition generate_both (df : DataFrame) (c : Cylinder) : M (option Z) :=
  generate_standard_mp4 df c ;;
  logging_info [Txt ""] ;;
  generate_tracking_mp4 df c ;;
  ret None.

Definition main : M Z :=
  logging_info [Txt "Active Particles 3D - MP4 Video Generator"] ;;
  logging_info [Txt (str_repeat "=" 60)] ;;
  mlet ok := check_dependencies in
  if negb ok then ret 1%Z
  else
    logging_info [Txt "Loading simulation data..."] ;;
    mlet df := read_binary_simulation (INPUT_FILE script) in
    mlet params := read_parameters (PARAMETER_FILE script) in
    mlet c := lift (main_dimensions params df) in
    logging_info [Txt "Cylinder: radius="; Flt (Wall c) 1;
                  Txt ", height="; Flt (height c) 1] ;;
    logging_info [Txt "Z-range: ["; Flt (height_min c) 1; Txt ", ";
                  Flt (height_max c) 1; Txt "]"] ;;
    logging_info [Txt ""] ;;
    mlet returned := try_except (generate_both df c) ffmpeg_failed in
    match returned with
    | Some status => ret status
    | None =>
        logging_info [Txt ""] ;;
        logging_info [Txt (str_repeat "=" 60)] ;;
        logging_info [Txt "MP4 generation complete!"] ;;
        logging_info [Txt "Output files in: "; Txt (OUTPUT_DIR script); Txt "/"] ;;
        logging_info [Txt (str_repeat "=" 60)] ;;
        ret 0%Z
    end.

(** The statement under [if __name__ == "__main__":] and the exit status
    of the process: an exception that nothing catches ends it with
    status 1, [exit(main())] with the value [main] returned, and a bare
    [main()] with 0. *)
Definition run_script (w : World) : Z * World :=
  match main w with
  | (inl _, w') => (1%Z, w')
  | (inr status, w') => (if exits_with_main script then status else 0%Z, w')
  end.

End Program.

(** [generate_mp4.py]. *)
Definition generate_mp4_py : Script := {|
  INPUT_FILE := "data/simulation.bin";
  PARAMETER_FILE := "parameter.txt";
  OUTPUT_DIR := "figures";
  TEMP_FRAMES_DIR := "temp_frames";
  TRACK_PERCENTAGE := F0_01;
  FPS := 30;
  frame_progress := λ idx num_frames timestep,
    [[Txt "  Rendering frame "; Txt (pretty (idx + 1)%nat); Txt "/";
      Txt (pretty num_frames); Txt " (timestep "; Txt (pretty timestep);
      Txt ")"]];
  exits_with_main := true
|}.

(** [scripts/generate_mp4.py]. *)
Definition scripts_generate_mp4_py : Script := {|
  INPUT_FILE := "../data/simulation.bin";
  PARAMETER_FILE := "../parameter.txt";
  OUTPUT_DIR := "../figures";
  TEMP_FRAMES_DIR := "../temp_frames";
  TRACK_PERCENTAGE := F0_01;
  FPS := 30;
  frame_progress := λ idx num_frames timestep,
    if ((idx + 1) mod 10 =? 0)%nat then
      [[Txt "  Rendered "; Txt (pretty (idx + 1)%nat); Txt "/";
        Txt (pretty num_frames); Txt " frames"]]
    else [];
  exits_with_main := false
|}.

(** ** The layout the binary reader expects *)

(** Bytes of one frame record: the timestep and six arrays of
    [num_particles] doubles. *)
Definition frame_size (num_particles : Z) : nat :=
  4 + 6 * (8 * Z.to_nat num_particles).

(** A file with a whole header and a non-negative particle count whose
    contents end before the declared frame records do. *)
Definition is_truncated (f : list byte) : bool :=
  match read_header f with
  | inr (num_particles, num_frames, rest) =>
      (0 <=? num_particles)%Z
      && (length rest <? Z.to_nat num_frames * frame_size num_particles)%nat
  | inl _ => false
  end.

(** The fields of a frame record, in file order. *)
Inductive Field : Type :=
  | Ftimestep | Fx | Fy | Fz | Fex | Fey | Fez.

(** The first field in [fields], each with its size in bytes, that
    [avail] bytes do not cover; otherwise the bytes left over. *)
Fixpoint short_field (fields : list (Field * nat)) (avail : nat)
    : Field + nat :=
  match fields with
  | [] => inr avail
  | (fd, size) :: r =>
      if (avail <? size)%nat then inl fd else short_field r (avail - size)
  end.

Definition frame_fields (num_particles : Z) : list (Field * nat) :=
  let a := (8 * Z.to_nat num_particles)%nat in
  [(Ftimestep, 4%nat); (Fx, a); (Fy, a); (Fz, a); (Fex, a); (Fey, a); (Fez, a)].

(** The frame (counted from [frame_idx]) and the field in which [avail]
    bytes of frame records end early, if they do. *)
Fixpoint short_frame (frames_left frame_idx : nat) (num_particles : Z)
    (avail : nat) : option (nat * Field) :=
  match frames_left with
  | O => None
  | S k =>
      match short_field (frame_fields num_particles) avail with
      | inl fd => Some (frame_idx, fd)
      | inr left_over => short_frame k (S frame_idx) num_particles left_over
      end
  end.

(** Which array of which frame is short in a file, by the declared
    layout. *)
Definition first_short (f : list byte) : option (nat * Field) :=
  match read_header f with
  | inr (num_particles, num_frames, rest) =>
      short_frame (Z.to_nat num_frames) 0 num_particles (length rest)
  | inl _ => None
  end.

(** The digits at the end of a label: the numeric suffix in the plain
    sense of the words, to compare [first_digit_run] with. *)
Definition numeric_suffix (label : string) : option string :=
  match take_digits (string_rev label) with
  | EmptyString => None
  | d => Some (string_rev d)
  end.

(** ** Sample inputs *)

Definition byte_of_Z (v : Z) : byte :=
  default x00 (Byte.of_N (Z.to_N (v mod 256))).

(** The four bytes of an [int32]. *)
Definition int32_bytes (v : Z) : list byte :=
  [byte_of_Z v; byte_of_Z (v / 2 ^ 8); byte_of_Z (v / 2 ^ 16);
   byte_of_Z (v / 2 ^ 24)].

(** [n] doubles, all 0.0. *)
Definition zero_doubles (n : nat) : list byte := replicate (8 * n) x00.

(** Three particles and two frames, stored with timestep 5 before
    timestep 3. *)
Definition sample_trajectory : list byte :=
  int32_bytes 3 ++ int32_bytes 2
  ++ int32_bytes 5 ++ zero_doubles (6 * 3)
  ++ int32_bytes 3 ++ zero_doubles (6 * 3).

(** Fifty particles declared, one frame; the file ends after thirty
    values of the first array. *)
Definition short_x_file : list byte :=
  int32_bytes 50 ++ int32_bytes 1 ++ int32_bytes 0 ++ zero_doubles 30.

(** The same header; the file ends after the whole first array. *)
Definition short_y_file : list byte :=
  int32_bytes 50 ++ int32_bytes 1 ++ int32_bytes 0 ++ zero_doubles 50.

(** One frame of zero particles. *)
Definition no_particles_file : list byte :=
  int32_bytes 0 ++ int32_bytes 1 ++ int32_bytes 7.

(** Collaborators for the examples: every figure exports to an empty
    image, the encoder succeeds and writes an empty video, no CSV or
    number parses, text is taken byte for byte, and the permutation drawn
    is the identity. *)
Definition sample_backend : Backend := {|
  write_image := λ _, inr [];
  run_encoder := λ _ _, mkCompleted 0 [] [] (Some []);
  pd_read_csv := λ _, inl (BackendError "no CSV parser");
  py_float := λ _, None;
  decode_utf8 := λ bs, Some (String.string_of_list_byte bs);
  rng_permutation := λ s n, (seq 0 n, s)
|}.

(** The same with an encoder that fails with a message. *)
Definition failing_encoder_backend : Backend := {|
  write_image := λ _, inr [];
  run_encoder := λ _ _, mkCompleted 1 [] (String.list_byte_of_string "no frames") None;
  pd_read_csv := λ _, inl (BackendError "no CSV parser");
  py_float := λ _, None;
  decode_utf8 := λ bs, Some (String.string_of_list_byte bs);
  rng_permutation := λ s n, (seq 0 n, s)
|}.

(** A machine with both dependencies and with [contents] stored as the
    input file of [generate_mp4.py]. *)
Definition world_with (contents : list byte) : World :=
  mkWorld {[ "data/simulation.bin" := contents ]} {[ "data" ]} true true 0 [].

(** A machine without the encoder. *)
Definition world_without_ffmpeg : World :=
  mkWorld ∅ ∅ true false 0 [].

(** The reading of "fails ... identifying which array/frame was short":
    the exception raised determines the frame and the field in which the
    file ends. *)
Definition identifies_short_array (name_of : exn → nat * Field) : Prop :=
  ∀ f, is_truncated f = true →
    ∃ e, read_binary_contents f = inl e ∧ first_short f = Some (name_of e).

(** The reading of "hue 360 × i / tracked_count degrees": the hue [h]
    printed in the colour is exactly that quotient. *)
Definition exact_hue (h i tracked_count : Z) : Prop :=
  (h * tracked_count = 360 * i)%Z.

(** [hue_float] and [hue] agree at position [i] of a sample of
    [num_tracked] particles, and on every position of it. *)
Definition hue_agrees_at (num_tracked i : nat) : bool :=
  match hue_float (Z.of_nat i) (Z.of_nat num_tracked) with
  | inr h => (h =? hue (Z.of_nat i) (Z.of_nat num_tracked))%Z
  | inl _ => false
  end.

Definition hue_agrees (num_tracked : nat) : bool :=
  forallb (hue_agrees_at num_tracked) (seq 0 num_tracked).

(** The table read from [sample_trajectory]. *)
Definition sample_table : DataFrame :=
  match read_binary_contents sample_trajectory with
  | inr df => df
  | inl _ => mkDataFrame [] []
  end.

(** ** Order of floats that are not NaN *)

(** A key whose lexicographic order is the order [SFcompare] decides. *)
Definition fkey (f : float) : Z * Z * Z :=
  match f with
  | S754_nan => (0, 0, 0)%Z
  | S754_infinity s => (if s then (-2)%Z else 2%Z, 0%Z, 0%Z)
  | S754_zero _ => (0, 0, 0)%Z
  | S754_finite s m e =>
      if s then ((-1)%Z, (- e)%Z, Zneg m) else (1%Z, e, Zpos m)
  end.

Definition key_le (a b : Z * Z * Z) : Prop :=
  (a.1.1 < b.1.1
   ∨ (a.1.1 = b.1.1
      ∧ (a.1.2 < b.1.2 ∨ (a.1.2 = b.1.2 ∧ a.2 ≤ b.2))))%Z.

Definition lex_compare (a b : Z * Z * Z) : comparison :=
  match (a.1.1 ?= b.1.1)%Z with
  | Eq => match (a.1.2 ?= b.1.2)%Z with
          | Eq => (a.2 ?= b.2)%Z
          | c => c
          end
  | c => c
  end.

Definition not_nan (f : float) : Prop := is_nan f = false.

(** A header that declares three particles and no frame. *)
Definition no_frames_file : list byte := int32_bytes 3 ++ int32_bytes 0.

(** A parameter line with five fields only. *)
Definition five_fields : list byte :=
  String.list_byte_of_string
    (String.concat (String tab EmptyString) ["0.1"; "100"; "10"; "1"; "5"]).

(** A machine with both dependencies, an input file and a parameter
    file. *)
Definition world_with_parameters (contents parameters : list byte) : World :=
  mkWorld {[ "data/simulation.bin" := contents; "parameter.txt" := parameters ]}
    {[ "data" ]} true true 0 [].

(** The parameter file is absent, is not text, has fewer than eight
    tab-separated fields on its first line, or has a field 6 or 7 that
    [float] rejects. *)
Definition parameters_unusable `{Backend} (parameter_file : string)
    (w : World) : Prop :=
  match files w !! parameter_file with
  | None => True
  | Some contents =>
      match decode_utf8 contents with
      | None => True
      | Some text =>
          let params := split tab (strip (readline text)) in
          length params < 8
          ∨ (∃ s, params !! 6 = Some s ∧ py_float s = None)
          ∨ (∃ s, params !! 7 = Some s ∧ py_float s = None)
      end
  end.

(** [m] is the largest of [|x|] and [|y|] over the rows: it is one of
    them and none of them exceeds it. *)
Definition largest_abs_xy (rows : list Row) (m : float) : Prop :=
  (∃ r, r ∈ rows ∧ (m = fabs (x_position r) ∨ m = fabs (y_position r)))
  ∧ ∀ r, r ∈ rows →
      fleb (fabs (x_position r)) m = true ∧ fleb (fabs (y_position r)) m = true.

Definition warning_of (e : exn) : Event :=
  Log WARNING [Txt "Error reading parameters: "; Exc e;
               Txt ". Using data-based dimensions."].

(** The frame images written, in order, among some events. *)
Definition image_of (ev : Event) : option (string * Figure) :=
  match ev with
  | WriteImage path fig => Some (path, fig)
  | _ => None
  end.

Definition images (evs : list Event) : list (string * Figure) :=
  omap image_of evs.

(** The files opened for reading among some events. *)
Definition opened (evs : list Event) : list string :=
  omap (λ ev, match ev with OpenRead path => Some path | _ => None end) evs.

Definition all_chars (P : ascii → bool) (s : string) : bool :=
  forallb P (String.list_ascii_of_string s).

(** A CSV table whose identifier column is text. *)
Definition sample_csv_table : CsvTable :=
  let z := S754_zero false in
  mkCsvTable binary_columns (PObject [Some "particle_7"; Some "p12"])
    [mkRow 0 z z z z z z 0; mkRow 0 z z z z z z 0].

(** Collaborators whose [pd.read_csv] yields [sample_csv_table]. *)
Definition csv_backend : Backend := {|
  write_image := λ _, inr [];
  run_encoder := λ _ _, mkCompleted 0 [] [] (Some []);
  pd_read_csv := λ _, inr sample_csv_table;
  py_float := λ _, None;
  decode_utf8 := λ bs, Some (String.string_of_list_byte bs);
  rng_permutation := λ s n, (seq 0 n, s)
|}.

(** A machine that has the CSV file only. *)
Definition world_with_csv : World :=
  mkWorld {[ "data/simulation.csv" := [] ]} {[ "data" ]} true true 0 [].

(** The two exceptions of [.astype(int)]. *)
Definition nan_error : exn := ValueError "cannot convert float NaN to integer".
Definition too_large_error : exn :=
  OverflowError "Python int too large to convert to C long".

(** A machine on which the frames of the standard video have been
    rendered. *)
Definition world_with_frames : World :=
  mkWorld {[ "temp_frames/standard/frame_0000.png" := [] ]}
    {[ "temp_frames/standard" ]} true true 0 [].

(** The dimensions [main] computes for [sample_table] without
    parameters. *)
Definition sample_cylinder : Cylinder :=
  match main_dimensions None sample_table with
  | inr c => c
  | inl _ => mkCylinder F1 F1 F1 F1
  end.

(** A machine for [scripts/generate_mp4.py], run from the directory
    [scripts], with both dependencies and the sample trajectory. *)
Definition scripts_world : World :=
  mkWorld {[ "../data/simulation.bin" := sample_trajectory ]} {[ "../data" ]}
    true true 0 [].

(** The squared distance from the axis as [generate_video.py] computes
    it: [x ** 2 + y ** 2]. *)
Definition radial2 (r : Row) : float :=
  SFadd 53 1024 (fmul (x_position r) (x_position r))
    (fmul (y_position r) (y_position r)).

(** [m] is the largest squared distance over the rows. *)
Definition largest_radial2 (rows : list Row) (m : float) : Prop :=
  (∃ r, r ∈ rows ∧ m = radial2 r)
  ∧ ∀ r, r ∈ rows → fleb (radial2 r) m = true.

(** One particle at x = 3.0, y = 4.0. *)
Definition table_3_4 : DataFrame :=
  let z := S754_zero false in
  mkDataFrame binary_columns [mkRow 0 (float_of_Z 3) (float_of_Z 4) z z z z 0].

(** A float that is not NaN and not negative. *)
Definition nonneg (f : float) : Prop :=
  match f with
  | S754_nan => False
  | S754_infinity s | S754_zero s | S754_finite s _ _ => s = false
  end.

(** ** The layout of the binary file, read by offset *)

(** The [int32] and the [float64] stored at a byte offset of a file. *)
Definition int32_at (f : list byte) (offset : nat) : Z :=
  decode_int32 (take 4 (drop offset f)).

Definition double_at (f : list byte) (offset : nat) : float :=
  decode_float64 (take 8 (drop offset f)).

(** The row of particle [p] in frame [i] of a file that declares [n]
    particles: the frame starts after the 8 bytes of the header and the
    [i] frames before it, with its timestep, and each of the six arrays
    has [8 * n] bytes. *)
Definition row_at (f : list byte) (n i p : nat) : Row :=
  let frame := 8 + i * (4 + 6 * (8 * n)) in
  let array (k : nat) := frame + 4 + k * (8 * n) + 8 * p in
  mkRow (Z.of_nat p)
    (double_at f (array 0)) (double_at f (array 1)) (double_at f (array 2))
    (double_at f (array 3)) (double_at f (array 4)) (double_at f (array 5))
    (int32_at f frame).

(** All rows, frame after frame and particle after particle. *)
Definition rows_by_offset (f : list byte) (n num_frames : nat) : list Row :=
  i ← seq 0 num_frames; row_at f n i <$> seq 0 n.

(** ** What a computation does to the world *)

(** Every run of [m] takes a world to one that is related to it by [R]. *)
Definition preserves {A} (R : relation World) (m : M A) : Prop :=
  ∀ w, R w (m w).2.

(** The events added to the trace all satisfy [P]. *)
Definition emits_only (P : Event → Prop) : relation World := λ w w',
  ∃ evs, trace w' = trace w ++ evs ∧ Forall P evs.

(** The files that are not [touched] have the contents they had (and
    those among them that did not exist still do not). *)
Definition keeps_files (touched : string → Prop) : relation World := λ w w',
  ∀ p, ¬ touched p → files w' !! p = files w !! p.

(** The command lines run, and the directories removed, among some
    events. *)
Definition runs (evs : list Event) : list (list string) :=
  omap (λ ev, match ev with RunProcess cmd => Some cmd | _ => None end) evs.

Definition removed (evs : list Event) : list string :=
  omap (λ ev, match ev with Rmtree path => Some path | _ => None end) evs.

(** The events of the rendering phase: messages, the creation of
    directories and the export of images. *)
Definition rendering_event (ev : Event) : Prop :=
  match ev with
  | Log _ _ | Mkdir _ | WriteImage _ _ => True
  | _ => False
  end.

(** The events of reading the inputs. *)
Definition reading_event (ev : Event) : Prop :=
  match ev with
  | Log _ _ | OpenRead _ => True
  | _ => False
  end.

(** The directories are the same. *)
Definition same_dirs : relation World := λ w w', dirs w' = dirs w.

(** What the statements after a frame loop add to the trace when they
    raise in or before the encoder ([false]) and when they run to their
    end ([true]). *)
Definition encoder_events (script : Script) (temp_dir output_mp4 : string)
    (finished : bool) : list Event :=
  [Log INFO [Txt "Creating MP4: "; Txt output_mp4];
   RunProcess (ffmpeg_cmd script temp_dir output_mp4)]
  ++ if finished
     then [Log INFO [Txt "✓ Created: "; Txt output_mp4]; Rmtree temp_dir]
     else [].

(** The outcome of generating one video, as the trace shows it: events
    of the rendering phase, then nothing more when rendering (or the
    preparation before it) raised, and otherwise the events of the
    encoder. *)
Definition video_outcome (script : Script) (temp_dir output_mp4 : string)
    (result : exn + unit) (evs : list Event) : Prop :=
  ∃ pre post, evs = pre ++ post ∧ Forall rendering_event pre
    ∧ ((post = [] ∧ ∃ e, result = inl e)
       ∨ (post = encoder_events script temp_dir output_mp4 false
          ∧ ∃ e, result = inl e)
       ∨ (post = encoder_events script temp_dir output_mp4 true
          ∧ result = inr tt)).

(** The paths a run of a script may write or remove: what lies in the
    two frame directories, and the two videos. *)
Definition frame_or_video (script : Script) (p : string) : Prop :=
  inside (path_join (TEMP_FRAMES_DIR script) "standard") p = true
  ∨ inside (path_join (TEMP_FRAMES_DIR script) "tracking") p = true
  ∨ p = path_join (OUTPUT_DIR script) "particles_standard.mp4"
  ∨ p = path_join (OUTPUT_DIR script) "particles_tracked.mp4".

(** A machine with both dependencies and no file at all. *)
Definition empty_machine : World := mkWorld ∅ ∅ true true 0 [].

(** The message of [read_binary_simulation] when neither file exists. *)
Definition neither_found (filename : string) : exn :=
  FileNotFoundError
    ("Neither " +:+ filename +:+ " nor " +:+ with_suffix filename ".csv"
     +:+ " found").

(** The events added to the trace of [w] in [w']. *)
Definition new_events (w w' : World) : list Event :=
  drop (length (trace w)) (trace w').

(** A character that ends a line for [readline]. *)
Definition is_line_end (c : ascii) : bool :=
  (N.eqb (ascii_code c) 10 || N.eqb (ascii_code c) 13)%bool.

Definition line_feed : string := String (Ascii.ascii_of_N 10) EmptyString.

(** The parameter file can be used and holds the radius and the height
    [p]: it exists, is text, and the fields 6 and 7 (counted from 0) of
    its first line are accepted by [float] with these values. *)
Definition parameters_usable `{Backend} (parameter_file : string)
    (w : World) (p : Params) : Prop :=
  ∃ contents text s6 s7,
    files w !! parameter_file = Some contents
    ∧ decode_utf8 contents = Some text
    ∧ split tab (strip (readline text)) !! 6 = Some s6
    ∧ split tab (strip (readline text)) !! 7 = Some s7
    ∧ py_float s6 = Some (params_Wall p)
    ∧ py_float s7 = Some (params_height p).

(** The rows [render_tracking_frame] shows at a timestep. *)
Definition tracked_rows (df : DataFrame) (timestep : Z)
    (tracked_particles : list Z) : list Row :=
  filter (λ r, time r = timestep ∧ Particles r ∈ tracked_particles) (df_rows df).

(** A table with the columns of the binary reader and no row, as
    [pandas.read_csv] returns it for a file that has only the header
    line. *)
Definition header_only_table : DataFrame := mkDataFrame binary_columns [].

(** The values of a column that are not NaN. *)
Definition present (s : list float) : list float :=
  filter (λ v, is_nan v = false) s.

(** Collaborators whose image export raises. *)
Definition failing_export_backend : Backend := {|
  write_image := λ _, inl (BackendError "image export failed");
  run_encoder := λ _ _, mkCompleted 0 [] [] (Some []);
  pd_read_csv := λ _, inl (BackendError "no CSV parser");
  py_float := λ _, None;
  decode_utf8 := λ bs, Some (String.string_of_list_byte bs);
  rng_permutation := λ s n, (seq 0 n, s)
|}.

(** ** [generate_video.py]: the animated figure of the standard view *)

(** A named frame of an animation, with the data of its scatter trace. *)
Record AnimationFrame : Type := mkAnimationFrame {
  frame_label : string;                 (* [name=f"frame{idx}"] *)
  frame_x : list float;
  frame_y : list float;
  frame_z : list float;
  frame_marker_color : MarkerColor;
  frame_customdata : list Z             (* [customdata=frame_data["Particles"]] *)
}.

(** A step of the slider: the name of the frame it shows and its label. *)
Record SliderStep : Type := mkSliderStep {
  step_frame : string;                  (* [args[0] = [f"frame{i}"]] *)
  step_label : string                   (* [label=str(timesteps[i])] *)
}.

(** The animated figure: the title, the cylinder, the scatter trace shown
    before any frame is played, the frames and the steps of the slider. *)
Record Animation : Type := mkAnimation {
  anim_title : string;
  anim_Wall : float;
  anim_height_min : float;
  anim_height_max : float;
  anim_x : list float;
  anim_y : list float;
  anim_z : list float;
  anim_marker_color : MarkerColor;
  anim_customdata : list Z;
  anim_frames : list AnimationFrame;
  anim_steps : list SliderStep
}.

(** The [go.Frame] built in the loop of [create_standard_visualization]
    for position [idx] and a timestep. *)
Definition standard_animation_frame (df : DataFrame) (idx : nat)
    (timestep : Z) : exn + AnimationFrame :=
  elet _t := df_get df "time" time in
  let frame_data :=
    mkDataFrame (df_columns df) (filter (λ r, time r = timestep) (df_rows df)) in
  elet x := df_get frame_data "x-position" x_position in
  elet y := df_get frame_data "y-position" y_position in
  elet z := df_get frame_data "z-position" z_position in
  elet _z := df_get frame_data "z-position" z_position in
  elet p := df_get frame_data "Particles" Particles in
  inr (mkAnimationFrame ("frame" +:+ pretty idx) x y z ColorByHeight p).

(** [for idx, timestep in enumerate(timesteps): frames.append(...)], on
    the pairs still to visit. *)
Fixpoint animation_frames (frame : nat → Z → exn + AnimationFrame)
    (items : list (nat * Z)) : exn + list AnimationFrame :=
  match items with
  | [] => inr []
  | (idx, timestep) :: rest =>
      elet f := frame idx timestep in
      elet fs := animation_frames frame rest in
      inr (f :: fs)
  end.

(** The list comprehension of the slider, on the indices still to
    visit. *)
Fixpoint slider_steps (timesteps : list Z) (indices : list nat)
    : exn + list SliderStep :=
  match indices with
  | [] => inr []
  | i :: rest =>
      elet t := list_index timesteps i in
      elet steps := slider_steps timesteps rest in
      inr (mkSliderStep ("frame" +:+ pretty i) (pretty t) :: steps)
  end.

(** [create_standard_visualization(df, Wall, height_min, height_max)]. *)
Definition create_standard_visualization (df : DataFrame) (c : Cylinder)
    : M Animation :=
  mlet timesteps := lift (timesteps_of df) in
  let num_frames := length timesteps in
  logging_info [Txt "Creating standard visualization (";
                Txt (pretty num_frames); Txt " frames)..."] ;;
  mlet frames :=
    lift (animation_frames (standard_animation_frame df) (enumerate timesteps)) in
  mlet _t := lift (df_get df "time" time) in
  mlet t0 := lift (list_index timesteps 0) in
  let initial_data :=
    mkDataFrame (df_columns df) (filter (λ r, time r = t0) (df_rows df)) in
  mlet x := lift (df_get initial_data "x-position" x_position) in
  mlet y := lift (df_get initial_data "y-position" y_position) in
  mlet z := lift (df_get initial_data "z-position" z_position) in
  mlet _z := lift (df_get initial_data "z-position" z_position) in
  mlet p := lift (df_get initial_data "Particles" Particles) in
  mlet steps := lift (slider_steps timesteps (seq 0 num_frames)) in
  ret (mkAnimation
         ("Active Brownian Particles - Standard View<br><sub>"
          +:+ pretty (length (df_rows initial_data)) +:+ " particles</sub>")
         (Wall c) (height_min c) (height_max c)
         x y z ColorByHeight p frames steps).

(** ** [visualize_benchmark.py]: the summary *)

(** One row of [benchmark_results.csv]. *)
Record BenchRow : Type := mkBenchRow {
  bench_Particles : Z;
  Single_CPU_Time : float;
  OpenMP_6_Time : float;
  GPU_Time : float;
  OpenMP_vs_Single : float;
  GPU_vs_OpenMP : float;
  GPU_vs_Single : float
}.

(** The [if]/[elif]/[else] in the loop of [print_summary]: the
    configuration named in the recommendation of a row. *)
Definition recommended_config (row : BenchRow) : string :=
  if fltb (GPU_Time row) (OpenMP_6_Time row)
     && fltb (GPU_Time row) (Single_CPU_Time row)
  then "GPU Metal"
  else if fltb (OpenMP_6_Time row) (Single_CPU_Time row)
  then "OpenMP (6 threads)"
  else "Single CPU".

(** [Series.idxmax()] on a column of integers with the default index:
    the position of the first occurrence of the maximum. *)
Fixpoint argmax_from (best_idx : nat) (best : Z) (idx : nat) (s : list Z)
    : nat :=
  match s with
  | [] => best_idx
  | v :: r =>
      if (best <? v)%Z then argmax_from idx v (S idx) r
      else argmax_from best_idx best (S idx) r
  end.

Definition idxmax (s : list Z) : exn + nat :=
  match s with
  | [] => inl (ValueError "attempt to get argmax of an empty sequence")
  | v :: r => inr (argmax_from 0 v 1 r)
  end.

(** [series.iloc[i]] for a non-negative position. *)
Definition iloc {A} (s : list A) (i : nat) : exn + A :=
  match s !! i with
  | Some v => inr v
  | None => inl (IndexError (Z.of_nat i) (Z.of_nat (length s)))
  end.

(** The row whose times and speedups [print_summary] reports "at
    maximum particle count": [df[...].iloc[df["Particles"].idxmax()]]. *)
Definition summary_row (rows : list BenchRow) : exn + BenchRow :=
  elet max_idx := idxmax (bench_Particles <$> rows) in
  iloc rows max_idx.

(** A benchmark of four runs, the largest size measured twice. *)
Definition sample_benchmark : list BenchRow :=
  let t := float_of_Z in
  [mkBenchRow 100 (t 2) (t 3) (t 5) (t 1) (t 1) (t 1);
   mkBenchRow 750 (t 9) (t 4) (t 4) (t 1) (t 1) (t 1);
   mkBenchRow 5000 (t 90) (t 30) (t 6) (t 1) (t 1) (t 1);
   mkBenchRow 5000 (t 91) (t 31) (t 7) (t 1) (t 1) (t 1)]%Z.

(** The encoder is still found on the path. *)
Definition same_ffmpeg : relation World := λ w w',
  ffmpeg_on_path w' = ffmpeg_on_path w.

(** No file has appeared at [path]. *)
Definition no_file_at (path : string) : relation World := λ w w',
  files w !! path = None → files w' !! path = None.

(** Nothing but the trace and the state of the random generator has
    changed. *)
Definition same_machine : relation World := λ w w',
  files w' = files w ∧ dirs w' = dirs w
  ∧ kaleido_installed w' = kaleido_installed w
  ∧ ffmpeg_on_path w' = ffmpeg_on_path w.

(** * Properties *)

(** ** The binary reader on files that end early *)

Lemma length_decode_items {A} itemsize (dec : list byte → A) n s :
  length (decode_items itemsize dec n s) = n.
Proof. revert s; induction n as [|n IH]; intros s; simpl; [done|]. by rewrite IH. Qed.

(** A read of [count >= 0] doubles is whole, or stops at the end of the
    file with fewer items. *)
Lemma fromfile_float64_cases count f a f' :
  (0 ≤ count)%Z → fromfile_float64 count f = (a, f') →
  (length a = Z.to_nat count ∧ 8 * Z.to_nat count ≤ length f
     ∧ length f' = length f - 8 * Z.to_nat count)
  ∨ (length a < Z.to_nat count ∧ length f < 8 * Z.to_nat count ∧ f' = []).
Proof.
  intros Hc. unfold fromfile_float64, fromfile.
  pose proof (Nat.div_mod_eq (length f) 8) as Hdm.
  pose proof (Nat.mod_upper_bound (length f) 8 ltac:(lia)) as Hmb.
  remember (length f / 8) as q eqn:Hq. clear Hq.
  destruct (Z.ltb_spec count 0) as [?|_]; [lia|].
  destruct (Nat.leb_spec (Z.to_nat count) q) as [Hle|Hgt];
    intros [= <- <-]; rewrite length_decode_items.
  - left. rewrite length_drop. split; [done|]. split; lia.
  - right. split; [lia|]. split; [lia|done].
Qed.

Lemma fromfile_int32_one f :
  (4 ≤ length f ∧ ∃ v, fromfile_int32 1 f = ([v], drop 4 f))
  ∨ (length f < 4 ∧ fromfile_int32 1 f = ([], [])).
Proof.
  unfold fromfile_int32, fromfile. simpl (1 <? 0)%Z. cbv iota.
  pose proof (Nat.div_mod_eq (length f) 4) as Hdm.
  pose proof (Nat.mod_upper_bound (length f) 4 ltac:(lia)) as Hmb.
  remember (length f / 4) as q eqn:Hq. clear Hq.
  change (Z.to_nat 1) with 1.
  destruct (Nat.leb_spec 1 q) as [Hle|Hgt].
  - left. split; [lia|]. eexists. reflexivity.
  - right. split; [lia|]. assert (q = 0) as -> by lia. done.
Qed.

Lemma np_index_Some {A} (a : list A) i v : np_index a i = inr v → i < length a.
Proof.
  unfold np_index. destruct (a !! i) eqn:E; [|done].
  intros _. by eapply lookup_lt_Some.
Qed.

Lemma np_index_error {A} (a : list A) i e :
  np_index a i = inl e → is_IndexError e = true.
Proof. unfold np_index. destruct (a !! i); [done|]. by intros [= <-]. Qed.

(** A row is built only when the id is inside all six arrays; otherwise
    the subscript raises [IndexError]. *)
Lemma particle_row_inv x y z ex ey ez t id :
  (∃ e, particle_row x y z ex ey ez t id = inl e ∧ is_IndexError e = true)
  ∨ (∃ r, particle_row x y z ex ey ez t id = inr r
       ∧ Particles r = Z.of_nat id ∧ time r = t
       ∧ id < length x ∧ id < length y ∧ id < length z
       ∧ id < length ex ∧ id < length ey ∧ id < length ez).
Proof.
  unfold particle_row.
  destruct (np_index x id) eqn:Ex; simpl; [left; eauto using np_index_error|].
  destruct (np_index y id) eqn:Ey; simpl; [left; eauto using np_index_error|].
  destruct (np_index z id) eqn:Ez; simpl; [left; eauto using np_index_error|].
  destruct (np_index ex id) eqn:Eex; simpl; [left; eauto using np_index_error|].
  destruct (np_index ey id) eqn:Eey; simpl; [left; eauto using np_index_error|].
  destruct (np_index ez id) eqn:Eez; simpl; [left; eauto using np_index_error|].
  right. eexists. split; [done|]. simpl. repeat split; by eapply np_index_Some.
Qed.

Lemma append_particles_inv x y z ex ey ez t ids data :
  (∃ e, append_particles x y z ex ey ez t ids data = inl e
        ∧ is_IndexError e = true)
  ∨ (∃ d, append_particles x y z ex ey ez t ids data = inr d
       ∧ length d = length data + length ids
       ∧ ∀ id, id ∈ ids →
           id < length x ∧ id < length y ∧ id < length z
           ∧ id < length ex ∧ id < length ey ∧ id < length ez).
Proof.
  revert data. induction ids as [|id ids IH]; intros data; simpl.
  - right. eexists. split; [done|]. split; [lia|].
    intros id Hid. by apply elem_of_nil in Hid.
  - destruct (particle_row_inv x y z ex ey ez t id)
      as [(e & -> & He)|(r & -> & _ & _ & Hr)]; simpl.
    + left; eauto.
    + destruct (IH (data ++ [r])) as [(e & -> & He)|(d & -> & Hlen & Hd)].
      * left; eauto.
      * right. eexists. split; [done|]. split.
        { rewrite Hlen, length_app. simpl. lia. }
        intros id' [->|Hin]%elem_of_cons; auto.
Qed.

(** Fewer bytes than the frames still to read need: some subscript is out
    of range and the loop raises [IndexError]. *)
Lemma read_frames_truncated k : ∀ num_particles f data,
  (0 ≤ num_particles)%Z →
  length f < k * frame_size num_particles →
  ∃ e, read_frames k num_particles f data = inl e ∧ is_IndexError e = true.
Proof.
  induction k as [|k IH]; intros np f data Hnp Hlen; [simpl in Hlen; lia|].
  cbn [read_frames].
  destruct (fromfile_int32_one f) as [(H4 & v & ->)|(H4 & ->)]; simpl.
  2:{ eexists. split; [reflexivity|done]. }
  destruct (fromfile_float64 np (drop 4 f)) as [x f1] eqn:Hx.
  destruct (fromfile_float64 np f1) as [y f2] eqn:Hy.
  destruct (fromfile_float64 np f2) as [z f3] eqn:Hz.
  destruct (fromfile_float64 np f3) as [ex f4] eqn:Hex.
  destruct (fromfile_float64 np f4) as [ey f5] eqn:Hey.
  destruct (fromfile_float64 np f5) as [ez f6] eqn:Hez.
  apply fromfile_float64_cases in Hx, Hy, Hz, Hex, Hey, Hez; try done.
  rewrite length_drop in Hx.
  destruct (append_particles_inv x y z ex ey ez v (seq 0 (Z.to_nat np)) data)
    as [(e & -> & He)|(d & -> & _ & Hd)]; simpl; [eauto|].
  assert (Z.to_nat np = 0 ∨
          (Z.to_nat np ≤ length x ∧ Z.to_nat np ≤ length y
           ∧ Z.to_nat np ≤ length z ∧ Z.to_nat np ≤ length ex
           ∧ Z.to_nat np ≤ length ey ∧ Z.to_nat np ≤ length ez)) as Hfull.
  { destruct (Z.to_nat np) as [|n] eqn:En; [by left|right].
    specialize (Hd n). rewrite elem_of_seq in Hd. lia. }
  apply IH; [done|]. unfold frame_size in *.
  destruct Hx as [(?&?&?)|(?&?&->)], Hy as [(?&?&?)|(?&?&->)],
    Hz as [(?&?&?)|(?&?&->)], Hex as [(?&?&?)|(?&?&->)],
    Hey as [(?&?&?)|(?&?&->)], Hez as [(?&?&?)|(?&?&->)];
    simpl in *; lia.
Qed.

Lemma read_binary_contents_truncated f :
  is_truncated f = true →
  ∃ e, read_binary_contents f = inl e ∧ is_IndexError e = true.
Proof.
  unfold is_truncated, read_binary_contents.
  destruct (read_header f) as [e|[[np nf] rest]]; [done|].
  intros [Hnp Hlen]%andb_true_iff. simpl.
  apply Z.leb_le in Hnp. apply Nat.ltb_lt in Hlen.
  destruct (read_frames_truncated _ np rest [] Hnp Hlen) as (e & -> & He).
  eauto.
Qed.

(** [read_binary_simulation] on an existing file does what
    [read_binary_contents] does on its contents. *)
Lemma read_binary_simulation_result `{Backend} filename w f :
  files w !! filename = Some f →
  (read_binary_simulation filename w).1 = read_binary_contents f.
Proof.
  intros Hf. unfold read_binary_simulation, read_binary_contents, bind,
    path_exists, open_read, lift.
  rewrite Hf. rewrite bool_decide_eq_true_2 by eauto. simpl. rewrite Hf.
  destruct (read_header f) as [e|[[np nf] rest]]; [done|]. simpl.
  by destruct (read_frames (Z.to_nat nf) np rest []).
Qed.

(** C2 (as amended): a binary trajectory file whose contents end before
    the frame records declared in its header makes
    [read_binary_simulation] raise [IndexError], the exception of the
    first subscript that is out of range; no table is returned, however
    many rows had been collected.  The exception carries an index and an
    array size, not the array or the frame that was short. *)
Theorem truncated_binary_read_raises `{Backend} filename w f :
  files w !! filename = Some f →
  is_truncated f = true →
  ∃ index size, (read_binary_simulation filename w).1
                = inl (IndexError index size).
Proof.
  intros Hf Ht. rewrite (read_binary_simulation_result _ _ _ Hf).
  destruct (read_binary_contents_truncated f Ht) as (e & -> & He).
  destruct e; try done. eauto.
Qed.

Lemma truncated_binary_read_raises_witness :
  files (world_with short_x_file) !! "data/simulation.bin" = Some short_x_file
  ∧ is_truncated short_x_file = true
  ∧ ∃ index size,
      (@read_binary_simulation sample_backend "data/simulation.bin"
         (world_with short_x_file)).1 = inl (IndexError index size).
Proof.
  split; [reflexivity|]. split; [reflexivity|].
  apply (@truncated_binary_read_raises sample_backend "data/simulation.bin"
           (world_with short_x_file) short_x_file); reflexivity.
Defined.

(** C2 (as stated) fails: the file that ends after 30 of the 50 declared
    values of the first array and the file that ends after the whole
    first array raise the same exception, so the exception cannot tell
    which array was short. *)
Lemma truncation_error_names_no_array :
  read_binary_contents short_x_file = inl (IndexError 0 0)
  ∧ read_binary_contents short_y_file = inl (IndexError 0 0)
  ∧ first_short short_x_file = Some (0, Fx)
  ∧ first_short short_y_file = Some (0, Fy)
  ∧ ¬ ∃ name_of, identifies_short_array name_of.
Proof.
  assert (read_binary_contents short_x_file = inl (IndexError 0 0)) as Hx
    by (vm_compute; reflexivity).
  assert (read_binary_contents short_y_file = inl (IndexError 0 0)) as Hy
    by (vm_compute; reflexivity).
  assert (first_short short_x_file = Some (0, Fx)) as Sx by (vm_compute; reflexivity).
  assert (first_short short_y_file = Some (0, Fy)) as Sy by (vm_compute; reflexivity).
  repeat split; try assumption.
  intros [name_of Hn].
  destruct (Hn short_x_file) as (e1 & E1 & N1); [vm_compute; reflexivity|].
  destruct (Hn short_y_file) as (e2 & E2 & N2); [vm_compute; reflexivity|].
  rewrite Hx in E1. rewrite Hy in E2. rewrite Sx in N1. rewrite Sy in N2.
  congruence.
Qed.

(** ** The colours *)

Lemma string_length_app (s1 s2 : string) :
  String.length (s1 +:+ s2) = String.length s1 + String.length s2.
Proof. induction s1 as [|a s1 IH]; simpl; [done|]. by rewrite IH. Qed.

Lemma string_app_inv_tail (s1 s2 t : string) : s1 +:+ t = s2 +:+ t → s1 = s2.
Proof.
  revert s2. induction s1 as [|a s1 IH]; intros [|b s2] Heq; simpl in *.
  - done.
  - apply (f_equal String.length) in Heq.
    rewrite !string_length_app in Heq. simpl in Heq. lia.
  - apply (f_equal String.length) in Heq.
    rewrite !string_length_app in Heq. simpl in Heq. lia.
  - injection Heq as -> Heq. f_equal. by apply IH.
Qed.

Lemma hsl_inj h1 h2 : hsl h1 = hsl h2 → h1 = h2.
Proof.
  unfold hsl. intros Heq. apply String.app_inj in Heq.
  apply string_app_inv_tail in Heq. by apply (inj pretty) in Heq.
Qed.

Lemma hue_step i n : (1 ≤ n ≤ 360)%Z → (0 ≤ i)%Z → (hue i n + 1 ≤ hue (i + 1) n)%Z.
Proof.
  intros Hn Hi. unfold hue.
  rewrite <- (Z.div_add (360 * i) 1 n) by lia.
  apply Z.div_le_mono; lia.
Qed.

Lemma hue_mono i j n : (1 ≤ n)%Z → (0 ≤ i ≤ j)%Z → (hue i n ≤ hue j n)%Z.
Proof. intros. unfold hue. apply Z.div_le_mono; lia. Qed.

Lemma hue_strictly_increasing i j n :
  (1 ≤ n ≤ 360)%Z → (0 ≤ i < j)%Z → (hue i n < hue j n)%Z.
Proof.
  intros Hn Hij. pose proof (hue_step i n Hn ltac:(lia)).
  pose proof (hue_mono (i + 1) j n ltac:(lia) ltac:(lia)). lia.
Qed.

Lemma colors_lookup n (i : nat) :
  i < Z.to_nat n → colors n !! i = Some (hsl (hue (Z.of_nat i) n)).
Proof.
  intros Hi. unfold colors. rewrite list_lookup_fmap.
  rewrite lookup_seq_lt by done. done.
Qed.

Lemma length_colors n : length (colors n) = Z.to_nat n.
Proof. unfold colors. by rewrite length_fmap, length_seq. Qed.

Lemma colors_NoDup n : (n ≤ 360)%Z → NoDup (colors n).
Proof.
  intros Hn. unfold colors. apply NoDup_fmap_2_strong; [|apply NoDup_seq].
  intros i j Hi Hj Heq. apply hsl_inj in Heq.
  apply elem_of_seq in Hi, Hj.
  destruct (decide (i = j)) as [|Hne]; [done|exfalso].
  assert (i < j ∨ j < i) as [Hlt|Hlt] by lia.
  - pose proof (hue_strictly_increasing (Z.of_nat i) (Z.of_nat j) n ltac:(lia) ltac:(lia)). lia.
  - pose proof (hue_strictly_increasing (Z.of_nat j) (Z.of_nat i) n ltac:(lia) ltac:(lia)). lia.
Qed.

Lemma colors_collide n :
  (360 < n)%Z → colors n !! 0 = Some (hsl 0) ∧ colors n !! 1 = Some (hsl 0).
Proof.
  intros Hn. rewrite !colors_lookup by lia. unfold hue.
  change (Z.of_nat 0) with 0%Z. change (Z.of_nat 1) with 1%Z.
  rewrite Z.mul_0_r, Z.mul_1_r, Zdiv_0_l, Z.div_small by lia. done.
Qed.

(** The integer quotient is what Python computes: checked against the
    binary64 division and truncation at every position for the sample
    sizes up to 100 and the sizes 360 and 361, and at the positions 0 and
    1 for the sizes up to 2000. *)
Lemma hue_float_agrees :
  forallb hue_agrees (seq 1 100) && forallb hue_agrees [360; 361]
  && forallb (λ n : nat, hue_agrees_at n 0 && hue_agrees_at n 1) (seq 1 2000)
  = true.
Proof. vm_compute. reflexivity. Qed.

(** C10: for a tracked count [n >= 1] the colour strings
    [hsl(int(360 * i / n), 70%, 50%)], [i = 0 .. n-1], are pairwise
    distinct exactly when [n <= 360]: up to 360 the truncated hues grow
    strictly with [i]; beyond 360 two positions get the same string. *)
Theorem colors_distinct_iff n :
  (1 ≤ n)%Z →
  (NoDup (colors n) ↔ (n ≤ 360)%Z)
  ∧ ((n ≤ 360)%Z → ∀ i j, (0 ≤ i < j)%Z → (j < n)%Z → (hue i n < hue j n)%Z)
  ∧ ((360 < n)%Z → ∃ i j c, i ≠ j ∧ colors n !! i = Some c ∧ colors n !! j = Some c).
Proof.
  intros Hn. split; [split|split].
  - intros Hnd. destruct (Z.le_gt_cases n 360) as [|Hgt]; [done|exfalso].
    destruct (colors_collide n Hgt) as [H0 H1].
    pose proof (NoDup_lookup _ 0 1 _ Hnd H0 H1). done.
  - apply colors_NoDup.
  - intros Hle i j Hij _. apply hue_strictly_increasing; lia.
  - intros Hgt. destruct (colors_collide n Hgt) as [H0 H1].
    exists 0, 1, (hsl 0). done.
Qed.

Lemma colors_distinct_iff_witness :
  (1 ≤ 7)%Z
  ∧ ((NoDup (colors 7) ↔ (7 ≤ 360)%Z)
     ∧ ((7 ≤ 360)%Z →
        ∀ i j, (0 ≤ i < j)%Z → (j < 7)%Z → (hue i 7 < hue j 7)%Z)
     ∧ ((360 < 7)%Z →
        ∃ i j c, i ≠ j ∧ colors 7 !! i = Some c ∧ colors 7 !! j = Some c)).
Proof. split; [lia|]. apply (colors_distinct_iff 7). lia. Defined.

(** ** Sampling without replacement *)

Lemma elem_of_unique {A} `{EqDecision A} (l : list A) x : x ∈ unique l ↔ x ∈ l.
Proof.
  induction l as [|a l IH]; simpl; [done|].
  rewrite !elem_of_cons, list_elem_of_filter, IH.
  destruct (decide (x = a)); tauto.
Qed.

Lemma NoDup_unique {A} `{EqDecision A} (l : list A) : NoDup (unique l).
Proof.
  induction l as [|a l IH]; simpl; [constructor|].
  constructor; [|by apply NoDup_filter].
  rewrite list_elem_of_filter. tauto.
Qed.

(** [a[idx]] succeeds when the indices are in range, and then selects
    position by position. *)
Lemma index_all_ok (a : list Z) idx :
  Forall (λ i, i < length a) idx →
  ∃ vs, index_all a idx = inr vs ∧ Forall2 (λ i v, a !! i = Some v) idx vs.
Proof.
  induction 1 as [|i idx Hi _ (vs & IH & Hvs)]; simpl.
  - eexists; split; [done|constructor].
  - unfold np_index. destruct (lookup_lt_is_Some_2 a i Hi) as [v Hv].
    rewrite Hv. simpl. rewrite IH. simpl. eexists; split; [done|].
    by constructor.
Qed.

Lemma selection_NoDup (a : list Z) idx vs :
  NoDup a → NoDup idx → Forall2 (λ i v, a !! i = Some v) idx vs → NoDup vs.
Proof.
  intros Ha Hidx Hsel. induction Hsel as [|i v idx vs Hv Hsel IH]; [constructor|].
  apply NoDup_cons in Hidx as [Hi Hidx]. constructor; [|by apply IH].
  intros Hin. apply list_elem_of_lookup in Hin as [k Hk].
  destruct (Forall2_lookup_r _ _ _ _ _ Hsel Hk) as (j & Hj & Hjv).
  assert (i = j) as -> by exact (NoDup_lookup a i j v Ha Hv Hjv).
  apply Hi. by eapply list_elem_of_lookup_2.
Qed.

Lemma selection_subset (a : list Z) idx vs :
  Forall2 (λ i v, a !! i = Some v) idx vs → ∀ v, v ∈ vs → v ∈ a.
Proof.
  intros Hsel v Hin. apply list_elem_of_lookup in Hin as [k Hk].
  destruct (Forall2_lookup_r _ _ _ _ _ Hsel Hk) as (j & Hj & Hjv).
  by eapply list_elem_of_lookup_2.
Qed.

Lemma foldl_insert_notin (keys : list Z) (values : list string)
    (d : gmap Z string) k :
  k ∉ keys →
  foldl (λ (d : gmap Z string) kv, <[kv.1 := kv.2]> d) d (zip keys values) !! k
  = d !! k.
Proof.
  revert values d. induction keys as [|k0 keys IH]; intros [|v0 values] d Hk;
    simpl; try done.
  apply not_elem_of_cons in Hk as [Hne Hk].
  rewrite IH by done. by rewrite lookup_insert_ne.
Qed.

(** Without repeated keys, the dictionary maps the key at each position
    to the value at the same position. *)
Lemma dict_zip_lookup (keys : list Z) (values : list string) i k v :
  NoDup keys → keys !! i = Some k → values !! i = Some v →
  dict_zip keys values !! k = Some v.
Proof.
  unfold dict_zip. generalize (∅ : gmap Z string) as d.
  revert values i. induction keys as [|k0 keys IH];
    intros [|v0 values] i d Hnd Hk Hv; try done.
  apply NoDup_cons in Hnd as [Hk0 Hnd]. destruct i as [|i]; simpl in *.
  - injection Hk as ->. injection Hv as ->.
    rewrite foldl_insert_notin by done. by rewrite lookup_insert_eq.
  - by eapply IH.
Qed.

Lemma tracked_count_ge_1 f n k : tracked_count f n = inr k → (1 ≤ k)%Z.
Proof.
  unfold tracked_count. destruct (int_of_float _); simpl; [done|].
  intros [= <-]. lia.
Qed.

(** ** The tracked particles and their colours *)

Section Selection.
Context `{Backend}.

(** NumPy draws a permutation of the indices of the population. *)
Hypothesis rng_permutation_ok : ∀ s n, (rng_permutation s n).1 ≡ₚ seq 0 n.

Lemma np_random_choice_ok (a : list Z) (size : Z) w :
  NoDup a → (1 ≤ size ≤ Z.of_nat (length a))%Z →
  ∃ tracked,
    np_random_choice a size w
    = (inr tracked, set_rng (rng_permutation (rng w) (length a)).2 w)
    ∧ length tracked = Z.to_nat size ∧ NoDup tracked
    ∧ ∀ v, v ∈ tracked → v ∈ a.
Proof.
  intros Ha Hsize. unfold np_random_choice.
  rewrite bool_decide_eq_false_2 by lia. simpl.
  destruct (Z.ltb_spec (Z.of_nat (length a)) size) as [?|_]; [lia|].
  destruct (Z.ltb_spec size 0) as [?|_]; [lia|].
  pose proof (rng_permutation_ok (rng w) (length a)) as Hp.
  destruct (rng_permutation (rng w) (length a)) as [perm r]. simpl in *.
  assert (NoDup perm) as Hnd by (rewrite Hp; apply NoDup_seq).
  assert (Forall (λ i, i < length a) (take (Z.to_nat size) perm)) as Hin.
  { apply Forall_take. rewrite Hp. apply Forall_forall.
    intros i Hi%elem_of_seq. lia. }
  destruct (index_all_ok a _ Hin) as (vs & -> & Hsel).
  exists vs. split; [done|]. split; [|split].
  - rewrite <- (Forall2_length _ _ _ Hsel), length_take.
    rewrite Hp, length_seq. lia.
  - eapply selection_NoDup; [done| |done].
    eapply sublist_NoDup; [exact Hnd|apply sublist_take].
  - by eapply selection_subset.
Qed.

(** What [select_tracked] returns when the count fits the population. *)
Lemma select_tracked_ok script df w p k :
  df_get df "Particles" Particles = inr p →
  tracked_count (TRACK_PERCENTAGE script) (length (unique p)) = inr k →
  (k ≤ Z.of_nat (length (unique p)))%Z →
  ∃ tracked w',
    select_tracked script df w
    = (inr (tracked, dict_zip tracked (colors k)), w')
    ∧ length tracked = Z.to_nat k ∧ NoDup tracked
    ∧ ∀ id, id ∈ tracked → id ∈ p.
Proof.
  intros Hp Hk Hle. pose proof (tracked_count_ge_1 _ _ _ Hk) as H1.
  assert (1 ≤ k ≤ Z.of_nat (length (unique p)))%Z as Hk1 by lia.
  destruct (np_random_choice_ok (unique p) k w
              (NoDup_unique p) Hk1) as (tracked & Hc & Hlen & Hnd & Hin).
  exists tracked. eexists. split; [|split; [done|split; [done|]]].
  - unfold select_tracked, bind, lift. rewrite Hp, Hk, Hc. simpl. reflexivity.
  - intros id Hid. apply elem_of_unique. auto.
Qed.

(** Conversely, every successful selection comes from such a count. *)
Lemma select_tracked_inv script df w tracked pc w' :
  select_tracked script df w = (inr (tracked, pc), w') →
  ∃ p k, df_get df "Particles" Particles = inr p
    ∧ tracked_count (TRACK_PERCENTAGE script) (length (unique p)) = inr k
    ∧ pc = dict_zip tracked (colors k)
    ∧ length tracked = Z.to_nat k ∧ (1 ≤ k)%Z ∧ NoDup tracked
    ∧ ∀ id, id ∈ tracked → id ∈ p.
Proof.
  unfold select_tracked, bind, lift.
  destruct (df_get df "Particles" Particles) as [e|p] eqn:Hp; [done|].
  destruct (tracked_count _ _) as [e|k] eqn:Hk; [done|].
  pose proof (tracked_count_ge_1 _ _ _ Hk) as H1.
  destruct (Z.le_gt_cases k (Z.of_nat (length (unique p)))) as [Hle|Hgt].
  - assert (1 ≤ k ≤ Z.of_nat (length (unique p)))%Z as Hk1 by lia.
    destruct (np_random_choice_ok (unique p) k w
                (NoDup_unique p) Hk1) as (t & -> & Hlen & Hnd & Hin).
    simpl. intros [= <- <- <-]. exists p, k. repeat split; try done.
    intros id Hid. apply elem_of_unique. auto.
  - unfold np_random_choice.
    destruct (bool_decide _ && _); [done|].
    destruct (Z.ltb_spec (Z.of_nat (length (unique p))) k) as [_|?]; [done|lia].
Qed.


(** C6 (as amended): the identifier at position [i] of the draw (the
    order in which the sample came out, not sorted) gets the colour
    [hsl(h, 70%, 50%)] whose hue [h] is [360 * i / tracked_count]
    truncated to an integer; the dictionary is a function of the drawn
    sequence alone, so two runs with the same draw assign the same
    colours. *)
Theorem colors_follow_draw_order script df w tracked pc w' :
  select_tracked script df w = (inr (tracked, pc), w') →
  (∀ i id, tracked !! i = Some id →
     pc !! id = Some (hsl (360 * Z.of_nat i / Z.of_nat (length tracked))))
  ∧ (∀ script2 df2 w2 pc2 w2',
       select_tracked script2 df2 w2 = (inr (tracked, pc2), w2') → pc2 = pc).
Proof.
  intros Hsel.
  destruct (select_tracked_inv _ _ _ _ _ _ Hsel)
    as (p & k & _ & _ & -> & Hlen & Hk & Hnd & _).
  assert (Z.of_nat (length tracked) = k) as Hk' by lia.
  split.
  - intros i id Hi. rewrite Hk'.
    apply (dict_zip_lookup tracked (colors k) i); [done|done|].
    apply colors_lookup. apply lookup_lt_Some in Hi. lia.
  - intros script2 df2 w2 pc2 w2' Hsel2.
    destruct (select_tracked_inv _ _ _ _ _ _ Hsel2)
      as (p2 & k2 & _ & _ & -> & Hlen2 & Hk2 & _).
    f_equal. f_equal. lia.
Qed.

End Selection.


Lemma colors_follow_draw_order_witness :
  (∀ s n, (@rng_permutation sample_backend s n).1 ≡ₚ seq 0 n)
  ∧ @select_tracked sample_backend generate_mp4_py sample_table
      (world_with sample_trajectory)
    = (inr ([0%Z], dict_zip [0%Z] (colors 1)),
       (@select_tracked sample_backend generate_mp4_py sample_table
          (world_with sample_trajectory)).2)
  ∧ ((∀ i id, [0%Z] !! i = Some id →
        dict_zip [0%Z] (colors 1) !! id
        = Some (hsl (360 * Z.of_nat i / Z.of_nat (length [0%Z]))))
     ∧ (∀ script2 df2 w2 pc2 w2',
          @select_tracked sample_backend script2 df2 w2
          = (inr ([0%Z], pc2), w2') → pc2 = dict_zip [0%Z] (colors 1))).
Proof.
  assert (∀ s n, (@rng_permutation sample_backend s n).1 ≡ₚ seq 0 n) as Hperm
    by (intros; reflexivity).
  split; [exact Hperm|].
  split; [vm_compute; reflexivity|].
  apply (@colors_follow_draw_order sample_backend Hperm generate_mp4_py
           sample_table (world_with sample_trajectory) [0%Z]
           (dict_zip [0%Z] (colors 1))
           (@select_tracked sample_backend generate_mp4_py sample_table
              (world_with sample_trajectory)).2).
  vm_compute; reflexivity.
Defined.

(** C6 (as stated) fails: with seven tracked particles the colour at
    position 1 has hue 51, while [360 * 1 / 7] is not an integer; the
    binary64 evaluation gives 51 as well. *)
Lemma hue_is_truncated :
  colors 7 !! 1%nat = Some "hsl(51, 70%, 50%)"
  ∧ hue_float 1 7 = inr 51%Z
  ∧ tracked_count F0_01 700 = inr 7%Z
  ∧ ¬ exact_hue 51 1 7
  ∧ ∀ h, ¬ exact_hue h 1 7.
Proof.
  split; [vm_compute; reflexivity|].
  split; [vm_compute; reflexivity|].
  split; [vm_compute; reflexivity|].
  unfold exact_hue. split; [lia|]. intros h. lia.
Qed.

(** ** Order of floats that are not NaN *)

Lemma SFcompare_key f g :
  is_nan f = false → is_nan g = false →
  SFcompare f g = Some (lex_compare (fkey f) (fkey g)).
Proof.
  destruct f as [sf|sf| |sf mf ef], g as [sg|sg| |sg mg eg]; try done; intros _ _;
    try (destruct sf; try destruct sg; reflexivity);
    try (destruct sg; reflexivity).
  destruct sf, sg; unfold lex_compare; simpl; try reflexivity.
  all: rewrite ?Z.compare_opp, ?(Z.compare_antisym eg ef).
  all: destruct (eg ?= ef)%Z; simpl; try reflexivity.
Qed.

Lemma lex_compare_le a b : lex_compare a b ≠ Gt ↔ key_le a b.
Proof.
  unfold lex_compare, key_le.
  destruct (Z.compare_spec a.1.1 b.1.1), (Z.compare_spec a.1.2 b.1.2),
    (Z.compare_spec a.2 b.2); split; intros; try done; try lia.
Qed.

Lemma lex_compare_lt a b : lex_compare a b = Lt ↔ ¬ key_le b a.
Proof.
  unfold lex_compare, key_le.
  destruct (Z.compare_spec a.1.1 b.1.1), (Z.compare_spec a.1.2 b.1.2),
    (Z.compare_spec a.2 b.2); split; intros; try done; try lia.
Qed.

Lemma fleb_key f g :
  is_nan f = false → is_nan g = false →
  fleb f g = true ↔ key_le (fkey f) (fkey g).
Proof.
  intros Hf Hg. unfold fleb, SFleb. rewrite (SFcompare_key f g Hf Hg).
  rewrite <- lex_compare_le. destruct (lex_compare _ _); split; done.
Qed.

Lemma fltb_key f g :
  is_nan f = false → is_nan g = false →
  fltb f g = true ↔ ¬ key_le (fkey g) (fkey f).
Proof.
  intros Hf Hg. unfold fltb, SFltb. rewrite (SFcompare_key f g Hf Hg).
  rewrite <- lex_compare_lt. destruct (lex_compare _ _); split; done.
Qed.

Lemma key_le_refl a : key_le a a.
Proof. unfold key_le. lia. Qed.

Lemma key_le_total a b : key_le a b ∨ key_le b a.
Proof. unfold key_le. lia. Qed.

Lemma key_le_dec a b : key_le a b ∨ ¬ key_le a b.
Proof. unfold key_le. lia. Qed.

Lemma key_le_trans a b c : key_le a b → key_le b c → key_le a c.
Proof. unfold key_le. lia. Qed.

Lemma fabs_not_nan f : is_nan f = false → is_nan (fabs f) = false.
Proof. by destruct f. Qed.

(** The running maximum of [Series.max()] is an element that nothing in
    the series exceeds. *)
Lemma foldl_max_spec r : ∀ v,
  Forall not_nan (v :: r) →
  let m := foldl (λ a b, if fleb b a then a else b) v r in
  m ∈ v :: r ∧ ∀ u, u ∈ v :: r → fleb u m = true.
Proof.
  induction r as [|b r IH]; intros v Hnn; simpl.
  - split; [apply list_elem_of_here|]. intros u ->%list_elem_of_singleton.
    apply Forall_cons in Hnn as [Hv _]. apply fleb_key; [done|done|apply key_le_refl].
  - apply Forall_cons in Hnn as [Hv Hnn]. apply Forall_cons in Hnn as [Hb Hr].
    set (a := if fleb b v then v else b).
    assert (not_nan a) as Ha by (unfold a; by destruct (fleb b v)).
    assert (fleb v a = true ∧ fleb b a = true ∧ (a = v ∨ a = b)) as (Hva & Hba & Hab).
    { unfold a. destruct (fleb b v) eqn:E.
      - split; [|split; [done|by left]].
        apply fleb_key; [done|done|apply key_le_refl].
      - split; [|split; [|by right]].
        + apply fleb_key; [done|done|].
          destruct (key_le_total (fkey v) (fkey b)) as [|Hbv]; [done|].
          apply (fleb_key b v Hb Hv) in Hbv. congruence.
        + apply fleb_key; [done|done|apply key_le_refl]. }
    destruct (IH a) as [Hin Hmax]; [by constructor|].
    set (m := foldl _ a r) in *.
    assert (not_nan m) as Hm.
    { apply elem_of_cons in Hin as [->|Hin]; [done|].
      by eapply Forall_forall in Hr. }
    split.
    + apply elem_of_cons in Hin as [->|Hin].
      * destruct Hab as [->| ->]; [left|right; left].
      * by do 2 right.
    + assert (fleb a m = true) as Ham by (apply Hmax; left).
      intros u [->|[->|Hu]%elem_of_cons]%elem_of_cons.
      * apply fleb_key; [done|done|]. apply (key_le_trans _ (fkey a)).
        -- by apply (fleb_key v a).
        -- by apply (fleb_key a m).
      * apply fleb_key; [done|done|]. apply (key_le_trans _ (fkey a)).
        -- by apply (fleb_key b a).
        -- by apply (fleb_key a m).
      * apply Hmax. by right.
Qed.

Lemma series_max_spec (s : list float) :
  s ≠ [] → Forall not_nan s →
  series_max s ∈ s ∧ ∀ u, u ∈ s → fleb u (series_max s) = true.
Proof.
  intros Hne Hnn. unfold series_max.
  assert (filter (λ v, is_nan v = false) s = s) as ->.
  { clear Hne. induction Hnn as [|v s Hv _ IH]; [done|].
    rewrite filter_cons_True by done. by rewrite IH. }
  destruct s as [|v r]; [done|]. by apply foldl_max_spec.
Qed.

Lemma py_max_spec a b :
  not_nan a → not_nan b →
  (py_max a b = a ∨ py_max a b = b)
  ∧ fleb a (py_max a b) = true ∧ fleb b (py_max a b) = true.
Proof.
  intros Ha Hb. unfold py_max. destruct (fltb a b) eqn:E.
  - split; [by right|]. split; apply fleb_key; try done; [|apply key_le_refl].
    apply (fltb_key a b Ha Hb) in E.
    destruct (key_le_total (fkey a) (fkey b)); done.
  - split; [by left|]. split; apply fleb_key; try done; [apply key_le_refl|].
    destruct (key_le_dec (fkey b) (fkey a)) as [|Hn]; [done|].
    apply (fltb_key a b Ha Hb) in Hn. congruence.
Qed.

Lemma fleb_trans a b c :
  not_nan a → not_nan b → not_nan c →
  fleb a b = true → fleb b c = true → fleb a c = true.
Proof.
  intros Ha Hb Hc Hab Hbc. apply fleb_key; [done|done|].
  apply (key_le_trans _ (fkey b)); by apply fleb_key.
Qed.

(** ** The parameter file and the dimensions of the cylinder *)

Lemma df_get_present {A} df name (proj : Row → A) :
  name ∈ df_columns df → df_get df name proj = inr (proj <$> df_rows df).
Proof. intros Hin. unfold df_get. by rewrite bool_decide_eq_true_2. Qed.

Lemma df_get_absent {A} df name (proj : Row → A) :
  name ∉ df_columns df → df_get df name proj = inl (KeyError name).
Proof. intros Hin. unfold df_get. by rewrite bool_decide_eq_false_2. Qed.

(** The radius computed from the data is 1.1 times the largest absolute
    coordinate. *)
Lemma data_Wall_largest df :
  "x-position" ∈ df_columns df → "y-position" ∈ df_columns df →
  df_rows df ≠ [] →
  (∀ r, r ∈ df_rows df → not_nan (x_position r) ∧ not_nan (y_position r)) →
  ∃ m, data_Wall df = inr (fmul m F1_1) ∧ largest_abs_xy (df_rows df) m.
Proof.
  intros Hx Hy Hne Hnn. unfold data_Wall.
  rewrite (df_get_present df _ x_position Hx), (df_get_present df _ y_position Hy).
  simpl. unfold series_abs.
  set (ax := fabs <$> (x_position <$> df_rows df)).
  set (ay := fabs <$> (y_position <$> df_rows df)).
  assert (Forall not_nan ax) as Hax.
  { unfold ax. rewrite <- list_fmap_compose. apply Forall_fmap, Forall_forall.
    intros r Hr. apply fabs_not_nan. by apply Hnn. }
  assert (Forall not_nan ay) as Hay.
  { unfold ay. rewrite <- list_fmap_compose. apply Forall_fmap, Forall_forall.
    intros r Hr. apply fabs_not_nan. by apply Hnn. }
  assert (ax ≠ []) as Hax0 by (unfold ax; by destruct (df_rows df)).
  assert (ay ≠ []) as Hay0 by (unfold ay; by destruct (df_rows df)).
  destruct (series_max_spec ax Hax0 Hax) as [Hmx Hubx].
  destruct (series_max_spec ay Hay0 Hay) as [Hmy Huby].
  set (mx := series_max ax) in *. set (my := series_max ay) in *.
  assert (not_nan mx) as Hnx by (by eapply Forall_forall in Hax).
  assert (not_nan my) as Hny by (by eapply Forall_forall in Hay).
  destruct (py_max_spec mx my Hnx Hny) as (Hor & Hlx & Hly).
  set (m := py_max mx my) in *.
  assert (not_nan m) as Hm by (by destruct Hor as [-> | ->]).
  exists m. split; [done|]. split.
  - destruct Hor as [-> | ->].
    + unfold ax in Hmx. rewrite <- list_fmap_compose in Hmx.
      apply list_elem_of_fmap in Hmx as (r & Hr & Hin). exists r. split; [done|by left].
    + unfold ay in Hmy. rewrite <- list_fmap_compose in Hmy.
      apply list_elem_of_fmap in Hmy as (r & Hr & Hin). exists r. split; [done|by right].
  - intros r Hr. destruct (Hnn r Hr) as [Hrx Hry]. split.
    + apply (fleb_trans _ mx); [by apply fabs_not_nan|done|done| |done].
      apply Hubx. unfold ax. rewrite <- list_fmap_compose.
      apply list_elem_of_fmap. by exists r.
    + apply (fleb_trans _ my); [by apply fabs_not_nan|done|done| |done].
      apply Huby. unfold ay. rewrite <- list_fmap_compose.
      apply list_elem_of_fmap. by exists r.
Qed.

Lemma zip_with_fmap_same {A B C D} (f : B → C → D) (g : A → B) (h : A → C) l :
  zip_with f (g <$> l) (h <$> l) = (λ a, f (g a) (h a)) <$> l.
Proof.
  induction l as [|a l IH]; [done|].
  rewrite !fmap_cons. cbn [zip_with]. by rewrite IH.
Qed.

(** The radius [generate_video.py] computes from the data is 1.1 times
    the square root of the largest squared distance from the axis. *)
Lemma video_Wall_largest df :
  "x-position" ∈ df_columns df → "y-position" ∈ df_columns df →
  "z-position" ∈ df_columns df → df_rows df ≠ [] →
  (∀ r, r ∈ df_rows df → not_nan (radial2 r)) →
  ∃ c m, video_dimensions None df = inr c
         ∧ Wall c = fmul (SFsqrt 53 1024 m) F1_1
         ∧ largest_radial2 (df_rows df) m.
Proof.
  intros Hx Hy Hz Hne Hnn. unfold video_dimensions.
  rewrite (df_get_present df _ x_position Hx), (df_get_present df _ y_position Hy),
    (df_get_present df _ z_position Hz).
  cbn [ebind]. rewrite zip_with_fmap_same. fold radial2.
  change (λ a, SFadd 53 1024 (fmul (x_position a) (x_position a))
                 (fmul (y_position a) (y_position a))) with radial2.
  set (r2 := radial2 <$> df_rows df).
  assert (Forall not_nan r2) as Hr2.
  { unfold r2. apply Forall_fmap, Forall_forall. intros r Hr. by apply Hnn. }
  assert (r2 ≠ []) as Hr0 by (unfold r2; by destruct (df_rows df)).
  destruct (series_max_spec r2 Hr0 Hr2) as [Hin Hub].
  eexists _, (series_max r2). split; [reflexivity|]. split; [reflexivity|].
  split.
  - unfold r2 in Hin. apply list_elem_of_fmap in Hin as (r & Hr & Hin). eauto.
  - intros r Hr. apply Hub. unfold r2. apply list_elem_of_fmap. eauto.
Qed.

(** ** Squares and their sums are not NaN *)

Lemma shr_1_nonneg mrs : (0 ≤ shr_m mrs)%Z → (0 ≤ shr_m (shr_1 mrs))%Z.
Proof. destruct mrs as [[|[p|p|]|[p|p|]] r s]; simpl; lia. Qed.

Lemma iter_pos_nonneg p : ∀ mrs,
  (0 ≤ shr_m mrs)%Z → (0 ≤ shr_m (SpecFloat.iter_pos shr_1 p mrs))%Z.
Proof.
  induction p as [p IH|p IH|]; intros mrs Hm; simpl.
  - do 2 apply IH. by apply shr_1_nonneg.
  - by do 2 apply IH.
  - by apply shr_1_nonneg.
Qed.

Lemma shr_fexp_nonneg m e l :
  (0 ≤ m)%Z → (0 ≤ shr_m (shr_fexp 53 1024 m e l).1)%Z.
Proof.
  intros Hm. unfold shr_fexp, shr.
  assert (0 ≤ shr_m (shr_record_of_loc m l))%Z as H0
    by (by destruct l as [|[]]).
  destruct (_ - e)%Z; simpl; try done. by apply iter_pos_nonneg.
Qed.

Lemma binary_round_aux_sign sx mx ex lx :
  (0 ≤ mx)%Z →
  match binary_round_aux 53 1024 sx mx ex lx with
  | S754_nan => False
  | S754_infinity s | S754_zero s | S754_finite s _ _ => s = sx
  end.
Proof.
  intros Hm. unfold binary_round_aux.
  pose proof (shr_fexp_nonneg mx ex lx Hm) as H1.
  destruct (shr_fexp 53 1024 mx ex lx) as [mrs' e']. simpl in H1.
  set (m2 := round_nearest_even (shr_m mrs') (loc_of_shr_record mrs')).
  assert (0 ≤ m2)%Z as H2.
  { unfold m2, round_nearest_even.
    destruct (loc_of_shr_record mrs') as [|[]]; try done; try lia.
    destruct (Z.even _); lia. }
  pose proof (shr_fexp_nonneg m2 e' loc_Exact H2) as H3.
  destruct (shr_fexp 53 1024 m2 e' loc_Exact) as [mrs'' e'']. simpl in H3.
  destruct (shr_m mrs''); [done| |lia].
  by destruct (e'' <=? _)%Z.
Qed.

Lemma fmul_square_nonneg x : not_nan x → nonneg (fmul x x).
Proof.
  destruct x as [s|s| |s m e]; try done; intros _; simpl.
  - by destruct s.
  - by destruct s.
  - unfold fmul, SFmul.
    pose proof (binary_round_aux_sign (xorb s s) (Zpos (m * m)) (e + e)
                  loc_Exact ltac:(done)) as Hs.
    destruct (binary_round_aux _ _ _ _ _ _); simpl; try done;
      rewrite Hs; by destruct s.
Qed.

Lemma fadd_nonneg x y : nonneg x → nonneg y → not_nan (SFadd 53 1024 x y).
Proof.
  destruct x as [sx|sx| |sx mx ex], y as [sy|sy| |sy my ey]; try done;
    simpl; intros -> ->; try done.
  unfold binary_normalize, cond_Zopp.
  destruct (shl_align mx ex _) as [m1 e1], (shl_align my ey _) as [m2 e2].
  simpl. unfold binary_round.
  destruct (shl_align _ _ _) as [mz ez].
  pose proof (binary_round_aux_sign false (Zpos mz) ez loc_Exact ltac:(done)) as Hs.
  unfold not_nan. by destruct (binary_round_aux _ _ _ _ _ _).
Qed.

(** The squared distance of coordinates that are not NaN is not NaN. *)
Lemma radial2_not_nan r :
  not_nan (x_position r) → not_nan (y_position r) → not_nan (radial2 r).
Proof.
  intros Hx Hy. unfold radial2.
  apply fadd_nonneg; by apply fmul_square_nonneg.
Qed.

Section Parameters.
Context `{Backend}.

(** [read_parameters] never raises: whatever goes wrong inside is caught. *)
Lemma read_parameters_returns parameter_file w :
  ∃ o w', read_parameters parameter_file w = (inr o, w').
Proof.
  unfold read_parameters, try_except, bind, open_read, lift, logging_warning,
    emit, modify, ret.
  destruct (files w !! parameter_file) as [contents|]; [|eauto].
  destruct (decode_text contents) as [e|text]; [eauto|].
  destruct (parse_parameters text) as [e|p]; eauto.
Qed.

Lemma parse_parameters_unusable text :
  (let params := split tab (strip (readline text)) in
   length params < 8
   ∨ (∃ s, params !! 6 = Some s ∧ py_float s = None)
   ∨ (∃ s, params !! 7 = Some s ∧ py_float s = None)) →
  ∃ e, parse_parameters text = inl e.
Proof.
  unfold parse_parameters, list_index, float_of_str.
  set (params := split tab (strip (readline text))). simpl. intros Hbad.
  destruct (params !! 6) as [s6|] eqn:E6; simpl; [|eauto].
  destruct (py_float s6) as [f6|] eqn:P6; simpl; [|eauto].
  destruct (params !! 7) as [s7|] eqn:E7; simpl; [|eauto].
  destruct (py_float s7) as [f7|] eqn:P7; simpl; [|eauto].
  exfalso. destruct Hbad as [Hlen|[(s & Hs & Hp)|(s & Hs & Hp)]].
  - apply lookup_lt_Some in E7. lia.
  - congruence.
  - congruence.
Qed.

(** C5 (as amended): when the parameter file is absent, is not readable
    text, has fewer than eight tab-separated fields on its first line or
    has an unparseable radius or height field, [read_parameters] does
    not raise: it logs a warning and returns [None].  The radius is then
    taken from the data, for a table that has the position columns and
    at least one row: in [generate_mp4.py] it is 1.1 times the largest of
    [|x|] and [|y|] over all rows (every particle of every frame, no
    coordinate being NaN); in [generate_video.py] it is 1.1 times the
    square root of the largest [x ** 2 + y ** 2] over all rows. *)
Theorem unusable_parameters_fall_back parameter_file w :
  parameters_unusable parameter_file w →
  (∃ w' e, read_parameters parameter_file w = (inr None, w')
           ∧ last (trace w') = Some (warning_of e)
           ∧ files w' = files w ∧ dirs w' = dirs w)
  ∧ ∀ df,
      "x-position" ∈ df_columns df → "y-position" ∈ df_columns df →
      "z-position" ∈ df_columns df → df_rows df ≠ [] →
      (∀ r, r ∈ df_rows df → not_nan (x_position r) ∧ not_nan (y_position r)) →
      (∃ c m, main_dimensions None df = inr c
              ∧ Wall c = fmul m F1_1
              ∧ largest_abs_xy (df_rows df) m)
      ∧ (∃ c m, video_dimensions None df = inr c
                ∧ Wall c = fmul (SFsqrt 53 1024 m) F1_1
                ∧ largest_radial2 (df_rows df) m).
Proof.
  intros Hbad. split.
  - unfold parameters_unusable in Hbad.
    unfold read_parameters, try_except, bind, open_read, lift, logging_warning,
      emit, modify, ret, decode_text.
    destruct (files w !! parameter_file) as [contents|].
    2:{ do 2 eexists. split; [reflexivity|]. simpl. by rewrite last_snoc. }
    destruct (decode_utf8 contents) as [text|].
    2:{ do 2 eexists. split; [reflexivity|]. simpl. by rewrite last_snoc. }
    destruct (parse_parameters_unusable text Hbad) as [e ->].
    do 2 eexists. split; [reflexivity|]. simpl. by rewrite last_snoc.
  - intros df Hx Hy Hz Hne Hnn. split.
    + destruct (data_Wall_largest df Hx Hy Hne Hnn) as (m & HW & Hm).
      unfold main_dimensions. rewrite HW. simpl.
      rewrite (df_get_present df _ z_position Hz). simpl.
      eexists _, m. split; [reflexivity|]. split; [reflexivity|done].
    + apply video_Wall_largest; try done.
      intros r Hr. destruct (Hnn r Hr). by apply radial2_not_nan.
Qed.

End Parameters.

Lemma unusable_parameters_fall_back_witness :
  @parameters_unusable sample_backend "parameter.txt"
    (world_with_parameters sample_trajectory five_fields)
  ∧ ((∃ w' e,
        @read_parameters sample_backend "parameter.txt"
          (world_with_parameters sample_trajectory five_fields) = (inr None, w')
        ∧ last (trace w') = Some (warning_of e)
        ∧ files w' = files (world_with_parameters sample_trajectory five_fields)
        ∧ dirs w' = dirs (world_with_parameters sample_trajectory five_fields))
     ∧ ∀ df,
         "x-position" ∈ df_columns df → "y-position" ∈ df_columns df →
         "z-position" ∈ df_columns df → df_rows df ≠ [] →
         (∀ r, r ∈ df_rows df → not_nan (x_position r) ∧ not_nan (y_position r)) →
         (∃ c m, main_dimensions None df = inr c
                 ∧ Wall c = fmul m F1_1
                 ∧ largest_abs_xy (df_rows df) m)
         ∧ (∃ c m, video_dimensions None df = inr c
                   ∧ Wall c = fmul (SFsqrt 53 1024 m) F1_1
                   ∧ largest_radial2 (df_rows df) m)).
Proof.
  assert (@parameters_unusable sample_backend "parameter.txt"
            (world_with_parameters sample_trajectory five_fields)) as Hbad.
  { vm_compute. left. lia. }
  split; [exact Hbad|].
  exact (@unusable_parameters_fall_back sample_backend "parameter.txt"
           (world_with_parameters sample_trajectory five_fields) Hbad).
Defined.

(** C5 (as stated) fails on [generate_video.py]: for one particle at
    x = 3.0, y = 4.0 its data-derived radius is 1.1 times 5.0, the
    distance from the axis, not 1.1 times the largest absolute
    coordinate 4.0 (which is what [generate_mp4.py] computes). *)
Lemma video_radius_is_radial :
  (∃ c, video_dimensions None table_3_4 = inr c
        ∧ Wall c = fmul (float_of_Z 5) F1_1
        ∧ ¬ ∃ m, Wall c = fmul m F1_1 ∧ largest_abs_xy (df_rows table_3_4) m)
  ∧ ∃ c, main_dimensions None table_3_4 = inr c
         ∧ Wall c = fmul (float_of_Z 4) F1_1.
Proof.
  split.
  - eexists. split; [vm_compute; reflexivity|]. split; [vm_compute; reflexivity|].
    intros (m & HW & (r & Hr & Hm) & Hub).
    apply list_elem_of_singleton in Hr as ->.
    specialize (Hub _ (list_elem_of_here _ _)) as [_ Hy].
    destruct Hm as [-> | ->]; [by vm_compute in Hy|].
    by vm_compute in HW.
  - eexists. split; vm_compute; reflexivity.
Qed.

(** ** Tables without rows *)

Lemma read_frames_length k : ∀ num_particles f data d,
  read_frames k num_particles f data = inr d →
  length d = length data + k * Z.to_nat num_particles.
Proof.
  induction k as [|k IH]; intros np f data d; cbn [read_frames].
  - intros [= <-]. lia.
  - destruct (fromfile_int32 1 f) as [a f0].
    destruct (np_index a 0) as [e|timestep]; [done|]. simpl.
    destruct (fromfile_float64 np f0) as [x f1].
    destruct (fromfile_float64 np f1) as [y f2].
    destruct (fromfile_float64 np f2) as [z f3].
    destruct (fromfile_float64 np f3) as [ex f4].
    destruct (fromfile_float64 np f4) as [ey f5].
    destruct (fromfile_float64 np f5) as [ez f6].
    destruct (append_particles_inv x y z ex ey ez timestep
                (seq 0 (Z.to_nat np)) data)
      as [(e & -> & _)|(d' & -> & Hlen & _)]; [done|]. simpl.
    intros Hd. apply IH in Hd. rewrite Hd, Hlen, length_seq. lia.
Qed.

Lemma main_dimensions_no_columns params :
  ∃ col, main_dimensions params (mkDataFrame [] []) = inl (KeyError col).
Proof. destruct params; eexists; reflexivity. Qed.

Lemma main_dimensions_binary_columns params data :
  ∃ c, main_dimensions params (mkDataFrame binary_columns data) = inr c.
Proof. destruct params; eexists; reflexivity. Qed.

Lemma video_dimensions_no_columns :
  video_dimensions None (mkDataFrame [] []) = inl (KeyError "x-position").
Proof. reflexivity. Qed.

Lemma video_dimensions_binary_columns data :
  ∃ c, video_dimensions None (mkDataFrame binary_columns data) = inr c.
Proof. eexists; reflexivity. Qed.

(** C9 (as amended): on a trajectory decoded from the binary format the
    dimensions of [main] in [generate_mp4.py] fail exactly when the table
    has no rows, that is when the header declares no frame or no
    particle; the failure is the [KeyError] of the first position column
    asked for.  With at least one frame and one particle the dimensions
    are returned.  In [generate_video.py] the same holds when the
    parameters are unusable, and with parameters the dimensions are
    returned whatever the trajectory. *)
Theorem dimensions_fail_iff_no_rows f num_particles num_frames rest df params :
  read_header f = inr (num_particles, num_frames, rest) →
  read_binary_contents f = inr df →
  (df_rows df = [] ↔ (num_frames ≤ 0 ∨ num_particles ≤ 0)%Z)
  ∧ ((num_frames ≤ 0 ∨ num_particles ≤ 0)%Z →
     (∃ col, main_dimensions params df = inl (KeyError col))
     ∧ video_dimensions None df = inl (KeyError "x-position"))
  ∧ ((0 < num_frames ∧ 0 < num_particles)%Z →
     (∃ c, main_dimensions params df = inr c)
     ∧ ∃ c, video_dimensions None df = inr c)
  ∧ ∀ p, ∃ c, video_dimensions (Some p) df = inr c.
Proof.
  intros Hh. unfold read_binary_contents. rewrite Hh. simpl.
  destruct (read_frames _ _ _ _) as [e|data] eqn:Hr; [done|]. simpl.
  intros [= <-]. apply read_frames_length in Hr. simpl in Hr.
  assert (data = [] ↔ (num_frames ≤ 0 ∨ num_particles ≤ 0)%Z) as Hiff.
  { destruct data; simpl in Hr; split; intros; try done; try nia. }
  destruct data as [|r data].
  - split; [done|]. split; [|split].
    + intros _. split; [apply main_dimensions_no_columns|done].
    + intros Hpos. exfalso.
      assert (num_frames ≤ 0 ∨ num_particles ≤ 0)%Z by (by apply Hiff). lia.
    + intros p. eexists; reflexivity.
  - split; [done|]. split; [|split].
    + intros Hz. apply Hiff in Hz. done.
    + intros _. split; [apply main_dimensions_binary_columns|].
      apply video_dimensions_binary_columns.
    + intros p. eexists; reflexivity.
Qed.

Lemma dimensions_fail_iff_no_rows_witness :
  read_header sample_trajectory = inr (3%Z, 2%Z, drop 8 sample_trajectory)
  ∧ read_binary_contents sample_trajectory = inr sample_table
  ∧ ((df_rows sample_table = [] ↔ (2 ≤ 0 ∨ 3 ≤ 0)%Z)
     ∧ ((2 ≤ 0 ∨ 3 ≤ 0)%Z →
        (∃ col, main_dimensions None sample_table = inl (KeyError col))
        ∧ video_dimensions None sample_table = inl (KeyError "x-position"))
     ∧ ((0 < 2 ∧ 0 < 3)%Z →
        (∃ c, main_dimensions None sample_table = inr c)
        ∧ ∃ c, video_dimensions None sample_table = inr c)
     ∧ ∀ p, ∃ c, video_dimensions (Some p) sample_table = inr c).
Proof.
  split; [vm_compute; reflexivity|]. split; [vm_compute; reflexivity|].
  apply (dimensions_fail_iff_no_rows sample_trajectory 3 2
           (drop 8 sample_trajectory) sample_table None);
    vm_compute; reflexivity.
Defined.

(** C9 (as stated) fails in both directions.  A file with one frame of
    zero particles decodes to a table without columns, on which the
    dimensions of [generate_mp4.py] raise [KeyError] although the
    trajectory has a frame; and on a trajectory without frames the
    dimensions of [generate_video.py] are returned from the parameters
    without any failure. *)
Lemma empty_trajectory_is_not_the_criterion :
  (∃ rest, read_header no_particles_file = inr (0%Z, 1%Z, rest))
  ∧ read_binary_contents no_particles_file = inr (mkDataFrame [] [])
  ∧ main_dimensions None (mkDataFrame [] []) = inl (KeyError "x-position")
  ∧ (∀ p, main_dimensions (Some p) (mkDataFrame [] [])
          = inl (KeyError "z-position"))
  ∧ (∃ rest, read_header no_frames_file = inr (3%Z, 0%Z, rest))
  ∧ read_binary_contents no_frames_file = inr (mkDataFrame [] [])
  ∧ (∀ p, ∃ c, video_dimensions (Some p) (mkDataFrame [] []) = inr c).
Proof.
  split; [eexists; vm_compute; reflexivity|].
  split; [vm_compute; reflexivity|].
  split; [reflexivity|]. split; [reflexivity|].
  split; [eexists; vm_compute; reflexivity|].
  split; [vm_compute; reflexivity|].
  intros p. eexists. reflexivity.
Qed.

(** ** The identifier column of a CSV table *)


Lemma take_digits_all digits :
  all_chars is_digit digits = true → take_digits digits = digits.
Proof.
  unfold all_chars. induction digits as [|c r IH]; simpl; [done|].
  intros [Hc Hr]%andb_true_iff. rewrite Hc. by rewrite IH.
Qed.

(** A label made of text without digits followed by digits: the group
    captured is the run of digits at its end. *)
Lemma first_digit_run_suffix prefix digits :
  all_chars (λ c, negb (is_digit c)) prefix = true →
  all_chars is_digit digits = true → digits ≠ EmptyString →
  first_digit_run (prefix +:+ digits) = Some digits.
Proof.
  unfold all_chars at 1. intros Hp Hd Hne.
  induction prefix as [|c r IH]; simpl in *.
  - destruct digits as [|d ds]; [done|]. simpl.
    unfold all_chars in Hd. simpl in Hd.
    apply andb_true_iff in Hd as [Hc Hr]. rewrite Hc.
    f_equal. f_equal. by apply take_digits_all.
  - apply andb_true_iff in Hp as [Hc Hr].
    apply negb_true_iff in Hc. rewrite Hc. by apply IH.
Qed.

(** The conversion succeeds when every cell has digits that fit, and
    gives the value of the first run of digits of each label. *)
Lemma extract_ids_ok labels :
  Forall (λ l, ∃ s d, l = Some s ∧ first_digit_run s = Some d
                      ∧ (int_of_digits d < 2 ^ 63)%Z) labels →
  ∃ ids, extract_ids labels = inr ids
    ∧ Forall2 (λ l id, ∃ s d, l = Some s ∧ first_digit_run s = Some d
                              ∧ id = int_of_digits d) labels ids.
Proof.
  unfold extract_ids.
  induction 1 as [|l labels (s & d & -> & Hd & Hlt) _ (ids & IH & Hids)].
  - eexists; split; [reflexivity|constructor].
  - rewrite fmap_cons. cbn [astype_int_all str_extract astype_int].
    rewrite Hd. cbn [astype_int ebind].
    destruct (Z.ltb_spec (int_of_digits d) (2 ^ 63)) as [_|?]; [|lia].
    cbn [ebind]. rewrite IH. cbn [ebind]. eexists; split; [reflexivity|].
    constructor; [|done]. eauto.
Qed.

(** One label without any digit makes the conversion of the whole column
    raise; the exception does not say which row it was. *)
Lemma extract_ids_no_digits labels :
  (∃ l, l ∈ labels ∧ str_extract l = None) →
  extract_ids labels = inl nan_error ∨ extract_ids labels = inl too_large_error.
Proof.
  unfold extract_ids. intros (l & Hin & Hl).
  induction labels as [|l0 labels IH]; [by apply elem_of_nil in Hin|].
  rewrite fmap_cons. cbn [astype_int_all].
  apply elem_of_cons in Hin as [<-|Hin].
  - rewrite Hl. by left.
  - destruct (str_extract l0) as [d|]; cbn [astype_int ebind]; [|by left].
    destruct (int_of_digits d <? 2 ^ 63)%Z; cbn [ebind]; [|by right].
    destruct (IH Hin) as [-> | ->]; cbn [ebind]; [by left|by right].
Qed.

Section Csv.
Context `{Backend}.

Lemma read_csv_simulation_result filename w contents t :
  files w !! filename = Some contents →
  pd_read_csv contents = inr t →
  (read_csv_simulation filename w).1 = convert_csv t.
Proof.
  intros Hf Ht. unfold read_csv_simulation, bind, logging_info, emit, modify,
    open_read, lift. simpl. rewrite Hf. simpl. rewrite Ht. done.
Qed.

(** C7 (as amended): when the identifier column of the CSV table is text,
    [read_csv_simulation] replaces each label by the value of its first
    (leftmost) run of decimal digits, which is the numeric suffix for a
    label made of text without digits followed by digits; and when some
    label contains no digit the whole read raises (the [ValueError] of
    the conversion of a missing value, unless an earlier label was too
    large for 64 bits), an exception that does not name the row. *)
Theorem text_identifiers_first_digit_run filename w contents t labels :
  files w !! filename = Some contents →
  pd_read_csv contents = inr t →
  "Particles" ∈ csv_columns t →
  csv_particles t = PObject labels →
  (Forall (λ l, ∃ s d, l = Some s ∧ first_digit_run s = Some d
                       ∧ (int_of_digits d < 2 ^ 63)%Z) labels →
   ∃ ids,
     (read_csv_simulation filename w).1
     = inr (mkDataFrame (csv_columns t) (zip_with set_Particles ids (csv_rows t)))
     ∧ Forall2 (λ l id, ∃ s d, l = Some s ∧ first_digit_run s = Some d
                               ∧ id = int_of_digits d) labels ids)
  ∧ ((∃ l, l ∈ labels ∧ str_extract l = None) →
     (read_csv_simulation filename w).1 = inl nan_error
     ∨ (read_csv_simulation filename w).1 = inl too_large_error)
  ∧ (∀ prefix digits,
       all_chars (λ c, negb (is_digit c)) prefix = true →
       all_chars is_digit digits = true → digits ≠ EmptyString →
       first_digit_run (prefix +:+ digits) = Some digits).
Proof.
  intros Hf Ht Hcol Hp.
  rewrite (read_csv_simulation_result _ _ _ _ Hf Ht).
  unfold convert_csv. rewrite bool_decide_eq_true_2 by done. rewrite Hp.
  split; [|split].
  - intros Hall. destruct (extract_ids_ok labels Hall) as (ids & -> & Hids).
    simpl. eauto.
  - intros Hbad. destruct (extract_ids_no_digits labels Hbad) as [-> | ->];
      simpl; auto.
  - apply first_digit_run_suffix.
Qed.

End Csv.

Lemma text_identifiers_first_digit_run_witness :
  files world_with_csv !! "data/simulation.csv" = Some []
  ∧ @pd_read_csv csv_backend [] = inr sample_csv_table
  ∧ "Particles" ∈ csv_columns sample_csv_table
  ∧ csv_particles sample_csv_table = PObject [Some "particle_7"; Some "p12"]
  ∧ (@read_csv_simulation csv_backend "data/simulation.csv" world_with_csv).1
    = inr (mkDataFrame binary_columns
             (zip_with set_Particles [7; 12]%Z (csv_rows sample_csv_table)))
  ∧ ((Forall (λ l, ∃ s d, l = Some s ∧ first_digit_run s = Some d
                          ∧ (int_of_digits d < 2 ^ 63)%Z)
        [Some "particle_7"; Some "p12"] →
      ∃ ids,
        (@read_csv_simulation csv_backend "data/simulation.csv" world_with_csv).1
        = inr (mkDataFrame (csv_columns sample_csv_table)
                 (zip_with set_Particles ids (csv_rows sample_csv_table)))
        ∧ Forall2 (λ l id, ∃ s d, l = Some s ∧ first_digit_run s = Some d
                                  ∧ id = int_of_digits d)
            [Some "particle_7"; Some "p12"] ids)
     ∧ ((∃ l, l ∈ [Some "particle_7"; Some "p12"] ∧ str_extract l = None) →
        (@read_csv_simulation csv_backend "data/simulation.csv" world_with_csv).1
        = inl nan_error
        ∨ (@read_csv_simulation csv_backend "data/simulation.csv" world_with_csv).1
          = inl too_large_error)
     ∧ (∀ prefix digits,
          all_chars (λ c, negb (is_digit c)) prefix = true →
          all_chars is_digit digits = true → digits ≠ EmptyString →
          first_digit_run (prefix +:+ digits) = Some digits)).
Proof.
  split; [reflexivity|]. split; [reflexivity|].
  split; [vm_compute; apply list_elem_of_here|]. split; [reflexivity|].
  split; [vm_compute; reflexivity|].
  apply (@text_identifiers_first_digit_run csv_backend "data/simulation.csv"
           world_with_csv [] sample_csv_table [Some "particle_7"; Some "p12"]).
  - reflexivity.
  - reflexivity.
  - vm_compute; apply list_elem_of_here.
  - reflexivity.
Defined.

(** C7 (as stated) fails twice.  The label [a1b2] has the numeric suffix
    2 but is given the identifier 1, its first run of digits.  And a
    column with a label without digits raises the same exception
    whichever row the label is in, so the exception names no row. *)
Lemma first_run_is_not_the_suffix :
  extract_ids [Some "a1b2"] = inr [1%Z]
  ∧ numeric_suffix "a1b2" = Some "2"
  ∧ extract_ids [Some "x"; Some "p1"] = inl nan_error
  ∧ extract_ids [Some "p1"; Some "x"] = inl nan_error.
Proof. repeat split; vm_compute; reflexivity. Qed.

(** ** The encoder and the frame directory *)

Lemma inside_self dir : inside dir dir = true.
Proof. unfold inside. by rewrite bool_decide_eq_true_2. Qed.

Section Encoder.
Context `{Backend}.

(** C3: in both [generate_*_mp4] functions the statements after the
    frame loop run the encoder and then remove the frame directory.  If
    the encoder exits with status 0 the call returns normally and the
    directory and everything in it are gone.  If it exits with another
    status, [CalledProcessError] is raised before the removal: the
    directory and its files are as they were, and the handler of [main]
    logs the exception and the captured standard error and makes [main]
    return 1. *)
Theorem encoder_status_decides_cleanup script temp_dir output_mp4 w :
  ffmpeg_on_path w = true →
  temp_dir ∈ dirs w →
  inside temp_dir output_mp4 = false →
  let cmd := ffmpeg_cmd script temp_dir output_mp4 in
  let r := run_encoder cmd (files w) in
  let res := create_mp4 script temp_dir output_mp4 w in
  (returncode r = 0%Z →
     res.1 = inr tt
     ∧ (temp_dir ∉ dirs res.2)
     ∧ ∀ p, inside temp_dir p = true → files res.2 !! p = None ∧ p ∉ dirs res.2)
  ∧ (returncode r ≠ 0%Z →
     ∃ e, e = CalledProcessError (returncode r) cmd (stdout r) (stderr r)
     ∧ res.1 = inl e
     ∧ dirs res.2 = dirs w
     ∧ (∀ p, inside temp_dir p = true → files res.2 !! p = files w !! p)
     ∧ ∀ text, stderr_text (stderr r) = inr text →
         ffmpeg_failed e res.2
         = (inr (Some 1%Z),
            add_event (Log ERROR [Txt text])
              (add_event (Log ERROR [Txt "ffmpeg failed: "; Exc e]) res.2))).
Proof.
  intros Hff Hdir Hout cmd r res. subst res.
  unfold create_mp4, bind, logging_info, emit, modify, subprocess_run.
  simpl. rewrite Hff. fold cmd. fold r.
  split.
  - intros Hrc. rewrite Hrc. simpl. unfold rmtree.
    destruct (written r) as [video|]; simpl;
      rewrite bool_decide_eq_true_2 by done; simpl.
    all: split; [done|]; split.
    all: try (rewrite elem_of_filter, inside_self; by intros [? _]).
    all: intros p Hp; split;
      [apply map_lookup_filter_None; right; intros x _; simpl; by rewrite Hp
      |rewrite elem_of_filter, Hp; by intros [? _]].
  - intros Hrc. apply Z.eqb_neq in Hrc. rewrite Hrc. simpl.
    eexists. split; [reflexivity|]. split; [done|]. split; [by destruct (written r)|]. split.
    + intros p Hp. destruct (written r) as [video|]; simpl; [|done].
      apply lookup_insert_ne. intros ->. congruence.
    + intros text Htext. unfold ffmpeg_failed, bind, logging_error, emit,
        modify, lift, ret. simpl. rewrite Htext. done.
Qed.

End Encoder.

Lemma encoder_status_decides_cleanup_witness :
  let w := world_with_frames in
  ffmpeg_on_path w = true
  ∧ "temp_frames/standard" ∈ dirs w
  ∧ inside "temp_frames/standard" "figures/particles_standard.mp4" = false
  ∧ (@create_mp4 sample_backend generate_mp4_py "temp_frames/standard"
       "figures/particles_standard.mp4" w).1 = inr tt
  ∧ (@create_mp4 failing_encoder_backend generate_mp4_py "temp_frames/standard"
       "figures/particles_standard.mp4" w).1
    = inl (CalledProcessError 1
             (ffmpeg_cmd generate_mp4_py "temp_frames/standard"
                "figures/particles_standard.mp4")
             [] (String.list_byte_of_string "no frames"))
  ∧ files (@create_mp4 failing_encoder_backend generate_mp4_py
             "temp_frames/standard" "figures/particles_standard.mp4" w).2
      !! "temp_frames/standard/frame_0000.png" = Some [].
Proof.
  intros w.
  assert (ffmpeg_on_path w = true) as H1 by reflexivity.
  assert ("temp_frames/standard" ∈ dirs w) as H2
    by (vm_compute; reflexivity).
  assert (inside "temp_frames/standard" "figures/particles_standard.mp4" = false)
    as H3 by (vm_compute; reflexivity).
  split; [exact H1|]. split; [exact H2|]. split; [exact H3|].
  destruct (@encoder_status_decides_cleanup sample_backend generate_mp4_py
              "temp_frames/standard" "figures/particles_standard.mp4" w
              H1 H2 H3) as [Hok _].
  destruct (@encoder_status_decides_cleanup failing_encoder_backend
              generate_mp4_py "temp_frames/standard"
              "figures/particles_standard.mp4" w H1 H2 H3) as [_ Hfail].
  split; [apply Hok; reflexivity|].
  destruct Hfail as (e & -> & He & _ & Hfiles & _); [by vm_compute|].
  split; [exact He|].
  rewrite Hfiles by (vm_compute; reflexivity). reflexivity.
Defined.

(** ** Frame names *)

Lemma pretty_N_char_nonzero (d : N) : (0 < d < 10)%N → pretty_N_char d ≠ "0"%char.
Proof.
  intros Hd. destruct d as [|p]; [lia|].
  do 4 (destruct p as [p|p|]; try done); lia.
Qed.

Lemma pretty_N_go_first_char x : ∀ s,
  (0 < x)%N → ∃ c r, pretty_N_go x s = String c r ∧ c ≠ "0"%char.
Proof.
  induction (N.lt_wf_0 x) as [x _ IH]; intros s Hx.
  rewrite pretty_N_go_step by done.
  destruct (decide (x < 10)%N) as [Hlt|Hge].
  - rewrite N.div_small by done. rewrite pretty_N_go_0.
    rewrite N.mod_small by done. eexists _, _. split; [reflexivity|].
    apply pretty_N_char_nonzero. lia.
  - apply IH.
    + apply N.div_lt; lia.
    + apply N.div_str_pos. lia.
Qed.

(** The decimal form of a number starts with the digit 0 only when the
    number is 0. *)
Lemma pretty_nat_leading_zero (n : nat) r :
  pretty n = String "0" r → r = EmptyString.
Proof.
  unfold pretty, pretty_nat, pretty, pretty_N.
  destruct (decide (N.of_nat n = 0)%N) as [_|Hne]; [by intros [= <-]|].
  destruct (pretty_N_go_first_char (N.of_nat n) "" ltac:(lia)) as (c & r' & -> & Hc).
  intros [= -> _]. done.
Qed.

Lemma pretty_nat_nonempty (n : nat) : pretty n ≠ EmptyString.
Proof.
  unfold pretty, pretty_nat, pretty, pretty_N.
  destruct (decide (N.of_nat n = 0)%N) as [_|Hne]; [done|].
  by destruct (pretty_N_go_first_char (N.of_nat n) "" ltac:(lia)) as (c & r' & -> & Hc).
Qed.

Lemma str_repeat_zero_app_inj a b (s t : string) :
  (∀ r, s = String "0" r → r = EmptyString) →
  (∀ r, t = String "0" r → r = EmptyString) →
  s ≠ EmptyString → t ≠ EmptyString →
  (a = 0 ∨ String.length s < 4) → (b = 0 ∨ String.length t < 4) →
  a + String.length s = b + String.length t →
  str_repeat "0" a +:+ s = str_repeat "0" b +:+ t → s = t.
Proof.
  revert b. induction a as [|a IH]; intros [|b] Hs Ht Hs0 Ht0 Ha Hb Hlen Heq;
    simpl in *.
  - done.
  - destruct s as [|c s]; [done|]. injection Heq as -> Heq.
    specialize (Hs _ eq_refl). subst s. simpl in Hlen.
    destruct t; [done|]. simpl in Hlen. lia.
  - destruct t as [|c t]; [done|]. injection Heq as <- Heq.
    specialize (Ht _ eq_refl). subst t. simpl in Hlen.
    destruct s; [done|]. simpl in Hlen. lia.
  - injection Heq as Heq. apply (IH b); try done; try lia.
Qed.

Lemma fmt_04d_inj i j : fmt_04d i = fmt_04d j → i = j.
Proof.
  unfold fmt_04d. intros Heq. apply (inj pretty).
  eapply str_repeat_zero_app_inj; try exact Heq.
  - apply pretty_nat_leading_zero.
  - apply pretty_nat_leading_zero.
  - apply pretty_nat_nonempty.
  - apply pretty_nat_nonempty.
  - lia.
  - lia.
  - apply (f_equal String.length) in Heq. rewrite !string_length_app in Heq.
    assert (∀ n, String.length (str_repeat "0" n) = n) as Hrep.
    { induction n as [|n IHn]; [done|].
      change (str_repeat "0" (S n)) with ("0" +:+ str_repeat "0" n).
      rewrite string_length_app, IHn. done. }
    by rewrite !Hrep in Heq.
Qed.

Lemma frame_name_inj i j : frame_name i = frame_name j → i = j.
Proof.
  unfold frame_name. intros Heq. apply String.app_inj in Heq.
  apply string_app_inv_tail in Heq. by apply fmt_04d_inj.
Qed.

(** ** One frame per distinct timestep *)

Lemma StronglySorted_le_lt (l : list Z) :
  StronglySorted Z.le l → NoDup l → StronglySorted Z.lt l.
Proof.
  induction 1 as [|x l Hs IH Hx]; intros Hnd; [constructor|].
  apply NoDup_cons in Hnd as [Hnin Hnd]. constructor; [by apply IH|].
  apply Forall_forall. intros y Hy.
  pose proof (proj1 (Forall_forall _ _) Hx y Hy).
  assert (x ≠ y) by (intros ->; done). lia.
Qed.

(** [sorted(series.unique())] lists the values of the series without
    repetition and in strictly ascending order. *)
Lemma sorted_unique_spec (l : list Z) :
  StronglySorted Z.lt (sorted (unique l))
  ∧ ∀ t, t ∈ sorted (unique l) ↔ t ∈ l.
Proof.
  unfold sorted. pose proof (merge_sort_Permutation Z.le (unique l)) as Hp.
  split.
  - apply StronglySorted_le_lt.
    + apply (StronglySorted_merge_sort Z.le).
    + rewrite Hp. apply NoDup_unique.
  - intros t. rewrite Hp. apply elem_of_unique.
Qed.

Lemma enumerate_indices {A} (l : list A) : (enumerate l).*1 = seq 0 (length l).
Proof. unfold enumerate. apply fst_zip. by rewrite length_seq. Qed.

Lemma images_app evs1 evs2 : images (evs1 ++ evs2) = images evs1 ++ images evs2.
Proof. apply omap_app. Qed.

Lemma images_logs msgs : images (Log INFO <$> msgs) = [].
Proof. induction msgs; [done|]. done. Qed.

Lemma for_each_cons {A} (x : A) r (body : A → M unit) w :
  for_each (x :: r) body w
  = match body x w with
    | (inl e, w') => (inl e, w')
    | (inr _, w') => for_each r body w'
    end.
Proof. reflexivity. Qed.

Lemma bind_run {A B} (m : M A) (k : A → M B) w :
  bind m k w
  = match m w with
    | (inl e, w') => (inl e, w')
    | (inr a, w') => k a w'
    end.
Proof. reflexivity. Qed.

Section Frames.
Context `{Backend}.
Variable script : Script.

Lemma for_each_logging_info msgs w :
  ∃ w', for_each msgs logging_info w = (inr tt, w')
        ∧ trace w' = trace w ++ (Log INFO <$> msgs).
Proof.
  revert w. induction msgs as [|m msgs IH]; intros w.
  - exists w. split; [done|]. simpl. by rewrite app_nil_r.
  - rewrite for_each_cons. unfold logging_info at 1, emit, modify.
    destruct (IH (add_event (Log INFO m) w)) as (w' & -> & Ht).
    exists w'. split; [done|]. rewrite Ht. simpl. by rewrite <- app_assoc.
Qed.

(** The frame loop on successful renders: one image per item, in the
    order of the items, named by the item's index. *)
Lemma frame_items_images temp_dir num_frames (figure : Z → exn + Figure)
    (render : Z → string → M unit) :
  (∀ t path w, render t path w
               = (mlet fig := lift (figure t) in fig_write_image fig path) w) →
  ∀ (items : list (nat * Z)) w,
    (∀ it, it ∈ items →
       ∃ fig image, figure it.2 = inr fig ∧ write_image fig = inr image) →
    ∃ w' evs,
      for_each items (λ it,
        let '(idx, timestep) := it in
        let frame_path := path_join temp_dir (frame_name idx) in
        for_each (frame_progress script idx num_frames timestep) logging_info ;;
        render timestep frame_path) w = (inr tt, w')
      ∧ trace w' = trace w ++ evs
      ∧ Forall2 (λ it im, im.1 = path_join temp_dir (frame_name it.1)
                          ∧ figure it.2 = inr im.2) items (images evs).
Proof.
  intros Hrender items. induction items as [|[idx t] items IH]; intros w Hok.
  - exists w, []. split; [done|]. split; [by rewrite app_nil_r|constructor].
  - destruct (Hok (idx, t)) as (fig & image & Hfig & Himg); [left|].
    simpl in Hfig. rewrite for_each_cons, bind_run.
    destruct (for_each_logging_info (frame_progress script idx num_frames t) w)
      as (w1 & -> & Ht1).
    rewrite Hrender, bind_run. unfold lift, fig_write_image. rewrite Hfig, Himg.
    set (path := path_join temp_dir (frame_name idx)).
    set (w2 := set_files _ _).
    destruct (IH w2) as (w' & evs & Hrun & Ht & Himgs).
    { intros it Hit. apply Hok. by right. }
    exists w', ((Log INFO <$> frame_progress script idx num_frames t)
                ++ [WriteImage path fig] ++ evs).
    split; [exact Hrun|]. split.
    + rewrite Ht. unfold w2. simpl. rewrite Ht1. by rewrite <- !app_assoc.
    + rewrite !images_app, images_logs. simpl. by constructor.
Qed.

Lemma frame_loop_images temp_dir (figure : Z → exn + Figure)
    (render : Z → string → M unit) ts w :
  (∀ t path w, render t path w
               = (mlet fig := lift (figure t) in fig_write_image fig path) w) →
  (∀ t, t ∈ ts →
     ∃ fig image, figure t = inr fig ∧ write_image fig = inr image) →
  ∃ w' evs,
    frame_loop script temp_dir ts render w = (inr tt, w')
    ∧ trace w' = trace w ++ evs
    ∧ Forall2 (λ it im, im.1 = path_join temp_dir (frame_name it.1)
                        ∧ figure it.2 = inr im.2) (enumerate ts) (images evs).
Proof.
  intros Hrender Hok. unfold frame_loop.
  apply (frame_items_images temp_dir (length ts) figure render Hrender).
  intros [i t] Hit. apply Hok. simpl.
  apply list_elem_of_lookup in Hit as [k Hk].
  unfold enumerate in Hk. apply lookup_zip_with_Some in Hk
    as (? & ? & [= <- <-] & _ & Hk).
  by eapply list_elem_of_lookup_2.
Qed.

(** The statements after the frame loop write no image. *)
Lemma create_mp4_no_image temp_dir output_mp4 w :
  ∃ evs, trace (create_mp4 script temp_dir output_mp4 w).2 = trace w ++ evs
         ∧ images evs = [].
Proof.
  unfold create_mp4, bind, logging_info, emit, modify, subprocess_run, rmtree.
  simpl. destruct (ffmpeg_on_path w); simpl.
  2:{ eexists [_; _]. split; [by rewrite <- app_assoc|done]. }
  destruct (returncode _ =? 0)%Z; simpl.
  2:{ destruct (written _); simpl; eexists [_; _];
      (split; [by rewrite <- app_assoc|done]). }
  destruct (written _); simpl; destruct (bool_decide _); simpl.
  all: try (eexists [_; _; _; _]; split; [by rewrite <- !app_assoc|done]).
  all: eexists [_; _; _]; split; [by rewrite <- !app_assoc|done].
Qed.

(** C1: [generate_standard_mp4] takes the distinct values of the column
    [time] in strictly ascending order and, when every frame renders,
    writes exactly one image per such timestep, in that order; the image
    of the timestep at position [idx] is the file [frame_{idx:04d}.png]
    of the frame directory, the positions being 0, 1, 2, ... without
    gaps, and different positions have different file names.  The table
    itself is an argument that is only read. *)
Theorem one_frame_per_distinct_timestep df c w ts :
  timesteps_of df = inr ts →
  files w !! path_join (TEMP_FRAMES_DIR script) "standard" = None →
  (∀ t, t ∈ ts → ∃ fig image,
     standard_figure df t c = inr fig ∧ write_image fig = inr image) →
  StronglySorted Z.lt ts
  ∧ (∀ t, t ∈ ts ↔ ∃ r, r ∈ df_rows df ∧ time r = t)
  ∧ (enumerate ts).*1 = seq 0 (length ts)
  ∧ (∀ i j, frame_name i = frame_name j → i = j)
  ∧ ∃ evs,
      trace (generate_standard_mp4 script df c w).2 = trace w ++ evs
      ∧ Forall2 (λ it im,
                   im.1 = path_join (path_join (TEMP_FRAMES_DIR script) "standard")
                            (frame_name it.1)
                   ∧ standard_figure df it.2 c = inr im.2)
          (enumerate ts) (images evs).
Proof.
  intros Hts Hdir Hok.
  assert (∃ times, df_get df "time" time = inr times ∧ ts = sorted (unique times))
    as (times & Htimes & ->).
  { unfold timesteps_of in Hts. destruct (df_get df "time" time); [done|].
    simpl in Hts. injection Hts as <-. eauto. }
  destruct (sorted_unique_spec times) as [Hsorted Hmem].
  split; [done|]. split.
  { intros t. rewrite Hmem. unfold df_get in Htimes.
    destruct (bool_decide _); [|done]. injection Htimes as <-.
    rewrite list_elem_of_fmap.
    split; [intros (r & -> & Hr)|intros (r & Hr & <-)]; eauto. }
  split; [apply enumerate_indices|]. split; [apply frame_name_inj|].
  unfold generate_standard_mp4, bind at 1, lift. rewrite Hts.
  unfold bind at 1, logging_info at 1, emit, modify.
  unfold bind at 1, mkdir_parents. cbn [files add_event].
  rewrite Hdir. rewrite bool_decide_eq_false_2 by (by intros [? ?]).
  rewrite bind_run.
  set (w1 := add_event (Mkdir _) _).
  destruct (frame_loop_images (path_join (TEMP_FRAMES_DIR script) "standard")
              (λ t, standard_figure df t c)
              (λ timestep frame_path, render_standard_frame df timestep c frame_path)
              (sorted (unique times)) w1 ltac:(done) Hok)
    as (w2 & evs & -> & Ht2 & Himgs).
  destruct (create_mp4_no_image
              (path_join (TEMP_FRAMES_DIR script) "standard")
              (path_join (OUTPUT_DIR script) "particles_standard.mp4") w2)
    as (evs2 & Ht3 & Himgs2).
  eexists (_ :: _ :: evs ++ evs2). split.
  - rewrite Ht3, Ht2. unfold w1. simpl. rewrite <- !app_assoc. simpl. reflexivity.
  - simpl. rewrite images_app, Himgs2, app_nil_r. done.
Qed.

End Frames.


Lemma one_frame_per_distinct_timestep_witness :
  timesteps_of sample_table = inr [3; 5]%Z
  ∧ files (world_with sample_trajectory)
      !! path_join (TEMP_FRAMES_DIR generate_mp4_py) "standard" = None
  ∧ (∀ t, t ∈ [3; 5]%Z → ∃ fig image,
       standard_figure sample_table t sample_cylinder = inr fig
       ∧ @write_image sample_backend fig = inr image)
  ∧ (StronglySorted Z.lt [3; 5]%Z
     ∧ (∀ t, t ∈ [3; 5]%Z ↔ ∃ r, r ∈ df_rows sample_table ∧ time r = t)
     ∧ (enumerate [3; 5]%Z).*1 = seq 0 (length [3; 5]%Z)
     ∧ (∀ i j, frame_name i = frame_name j → i = j)
     ∧ ∃ evs,
         trace (@generate_standard_mp4 sample_backend generate_mp4_py
                  sample_table sample_cylinder (world_with sample_trajectory)).2
         = trace (world_with sample_trajectory) ++ evs
         ∧ Forall2 (λ it im,
                      im.1 = path_join
                               (path_join (TEMP_FRAMES_DIR generate_mp4_py) "standard")
                               (frame_name it.1)
                      ∧ standard_figure sample_table it.2 sample_cylinder
                        = inr im.2)
             (enumerate [3; 5]%Z) (images evs))
  ∧ time <$> df_rows sample_table = [5; 5; 5; 3; 3; 3]%Z
  ∧ (λ im, (im.1, fig_title im.2))
      <$> images (trace (@generate_standard_mp4 sample_backend generate_mp4_py
                           sample_table sample_cylinder
                           (world_with sample_trajectory)).2)
    = [("temp_frames/standard/frame_0000.png",
        "Active Brownian Particles - Frame 3");
       ("temp_frames/standard/frame_0001.png",
        "Active Brownian Particles - Frame 5")].
Proof.
  assert (timesteps_of sample_table = inr [3; 5]%Z) as H1
    by (vm_compute; reflexivity).
  assert (files (world_with sample_trajectory)
            !! path_join (TEMP_FRAMES_DIR generate_mp4_py) "standard" = None)
    as H2 by (vm_compute; reflexivity).
  assert (∀ t, t ∈ [3; 5]%Z → ∃ fig image,
            standard_figure sample_table t sample_cylinder = inr fig
            ∧ @write_image sample_backend fig = inr image) as H3.
  { intros t Ht. eexists _, []. split; [|reflexivity].
    unfold standard_figure. reflexivity. }
  split; [exact H1|]. split; [exact H2|]. split; [exact H3|].
  split; [|split; vm_compute; reflexivity].
  exact (@one_frame_per_distinct_timestep sample_backend generate_mp4_py
           sample_table sample_cylinder (world_with sample_trajectory)
           [3; 5]%Z H1 H2 H3).
Defined.

(** ** The exit status *)

Lemma logging_info_run msg w :
  logging_info msg w = (inr tt, add_event (Log INFO msg) w).
Proof. reflexivity. Qed.

Ltac run_log := rewrite bind_run, logging_info_run; cbv beta iota.

Section ExitStatus.
Context `{Backend}.

(** A missing dependency is reported and ends [main] with 1 before any
    file is opened or any frame rendered. *)
Lemma missing_dependency_stops_main script w :
  kaleido_installed w = false ∨ ffmpeg_on_path w = false →
  ∃ w' evs msg,
    main script w = (inr 1%Z, w')
    ∧ trace w' = trace w ++ evs ++ [Log ERROR msg]
    ∧ opened (evs ++ [Log ERROR msg]) = []
    ∧ images (evs ++ [Log ERROR msg]) = []
    ∧ files w' = files w ∧ dirs w' = dirs w.
Proof.
  intros Hdep. unfold main, bind, check_dependencies, logging_info,
    logging_error, emit, modify, get, ret, add_event. simpl.
  destruct (kaleido_installed w) eqn:Hk; simpl.
  - destruct Hdep as [?|Hf]; [done|]. rewrite Hf. simpl.
    eexists _, [_; _], _. split; [reflexivity|]. simpl.
    rewrite <- !app_assoc. done.
  - eexists _, [_; _], _. split; [reflexivity|]. simpl.
    rewrite <- !app_assoc. done.
Qed.

(** [main] returns 0 or 1, and 0 only when the [try] body has run to its
    end: both videos were encoded and both frame directories removed. *)
Lemma main_status script w status w' :
  main script w = (inr status, w') →
  (status = 0%Z ∨ status = 1%Z)
  ∧ (status = 0%Z →
     ∃ df c w1 w2, generate_both script df c w1 = (inr None, w2)).
Proof.
  unfold main. run_log. run_log. rewrite bind_run.
  destruct (check_dependencies _) as [[e|[|]] w0]; [done| |].
  2:{ cbn. intros [= <- <-]. split; [by right|done]. }
  cbn [negb]. run_log. rewrite bind_run.
  destruct (read_binary_simulation _ _) as [[e|df] w1]; [done|].
  rewrite bind_run.
  destruct (read_parameters _ _) as [[e|params] w2]; [done|].
  rewrite bind_run. unfold lift.
  destruct (main_dimensions params df) as [e|c]; [done|].
  run_log. run_log. run_log. rewrite bind_run. unfold try_except.
  destruct (generate_both script df c _) as [[e|[r|]] w3] eqn:Hg.
  - unfold ffmpeg_failed. destruct e; try done.
    rewrite bind_run. unfold logging_error at 1, emit, modify. cbv beta iota.
    rewrite bind_run. unfold lift.
    destruct (stderr_text _); [done|]. cbn.
    intros [= <- <-]. split; [by right|done].
  - exfalso. revert Hg. unfold generate_both. rewrite bind_run.
    destruct (generate_standard_mp4 _ _ _ _) as [[?|?] ?]; [done|].
    run_log. rewrite bind_run.
    destruct (generate_tracking_mp4 _ _ _ _) as [[?|?] ?]; done.
  - cbn. intros [= <- <-]. split; [by left|]. eauto.
Qed.

(** The status of the process: that of [main] for [generate_mp4.py], and
    0 for [scripts/generate_mp4.py] whatever [main] returned. *)
Lemma run_script_status w :
  (∀ status w', main generate_mp4_py w = (inr status, w') →
     (run_script generate_mp4_py w).1 = status)
  ∧ (∀ status w', main scripts_generate_mp4_py w = (inr status, w') →
     (run_script scripts_generate_mp4_py w).1 = 0%Z).
Proof.
  split; intros status w' Hm; unfold run_script; by rewrite Hm.
Qed.

End ExitStatus.

(** C8 fails on [scripts/generate_mp4.py]: without the encoder on the
    path, and also with an encoder that exits with status 1, [main]
    returns 1 but the process ends with status 0, because the last line
    of the script calls [main()] without passing its value to [exit];
    [generate_mp4.py], which ends in [exit(main())], ends with status 1
    on the same machine. *)
Theorem scripts_exit_status_ignores_main :
  (@main sample_backend scripts_generate_mp4_py world_without_ffmpeg).1
  = inr 1%Z
  ∧ (@run_script sample_backend scripts_generate_mp4_py world_without_ffmpeg).1
    = 0%Z
  ∧ (@run_script sample_backend generate_mp4_py world_without_ffmpeg).1 = 1%Z
  ∧ (@main failing_encoder_backend scripts_generate_mp4_py scripts_world).1
    = inr 1%Z
  ∧ (@run_script failing_encoder_backend scripts_generate_mp4_py scripts_world).1
    = 0%Z
  ∧ (@run_script failing_encoder_backend generate_mp4_py
       (world_with sample_trajectory)).1 = 1%Z
  ∧ (@run_script sample_backend generate_mp4_py
       (world_with sample_trajectory)).1 = 0%Z.
Proof. repeat split; vm_compute; reflexivity. Qed.

(** * Further properties of the scripts *)

(** ** The binary reader on whole files *)

Lemma decode_items_by_offset {A} sz (dec : list byte → A) n : ∀ s,
  decode_items sz dec n s = (λ p, dec (take sz (drop (p * sz) s))) <$> seq 0 n.
Proof.
  induction n as [|n IH]; intros s; [done|].
  cbn [decode_items seq]. rewrite fmap_cons. f_equal.
  rewrite IH, <- fmap_S_seq, <- list_fmap_compose.
  apply list_fmap_ext. intros _ p _. simpl. by rewrite drop_drop.
Qed.

Lemma fromfile_float64_whole count f :
  (0 ≤ count)%Z → 8 * Z.to_nat count ≤ length f →
  fromfile_float64 count f
  = (decode_items 8 decode_float64 (Z.to_nat count) f, drop (Z.to_nat count * 8) f).
Proof.
  intros Hc Hlen. unfold fromfile_float64, fromfile.
  pose proof (Nat.div_mod_eq (length f) 8) as Hdm.
  pose proof (Nat.mod_upper_bound (length f) 8 ltac:(lia)) as Hmb.
  remember (length f / 8) as q eqn:Hq. clear Hq.
  destruct (Z.ltb_spec count 0) as [?|_]; [lia|].
  destruct (Nat.leb_spec (Z.to_nat count) q) as [Hle|Hgt]; [done|lia].
Qed.

Lemma fromfile_int32_whole f :
  4 ≤ length f →
  fromfile_int32 1 f = ([decode_int32 (take 4 f)], drop 4 f).
Proof.
  intros Hlen. unfold fromfile_int32, fromfile. simpl (1 <? 0)%Z. cbv iota.
  pose proof (Nat.div_mod_eq (length f) 4) as Hdm.
  pose proof (Nat.mod_upper_bound (length f) 4 ltac:(lia)) as Hmb.
  remember (length f / 4) as q eqn:Hq. clear Hq.
  change (Z.to_nat 1) with 1.
  destruct (Nat.leb_spec 1 q) as [Hle|Hgt]; [done|lia].
Qed.

(** With every id inside the six arrays the loop appends one row per id. *)
Lemma append_particles_rows x y z ex ey ez t ids (row : nat → Row) : ∀ data,
  (∀ id, id ∈ ids →
     ∃ vx vy vz vex vey vez,
       x !! id = Some vx ∧ y !! id = Some vy ∧ z !! id = Some vz
       ∧ ex !! id = Some vex ∧ ey !! id = Some vey ∧ ez !! id = Some vez
       ∧ row id = mkRow (Z.of_nat id) vx vy vz vex vey vez t) →
  append_particles x y z ex ey ez t ids data = inr (data ++ (row <$> ids)).
Proof.
  induction ids as [|id ids IH]; intros data Hok.
  - simpl. by rewrite app_nil_r.
  - destruct (Hok id) as (vx & vy & vz & vex & vey & vez & Hx & Hy & Hz
                          & Hex & Hey & Hez & Hrow); [left|].
    cbn [append_particles]. unfold particle_row, np_index.
    rewrite Hx, Hy, Hz, Hex, Hey, Hez. cbn [ebind]. rewrite IH.
    + rewrite <- Hrow, fmap_cons, <- app_assoc. done.
    + intros id' Hid'. apply Hok. by right.
Qed.

Lemma decode_items_lookup {A} sz (dec : list byte → A) n s p :
  p < n → decode_items sz dec n s !! p = Some (dec (take sz (drop (p * sz) s))).
Proof.
  intros Hp. rewrite decode_items_by_offset, list_lookup_fmap.
  by rewrite lookup_seq_lt.
Qed.

(** The frame loop on a file that holds the frames still to read: the
    rows are those found at the offsets of the layout. *)
Lemma read_frames_by_offset f0 num_particles k : ∀ i data,
  (0 ≤ num_particles)%Z →
  8 + (i + k) * frame_size num_particles ≤ length f0 →
  read_frames k num_particles (drop (8 + i * frame_size num_particles) f0) data
  = inr (data ++ (j ← seq i k;
                  row_at f0 (Z.to_nat num_particles) j
                    <$> seq 0 (Z.to_nat num_particles))).
Proof.
  induction k as [|k IH]; intros i data Hnp Hlen.
  - simpl. by rewrite app_nil_r.
  - cbn [read_frames]. unfold frame_size in *.
    set (n := Z.to_nat num_particles) in *.
    set (off := 8 + i * (4 + 6 * (8 * n))) in *.
    rewrite fromfile_int32_whole by (rewrite length_drop; lia).
    cbn [np_index lookup list_lookup ebind]. rewrite drop_drop.
    rewrite (fromfile_float64_whole _ _ Hnp) by (rewrite length_drop; fold n; lia).
    rewrite drop_drop. fold n.
    rewrite (fromfile_float64_whole _ _ Hnp) by (rewrite length_drop; fold n; lia).
    rewrite drop_drop. fold n.
    rewrite (fromfile_float64_whole _ _ Hnp) by (rewrite length_drop; fold n; lia).
    rewrite drop_drop. fold n.
    rewrite (fromfile_float64_whole _ _ Hnp) by (rewrite length_drop; fold n; lia).
    rewrite drop_drop. fold n.
    rewrite (fromfile_float64_whole _ _ Hnp) by (rewrite length_drop; fold n; lia).
    rewrite drop_drop. fold n.
    rewrite (fromfile_float64_whole _ _ Hnp) by (rewrite length_drop; fold n; lia).
    rewrite drop_drop. fold n.
    rewrite (append_particles_rows _ _ _ _ _ _ _ _ (row_at f0 n i)).
    + cbn [ebind].
      replace (off + 4 + n * 8 + n * 8 + n * 8 + n * 8 + n * 8 + n * 8)
        with (8 + S i * (4 + 6 * (8 * n))) by (unfold off; lia).
      rewrite IH by (try done; lia).
      cbn [seq mbind list_bind]. rewrite <- app_assoc. done.
    + intros p Hp%elem_of_seq.
      do 6 eexists. rewrite !decode_items_lookup by lia. rewrite !drop_drop.
      repeat (split; [reflexivity|]).
      unfold row_at, double_at, int32_at. fold off.
      f_equal; f_equal; f_equal; f_equal; lia.
Qed.

Lemma read_header_whole f num_particles num_frames rest :
  read_header f = inr (num_particles, num_frames, rest) →
  8 ≤ length f ∧ rest = drop 8 f.
Proof.
  unfold read_header.
  destruct (fromfile_int32_one f) as [(H4 & v & ->)|(H4 & ->)]; [|done].
  cbn [np_index lookup list_lookup ebind].
  destruct (fromfile_int32_one (drop 4 f)) as [(H8 & v' & ->)|(H8 & ->)]; [|done].
  cbn [np_index lookup list_lookup ebind]. rewrite length_drop in H8.
  intros [= _ _ <-]. rewrite drop_drop. split; [lia|done].
Qed.

Lemma is_truncated_false f num_particles num_frames rest :
  read_header f = inr (num_particles, num_frames, rest) →
  (0 ≤ num_particles)%Z →
  is_truncated f = false →
  8 + Z.to_nat num_frames * frame_size num_particles ≤ length f.
Proof.
  intros Hh Hnp Ht. unfold is_truncated in Ht. rewrite Hh in Ht.
  destruct (read_header_whole _ _ _ _ Hh) as [H8 ->].
  rewrite length_drop in Ht.
  destruct (Z.leb_spec 0 num_particles); [|lia]. simpl in Ht.
  apply Nat.ltb_ge in Ht. lia.
Qed.

Lemma read_binary_contents_whole f num_particles num_frames rest :
  read_header f = inr (num_particles, num_frames, rest) →
  (0 ≤ num_particles)%Z →
  is_truncated f = false →
  read_binary_contents f
  = inr (DataFrame_of_dicts
           (rows_by_offset f (Z.to_nat num_particles) (Z.to_nat num_frames))).
Proof.
  intros Hh Hnp Ht.
  pose proof (is_truncated_false _ _ _ _ Hh Hnp Ht) as Hlen.
  unfold read_binary_contents. rewrite Hh. cbn [ebind].
  destruct (read_header_whole _ _ _ _ Hh) as [_ ->].
  pose proof (read_frames_by_offset f num_particles (Z.to_nat num_frames) 0 []
                Hnp) as Hrun.
  rewrite Nat.mul_0_l, Nat.add_0_r, Nat.add_0_l in Hrun.
  rewrite Hrun by lia. done.
Qed.

(** X1: a binary trajectory whose header declares a non-negative
    particle count and whose contents hold every declared frame is
    decoded into the table laid out in the file: the row of particle [p]
    in frame [i] has the timestep stored at byte [8 + i * (4 + 48 n)] and
    the six values stored [4 + k * 8 n + 8 p] bytes further, for array
    [k] of x, y, z, ex, ey, ez; frames and particles come in file
    order. *)
Theorem binary_rows_by_offset f num_particles num_frames rest :
  read_header f = inr (num_particles, num_frames, rest) →
  (0 ≤ num_particles)%Z →
  is_truncated f = false →
  ∃ df, read_binary_contents f = inr df
    ∧ df_rows df
      = rows_by_offset f (Z.to_nat num_particles) (Z.to_nat num_frames)
    ∧ ∀ i p, i < Z.to_nat num_frames → p < Z.to_nat num_particles →
        df_rows df !! (i * Z.to_nat num_particles + p)
        = Some (row_at f (Z.to_nat num_particles) i p).
Proof.
  intros Hh Hnp Ht. rewrite (read_binary_contents_whole _ _ _ _ Hh Hnp Ht).
  eexists. split; [done|].
  assert (df_rows (DataFrame_of_dicts
            (rows_by_offset f (Z.to_nat num_particles) (Z.to_nat num_frames)))
          = rows_by_offset f (Z.to_nat num_particles) (Z.to_nat num_frames))
    as -> by (by destruct (rows_by_offset _ _ _)).
  split; [done|].
  unfold rows_by_offset. generalize (Z.to_nat num_particles) as n.
  generalize (Z.to_nat num_frames) as k. clear. intros k n.
  assert (∀ k s i p, i < k → p < n →
            (j ← seq s k; row_at f n j <$> seq 0 n) !! (i * n + p)
            = Some (row_at f n (s + i) p)) as Hgen.
  { clear k. induction k as [|k IH]; intros s i p Hi Hp; [lia|].
    cbn [seq mbind list_bind]. change (mbind ?g ?l) with (list_bind _ _ g l) in IH.
    destruct i as [|i].
    - rewrite lookup_app_l by (rewrite length_fmap, length_seq; lia).
      rewrite list_lookup_fmap, lookup_seq_lt by lia. simpl.
      by rewrite Nat.add_0_r.
    - rewrite lookup_app_r by (rewrite length_fmap, length_seq; lia).
      rewrite length_fmap, length_seq.
      replace (S i * n + p - n) with (i * n + p) by lia.
      rewrite IH by lia. do 2 f_equal. lia. }
  intros i p Hi Hp. by rewrite Hgen.
Qed.

Lemma binary_rows_by_offset_witness :
  read_header sample_trajectory = inr (3%Z, 2%Z, drop 8 sample_trajectory)
  ∧ (0 ≤ 3)%Z
  ∧ is_truncated sample_trajectory = false
  ∧ ∃ df, read_binary_contents sample_trajectory = inr df
      ∧ df_rows df = rows_by_offset sample_trajectory (Z.to_nat 3) (Z.to_nat 2)
      ∧ ∀ i p, i < Z.to_nat 2 → p < Z.to_nat 3 →
          df_rows df !! (i * Z.to_nat 3 + p)
          = Some (row_at sample_trajectory (Z.to_nat 3) i p).
Proof.
  assert (read_header sample_trajectory
          = inr (3%Z, 2%Z, drop 8 sample_trajectory)) as Hh
    by (vm_compute; reflexivity).
  assert (is_truncated sample_trajectory = false) as Ht
    by (vm_compute; reflexivity).
  split; [exact Hh|]. split; [lia|]. split; [exact Ht|].
  apply (binary_rows_by_offset sample_trajectory 3 2
           (drop 8 sample_trajectory) Hh); [lia|exact Ht].
Defined.

Lemma read_header_by_offset f :
  8 ≤ length f →
  read_header f = inr (int32_at f 0, int32_at f 4, drop 8 f).
Proof.
  intros Hlen. unfold read_header.
  rewrite fromfile_int32_whole by lia. cbn [np_index lookup list_lookup ebind].
  rewrite fromfile_int32_whole by (rewrite length_drop; lia).
  cbn [np_index lookup list_lookup ebind]. by rewrite drop_drop.
Qed.

Lemma take_drop_app {A} (f extra : list A) off size :
  off + size ≤ length f →
  take size (drop off (f ++ extra)) = take size (drop off f).
Proof.
  intros Hlen. rewrite drop_app_le by lia.
  rewrite take_app_le by (rewrite length_drop; lia). done.
Qed.

Lemma row_at_app f extra n i p :
  8 + S i * (4 + 6 * (8 * n)) ≤ length f → p < n →
  row_at (f ++ extra) n i p = row_at f n i p.
Proof.
  intros Hlen Hp. unfold row_at, double_at, int32_at.
  rewrite !take_drop_app by nia. done.
Qed.

Lemma rows_by_offset_app f extra n k :
  8 + k * (4 + 6 * (8 * n)) ≤ length f →
  rows_by_offset (f ++ extra) n k = rows_by_offset f n k.
Proof.
  intros Hlen. unfold rows_by_offset.
  apply Forall_bind_ext, Forall_forall. intros i Hi%elem_of_seq.
  apply list_fmap_ext. intros j p Hp%lookup_seq.
  apply row_at_app; [nia|lia].
Qed.

(** X2: for a header that declares a non-negative particle count, the
    binary reader returns a table exactly when the contents hold every
    declared frame; the table then has one row per declared frame and
    particle, and bytes after the last declared frame change nothing. *)
Theorem binary_read_succeeds_iff f num_particles num_frames rest :
  read_header f = inr (num_particles, num_frames, rest) →
  (0 ≤ num_particles)%Z →
  ((∃ df, read_binary_contents f = inr df) ↔ is_truncated f = false)
  ∧ (∀ df, read_binary_contents f = inr df →
       length (df_rows df) = Z.to_nat num_frames * Z.to_nat num_particles)
  ∧ (is_truncated f = false →
     ∀ extra, read_binary_contents (f ++ extra) = read_binary_contents f).
Proof.
  intros Hh Hnp. split; [split|split].
  - intros [df Hdf]. destruct (is_truncated f) eqn:Ht; [|done].
    destruct (read_binary_contents_truncated f Ht) as (e & He & _). congruence.
  - intros Ht. rewrite (read_binary_contents_whole _ _ _ _ Hh Hnp Ht). eauto.
  - intros df. unfold read_binary_contents. rewrite Hh. cbn [ebind].
    destruct (read_frames _ _ _ _) as [e|d] eqn:Hd; [done|].
    cbn [ebind]. intros [= <-]. apply read_frames_length in Hd. simpl in Hd.
    rewrite <- Hd. by destruct d.
  - intros Ht extra.
    pose proof (is_truncated_false _ _ _ _ Hh Hnp Ht) as Hlen.
    destruct (read_header_whole _ _ _ _ Hh) as [H8 ->].
    rewrite read_header_by_offset in Hh by done.
    injection Hh as Hp Hf.
    assert (read_header (f ++ extra)
            = inr (num_particles, num_frames, drop 8 (f ++ extra))) as Hh'.
    { rewrite read_header_by_offset by (rewrite length_app; lia).
      unfold int32_at in *. rewrite !take_drop_app by lia. by rewrite Hp, Hf. }
    assert (is_truncated (f ++ extra) = false) as Ht'.
    { unfold is_truncated. rewrite Hh'.
      apply andb_false_iff. right. apply Nat.ltb_ge.
      rewrite length_drop, length_app. lia. }
    rewrite (read_binary_contents_whole _ _ _ _ Hh' Hnp Ht').
    rewrite (read_binary_contents_whole f num_particles num_frames (drop 8 f));
      [|by rewrite read_header_by_offset, Hp, Hf|done|done].
    unfold frame_size in Hlen. by rewrite rows_by_offset_app.
Qed.

Lemma binary_read_succeeds_iff_witness :
  read_header short_x_file = inr (50%Z, 1%Z, drop 8 short_x_file)
  ∧ (0 ≤ 50)%Z
  ∧ is_truncated short_x_file = true
  ∧ ¬ ∃ df, read_binary_contents short_x_file = inr df.
Proof.
  assert (read_header short_x_file = inr (50%Z, 1%Z, drop 8 short_x_file))
    as Hh by (vm_compute; reflexivity).
  assert (is_truncated short_x_file = true) as Ht by (vm_compute; reflexivity).
  split; [exact Hh|]. split; [lia|]. split; [exact Ht|].
  intros Hdf.
  apply (proj1 (binary_read_succeeds_iff short_x_file 50 1
                  (drop 8 short_x_file) Hh ltac:(lia))) in Hdf.
  congruence.
Defined.

(** ** Relations kept by every step of a computation *)

Section Preserves.
Context (R : relation World) `{!PreOrder R}.

Lemma preserves_ret {A} (a : A) : preserves R (ret a).
Proof. intros w. reflexivity. Qed.

Lemma preserves_raise {A} e : preserves R (@raise A e).
Proof. intros w. reflexivity. Qed.

Lemma preserves_lift {A} (r : exn + A) : preserves R (lift r).
Proof. intros w. reflexivity. Qed.

Lemma preserves_get {A} (proj : World → A) : preserves R (get proj).
Proof. intros w. reflexivity. Qed.

Lemma preserves_bind {A B} (m : M A) (k : A → M B) :
  preserves R m → (∀ a, preserves R (k a)) → preserves R (bind m k).
Proof.
  intros Hm Hk w. rewrite bind_run. specialize (Hm w).
  destruct (m w) as [[e|a] w1]; [done|]. simpl in Hm.
  etrans; [exact Hm|apply Hk].
Qed.

Lemma preserves_try_except {A} (body : M A) handler :
  preserves R body → (∀ e, preserves R (handler e)) →
  preserves R (try_except body handler).
Proof.
  intros Hm Hk w. unfold try_except. specialize (Hm w).
  destruct (body w) as [[e|a] w1]; [|done]. simpl in Hm.
  etrans; [exact Hm|apply Hk].
Qed.

Lemma preserves_for_each {A} (xs : list A) body :
  (∀ x, preserves R (body x)) → preserves R (for_each xs body).
Proof.
  intros Hbody. induction xs as [|x xs IH]; [apply preserves_ret|].
  apply preserves_bind; [apply Hbody|by intros _].
Qed.

End Preserves.

#[local] Instance emits_only_preorder P : PreOrder (emits_only P).
Proof.
  split.
  - intros w. exists []. by rewrite app_nil_r.
  - intros w1 w2 w3 (evs1 & H1 & HP1) (evs2 & H2 & HP2).
    exists (evs1 ++ evs2). rewrite H2, H1, <- app_assoc.
    split; [done|by apply Forall_app].
Qed.

#[local] Instance keeps_files_preorder touched : PreOrder (keeps_files touched).
Proof.
  split.
  - by intros w p _.
  - intros w1 w2 w3 H1 H2 p Hp. by rewrite H2, H1.
Qed.

#[local] Instance same_dirs_preorder : PreOrder same_dirs.
Proof.
  split; [done|]. intros w1 w2 w3 H1 H2. unfold same_dirs in *. congruence.
Qed.

Lemma runs_app evs1 evs2 : runs (evs1 ++ evs2) = runs evs1 ++ runs evs2.
Proof. apply omap_app. Qed.

Lemma removed_app evs1 evs2 :
  removed (evs1 ++ evs2) = removed evs1 ++ removed evs2.
Proof. apply omap_app. Qed.

Lemma rendering_no_runs evs :
  Forall rendering_event evs → runs evs = [] ∧ removed evs = [].
Proof.
  induction 1 as [|ev evs Hev _ [IH1 IH2]]; [done|].
  destruct ev; try done; simpl; by rewrite ?IH1, ?IH2.
Qed.

Lemma reading_no_runs evs :
  Forall reading_event evs →
  runs evs = [] ∧ removed evs = [] ∧ images evs = [].
Proof.
  induction 1 as [|ev evs Hev _ (IH1 & IH2 & IH3)]; [done|].
  destruct ev; try done; simpl; by rewrite ?IH1, ?IH2, ?IH3.
Qed.

(** ** Relations kept by the functions of the scripts *)

Section Structure.
Context `{Backend}.
Variable script : Script.
Context (R : relation World) `{!PreOrder R}.

Hypothesis R_log : ∀ level msg, preserves R (emit (Log level msg)).
Hypothesis R_open : ∀ path, preserves R (open_read path).
Hypothesis R_rng : ∀ r w, R w (set_rng r w).

Lemma check_dependencies_preserves : preserves R check_dependencies.
Proof using R_log PreOrder0.
  unfold check_dependencies.
  apply preserves_bind; [done|by apply preserves_get|]. intros k.
  destruct k; simpl.
  - apply preserves_bind; [done|by apply preserves_get|]. intros f.
    destruct f; simpl; [by apply preserves_ret|].
    apply preserves_bind; [done|apply R_log|].
    intros _. by apply preserves_ret.
  - apply preserves_bind; [done|apply R_log|].
    intros _. by apply preserves_ret.
Qed.

Lemma path_exists_preserves path : preserves R (path_exists path).
Proof using PreOrder0. intros w. reflexivity. Qed.

Lemma read_binary_simulation_preserves filename :
  preserves R (read_binary_simulation filename).
Proof using R_log R_open PreOrder0.
  unfold read_binary_simulation.
  apply preserves_bind; [done|apply path_exists_preserves|]. intros found.
  destruct found; simpl.
  - apply preserves_bind; [done|apply R_open|]. intros f.
    apply preserves_bind; [done|by apply preserves_lift|].
    intros [[np nf] rest].
    apply preserves_bind; [done|apply R_log|]. intros _.
    apply preserves_bind; [done|by apply preserves_lift|]. intros data.
    by apply preserves_ret.
  - apply preserves_bind; [done|apply path_exists_preserves|]. intros found.
    destruct found; [|by apply preserves_raise].
    apply preserves_bind; [done|apply R_log|]. intros _.
    unfold read_csv_simulation.
    apply preserves_bind; [done|apply R_log|]. intros _.
    apply preserves_bind; [done|apply R_open|]. intros f.
    apply preserves_bind; [done|by apply preserves_lift|]. intros t.
    by apply preserves_lift.
Qed.

Lemma read_parameters_preserves parameter_file :
  preserves R (read_parameters parameter_file).
Proof using R_log R_open PreOrder0.
  unfold read_parameters. apply preserves_try_except; [done| |].
  - apply preserves_bind; [done|apply R_open|]. intros f.
    apply preserves_bind; [done|by apply preserves_lift|]. intros text.
    apply preserves_bind; [done|by apply preserves_lift|]. intros p.
    by apply preserves_ret.
  - intros e.
    apply preserves_bind; [done|apply R_log|]. intros _.
    by apply preserves_ret.
Qed.

Lemma np_random_choice_preserves a size :
  preserves R (np_random_choice a size).
Proof using R_rng PreOrder0.
  intros w. unfold np_random_choice.
  repeat (case_match; try reflexivity). apply R_rng.
Qed.

Lemma select_tracked_preserves df : preserves R (select_tracked script df).
Proof using R_log R_rng PreOrder0.
  unfold select_tracked.
  apply preserves_bind; [done|by apply preserves_lift|]. intros p.
  apply preserves_bind; [done|by apply preserves_lift|]. intros k.
  apply preserves_bind; [done|apply np_random_choice_preserves|]. intros tr.
  apply preserves_bind; [done|apply R_log|]. intros _.
  by apply preserves_ret.
Qed.

(** Whatever the messages and the export of each image into the frame
    directory keep, the frame loop keeps. *)
Lemma frame_loop_preserves temp_dir ts (render : Z → string → M unit) :
  (∀ t idx, preserves R (render t (path_join temp_dir (frame_name idx)))) →
  preserves R (frame_loop script temp_dir ts render).
Proof using R_log PreOrder0.
  intros Hrender. unfold frame_loop.
  apply preserves_for_each; [done|]. intros [idx t].
  apply preserves_bind; [done| |by intros _].
  apply preserves_for_each; [done|]. intros msg. apply R_log.
Qed.

Lemma render_standard_frame_preserves df t c path :
  (∀ fig, preserves R (fig_write_image fig path)) →
  preserves R (render_standard_frame df t c path).
Proof using PreOrder0.
  intros Hw. unfold render_standard_frame.
  apply preserves_bind; [done|by apply preserves_lift|done].
Qed.

Lemma render_tracking_frame_preserves df t tracked pc c path :
  (∀ fig, preserves R (fig_write_image fig path)) →
  preserves R (render_tracking_frame df t tracked pc c path).
Proof using PreOrder0.
  intros Hw. unfold render_tracking_frame.
  apply preserves_bind; [done|by apply preserves_lift|done].
Qed.

Lemma create_mp4_preserves temp_dir output_mp4 :
  (∀ cmd, preserves R (subprocess_run cmd output_mp4)) →
  preserves R (rmtree temp_dir) →
  preserves R (create_mp4 script temp_dir output_mp4).
Proof using R_log PreOrder0.
  intros Hrun Hrm. unfold create_mp4.
  apply preserves_bind; [done|apply R_log|]. intros _.
  apply preserves_bind; [done|apply Hrun|]. intros _.
  apply preserves_bind; [done|apply R_log|]. by intros _.
Qed.

Section Videos.
Hypothesis R_mkdir : ∀ path, preserves R (mkdir_parents path).
Hypothesis R_write : ∀ fig dir idx,
  dir = path_join (TEMP_FRAMES_DIR script) "standard"
  ∨ dir = path_join (TEMP_FRAMES_DIR script) "tracking" →
  preserves R (fig_write_image fig (path_join dir (frame_name idx))).
Hypothesis R_run : ∀ cmd name,
  name = "particles_standard.mp4" ∨ name = "particles_tracked.mp4" →
  preserves R (subprocess_run cmd (path_join (OUTPUT_DIR script) name)).
Hypothesis R_rmtree : ∀ dir,
  dir = path_join (TEMP_FRAMES_DIR script) "standard"
  ∨ dir = path_join (TEMP_FRAMES_DIR script) "tracking" →
  preserves R (rmtree dir).

Lemma generate_standard_mp4_preserves df c :
  preserves R (generate_standard_mp4 script df c).
Proof using All.
  unfold generate_standard_mp4.
  apply preserves_bind; [done|by apply preserves_lift|]. intros ts.
  apply preserves_bind; [done|apply R_log|]. intros _.
  apply preserves_bind; [done|apply R_mkdir|]. intros _.
  apply preserves_bind; [done| |intros _].
  - apply frame_loop_preserves. intros t idx.
    apply render_standard_frame_preserves. intros fig. apply R_write. by left.
  - apply create_mp4_preserves; [intros cmd; apply R_run|apply R_rmtree];
      by left.
Qed.

Lemma generate_tracking_mp4_preserves df c :
  preserves R (generate_tracking_mp4 script df c).
Proof using All.
  unfold generate_tracking_mp4.
  apply preserves_bind; [done|by apply preserves_lift|]. intros ts.
  apply preserves_bind; [done|apply select_tracked_preserves|].
  intros [tracked pc].
  apply preserves_bind; [done|apply R_mkdir|]. intros _.
  apply preserves_bind; [done| |intros _].
  - apply frame_loop_preserves. intros t idx.
    apply render_tracking_frame_preserves. intros fig. apply R_write. by right.
  - apply create_mp4_preserves; [intros cmd; apply R_run|apply R_rmtree];
      by right.
Qed.

Lemma main_preserves : preserves R (main script).
Proof using All.
  unfold main.
  apply preserves_bind; [done|apply R_log|]. intros _.
  apply preserves_bind; [done|apply R_log|]. intros _.
  apply preserves_bind; [done|apply check_dependencies_preserves|]. intros ok.
  destruct ok; simpl; [|by apply preserves_ret].
  apply preserves_bind; [done|apply R_log|]. intros _.
  apply preserves_bind; [done|apply read_binary_simulation_preserves|].
  intros df.
  apply preserves_bind; [done|apply read_parameters_preserves|]. intros params.
  apply preserves_bind; [done|by apply preserves_lift|]. intros c.
  apply preserves_bind; [done|apply R_log|]. intros _.
  apply preserves_bind; [done|apply R_log|]. intros _.
  apply preserves_bind; [done|apply R_log|]. intros _.
  apply preserves_bind; [done| |].
  - apply preserves_try_except; [done| |].
    + unfold generate_both.
      apply preserves_bind; [done|apply generate_standard_mp4_preserves|].
      intros _. apply preserves_bind; [done|apply R_log|]. intros _.
      apply preserves_bind; [done|apply generate_tracking_mp4_preserves|].
      intros _. by apply preserves_ret.
    + intros e. unfold ffmpeg_failed. destruct e; try by apply preserves_raise.
      apply preserves_bind; [done|apply R_log|]. intros _.
      apply preserves_bind; [done|by apply preserves_lift|]. intros text.
      apply preserves_bind; [done|apply R_log|]. intros _.
      by apply preserves_ret.
  - intros [status|]; [by apply preserves_ret|].
    do 5 (apply preserves_bind; [done|apply R_log|]; intros _).
    by apply preserves_ret.
Qed.

End Videos.
End Structure.

(** The relations on events, directories and files, for each primitive. *)
Section Primitives.
Context `{Backend}.

Lemma emits_only_one P ev w : P ev → emits_only P w (add_event ev w).
Proof. intros Hev. exists [ev]. split; [done|]. by constructor. Qed.

Lemma emits_emit P ev : P ev → preserves (emits_only P) (emit ev).
Proof. intros Hev w. by apply emits_only_one. Qed.

Lemma emits_open_read P path :
  P (OpenRead path) → preserves (emits_only P) (open_read path).
Proof.
  intros Hev w. unfold open_read. destruct (files w !! path); [|reflexivity].
  by apply emits_only_one.
Qed.

Lemma emits_set_rng P r w : emits_only P w (set_rng r w).
Proof. exists []. by rewrite app_nil_r. Qed.

Lemma emits_mkdir_parents P path :
  P (Mkdir path) → preserves (emits_only P) (mkdir_parents path).
Proof.
  intros Hev w. unfold mkdir_parents. destruct (bool_decide _); [reflexivity|].
  exists [Mkdir path]. split; [done|]. by constructor.
Qed.

Lemma emits_fig_write_image P fig path :
  P (WriteImage path fig) → preserves (emits_only P) (fig_write_image fig path).
Proof.
  intros Hev w. unfold fig_write_image. exists [WriteImage path fig].
  split; [|by constructor]. by destruct (write_image fig).
Qed.

Lemma same_dirs_fig_write_image fig path :
  preserves same_dirs (fig_write_image fig path).
Proof. intros w. unfold fig_write_image. by destruct (write_image fig). Qed.

Lemma keeps_files_same touched w w' :
  files w' = files w → keeps_files touched w w'.
Proof. intros Hf p _. by rewrite Hf. Qed.

Lemma keeps_files_open_read touched path :
  preserves (keeps_files touched) (open_read path).
Proof.
  intros w. apply keeps_files_same. unfold open_read.
  by destruct (files w !! path).
Qed.

Lemma keeps_files_mkdir_parents touched path :
  preserves (keeps_files touched) (mkdir_parents path).
Proof.
  intros w. apply keeps_files_same. unfold mkdir_parents.
  by destruct (bool_decide _).
Qed.

Lemma keeps_files_fig_write_image (touched : string → Prop) fig path :
  touched path → preserves (keeps_files touched) (fig_write_image fig path).
Proof.
  intros Hp w p Hnp. unfold fig_write_image.
  destruct (write_image fig); [done|]. simpl.
  apply lookup_insert_ne. by intros ->.
Qed.

Lemma keeps_files_subprocess_run (touched : string → Prop) cmd output_mp4 :
  touched output_mp4 →
  preserves (keeps_files touched) (subprocess_run cmd output_mp4).
Proof.
  intros Hp w p Hnp. unfold subprocess_run. simpl.
  destruct (ffmpeg_on_path w); [|done].
  assert (files (match written (run_encoder cmd (files w)) with
                 | Some video =>
                     set_files (<[output_mp4 := video]> (files w))
                       (add_event (RunProcess cmd) w)
                 | None => add_event (RunProcess cmd) w
                 end) !! p = files w !! p) as Hw.
  { destruct (written _); [|done]. simpl. apply lookup_insert_ne. by intros ->. }
  by destruct (returncode _ =? 0)%Z.
Qed.

Lemma keeps_files_rmtree (touched : string → Prop) dir :
  (∀ p, inside dir p = true → touched p) →
  preserves (keeps_files touched) (rmtree dir).
Proof.
  intros Hin w p Hnp. unfold rmtree. destruct (bool_decide _); [|done]. simpl.
  destruct (files w !! p) as [v|] eqn:Hv.
  - apply map_lookup_filter_Some. split; [done|]. simpl.
    destruct (inside dir p) eqn:Hi; [|done]. by apply Hin in Hi.
  - apply map_lookup_filter_None. by left.
Qed.

End Primitives.

Section Video.
Context `{Backend}.
Variable script : Script.

Lemma rendering_log level msg :
  preserves (emits_only rendering_event) (emit (Log level msg)).
Proof. by apply emits_emit. Qed.

Lemma same_dirs_log level msg : preserves same_dirs (emit (Log level msg)).
Proof. done. Qed.

Lemma mkdir_parents_dir path w w' :
  mkdir_parents path w = (inr tt, w') → path ∈ dirs w'.
Proof.
  unfold mkdir_parents. destruct (bool_decide _); [done|].
  intros [= <-]. simpl. set_solver.
Qed.

(** The statements after the frame loop, with the frame directory in
    place. *)
Lemma create_mp4_events temp_dir output_mp4 w :
  temp_dir ∈ dirs w →
  let res := create_mp4 script temp_dir output_mp4 w in
  (trace res.2 = trace w ++ encoder_events script temp_dir output_mp4 false
   ∧ ∃ e, res.1 = inl e)
  ∨ (trace res.2 = trace w ++ encoder_events script temp_dir output_mp4 true
     ∧ res.1 = inr tt).
Proof.
  intros Hdir.
  unfold create_mp4, bind, logging_info, emit, modify, subprocess_run, rmtree,
    encoder_events.
  simpl. destruct (ffmpeg_on_path w); simpl.
  2:{ left. rewrite <- app_assoc. eauto. }
  destruct (returncode _ =? 0)%Z; simpl.
  2:{ left. destruct (written _); simpl; rewrite <- app_assoc; eauto. }
  right. destruct (written _); simpl;
    rewrite bool_decide_eq_true_2 by done; simpl;
    by rewrite <- !app_assoc.
Qed.

(** Creating the frame directory, rendering into it and encoding. *)
Lemma frames_then_encoder temp_dir output_mp4 ts
    (render : Z → string → M unit) w :
  (∀ t idx, preserves (emits_only rendering_event)
              (render t (path_join temp_dir (frame_name idx)))) →
  (∀ t idx, preserves same_dirs
              (render t (path_join temp_dir (frame_name idx)))) →
  let res := (mkdir_parents temp_dir ;;
              frame_loop script temp_dir ts render ;;
              create_mp4 script temp_dir output_mp4) w in
  ∃ evs, trace res.2 = trace w ++ evs
         ∧ video_outcome script temp_dir output_mp4 res.1 evs.
Proof.
  intros Hev Hdirs. cbv zeta. rewrite bind_run.
  pose proof (emits_mkdir_parents rendering_event temp_dir I w)
    as (evs1 & Ht1 & HP1).
  destruct (mkdir_parents temp_dir w) as [[e|[]] w1] eqn:Hmk.
  { exists evs1. split; [done|]. exists evs1, []. rewrite app_nil_r. eauto 10. }
  apply mkdir_parents_dir in Hmk. simpl in Ht1. rewrite bind_run.
  pose proof (frame_loop_preserves script (emits_only rendering_event)
                rendering_log temp_dir ts render Hev w1)
    as (evs2 & Ht2 & HP2).
  pose proof (frame_loop_preserves script same_dirs same_dirs_log
                temp_dir ts render Hdirs w1) as Hd2.
  destruct (frame_loop script temp_dir ts render w1) as [[e|[]] w2].
  { exists (evs1 ++ evs2). simpl in *. rewrite Ht2, Ht1, <- app_assoc.
    split; [done|]. exists (evs1 ++ evs2), []. rewrite app_nil_r.
    split; [done|]. split; [by apply Forall_app|]. eauto 10. }
  simpl in Ht2, Hd2. unfold same_dirs in Hd2. rewrite <- Hd2 in Hmk.
  destruct (create_mp4_events temp_dir output_mp4 w2 Hmk) as [[Ht3 He]|[Ht3 He]].
  - eexists. rewrite Ht3, Ht2, Ht1, <- !app_assoc. split; [done|].
    rewrite app_assoc. eexists _, _. split; [done|].
    split; [by apply Forall_app|]. eauto 10.
  - eexists. rewrite Ht3, Ht2, Ht1, <- !app_assoc. split; [done|].
    rewrite app_assoc. eexists _, _. split; [done|].
    split; [by apply Forall_app|]. eauto 10.
Qed.

Lemma video_outcome_cons script' temp_dir output_mp4 result pre evs :
  Forall rendering_event pre →
  video_outcome script' temp_dir output_mp4 result evs →
  video_outcome script' temp_dir output_mp4 result (pre ++ evs).
Proof.
  intros Hpre (pre' & post & -> & Hpre' & Hcases).
  exists (pre ++ pre'), post. rewrite app_assoc. split; [done|].
  split; [by apply Forall_app|done].
Qed.

Lemma generate_standard_mp4_events df c w :
  let res := generate_standard_mp4 script df c w in
  ∃ evs, trace res.2 = trace w ++ evs
    ∧ video_outcome script (path_join (TEMP_FRAMES_DIR script) "standard")
        (path_join (OUTPUT_DIR script) "particles_standard.mp4") res.1 evs.
Proof.
  cbv zeta. unfold generate_standard_mp4. rewrite bind_run. unfold lift.
  destruct (timesteps_of df) as [e|ts].
  { exists []. rewrite app_nil_r. split; [done|]. exists [], []. eauto 10. }
  run_log.
  match goal with |- context [add_event ?ev w] => set (w1 := add_event ev w) end.
  destruct (frames_then_encoder
              (path_join (TEMP_FRAMES_DIR script) "standard")
              (path_join (OUTPUT_DIR script) "particles_standard.mp4") ts
              (λ timestep frame_path,
                 render_standard_frame df timestep c frame_path) w1)
    as (evs & Ht & Hout).
  - intros t idx. apply render_standard_frame_preserves; [apply _|].
    intros fig. by apply emits_fig_write_image.
  - intros t idx. apply render_standard_frame_preserves; [apply _|].
    intros fig. apply same_dirs_fig_write_image.
  - eexists (_ :: evs). split.
    + rewrite Ht. unfold w1. simpl. by rewrite <- app_assoc.
    + apply (video_outcome_cons _ _ _ _ [_]); [by repeat constructor|done].
Qed.

Lemma generate_tracking_mp4_events df c w :
  let res := generate_tracking_mp4 script df c w in
  ∃ evs, trace res.2 = trace w ++ evs
    ∧ video_outcome script (path_join (TEMP_FRAMES_DIR script) "tracking")
        (path_join (OUTPUT_DIR script) "particles_tracked.mp4") res.1 evs.
Proof.
  cbv zeta. unfold generate_tracking_mp4. rewrite bind_run. unfold lift.
  destruct (timesteps_of df) as [e|ts].
  { exists []. rewrite app_nil_r. split; [done|]. exists [], []. eauto 10. }
  rewrite bind_run.
  pose proof (select_tracked_preserves script (emits_only rendering_event)
                rendering_log (emits_set_rng _) df w)
    as (evs0 & Ht0 & HP0).
  destruct (select_tracked script df w) as [[e|[tracked pc]] w1].
  { exists evs0. split; [done|]. exists evs0, []. rewrite app_nil_r. eauto 10. }
  simpl in Ht0.
  destruct (frames_then_encoder
              (path_join (TEMP_FRAMES_DIR script) "tracking")
              (path_join (OUTPUT_DIR script) "particles_tracked.mp4") ts
              (λ timestep frame_path,
                 render_tracking_frame df timestep tracked pc c frame_path) w1)
    as (evs & Ht & Hout).
  - intros t idx. apply render_tracking_frame_preserves; [apply _|].
    intros fig. by apply emits_fig_write_image.
  - intros t idx. apply render_tracking_frame_preserves; [apply _|].
    intros fig. apply same_dirs_fig_write_image.
  - exists (evs0 ++ evs). split.
    + rewrite Ht, Ht0. by rewrite <- app_assoc.
    + by apply video_outcome_cons.
Qed.

(** X3: in every run of [generate_standard_mp4] and of
    [generate_tracking_mp4] the encoder is started at most once, after
    the last image has been written, with the command line of the video;
    the frame directory is removed only after an encoder run that
    succeeded, and the function returns normally exactly in that case.
    When rendering or the encoder raises, neither later step happens. *)
Theorem frames_encoder_cleanup_order df c w :
  (∃ evs,
     trace (generate_standard_mp4 script df c w).2 = trace w ++ evs
     ∧ video_outcome script (path_join (TEMP_FRAMES_DIR script) "standard")
         (path_join (OUTPUT_DIR script) "particles_standard.mp4")
         (generate_standard_mp4 script df c w).1 evs)
  ∧ (∃ evs,
       trace (generate_tracking_mp4 script df c w).2 = trace w ++ evs
       ∧ video_outcome script (path_join (TEMP_FRAMES_DIR script) "tracking")
           (path_join (OUTPUT_DIR script) "particles_tracked.mp4")
           (generate_tracking_mp4 script df c w).1 evs).
Proof.
  split; [apply generate_standard_mp4_events|apply generate_tracking_mp4_events].
Qed.

End Video.

Section MainEvents.
Context `{Backend}.
Variable script : Script.

Lemma reading_log level msg :
  preserves (emits_only reading_event) (emit (Log level msg)).
Proof. by apply emits_emit. Qed.

Lemma reading_open path : preserves (emits_only reading_event) (open_read path).
Proof. by apply emits_open_read. Qed.

Lemma video_outcome_finished temp_dir output_mp4 evs :
  video_outcome script temp_dir output_mp4 (inr tt) evs →
  runs evs = [ffmpeg_cmd script temp_dir output_mp4] ∧ removed evs = [temp_dir].
Proof.
  intros (pre & post & -> & Hpre & [[_ [e ?]]|[[_ [e ?]]|[-> _]]]); try done.
  destruct (rendering_no_runs pre Hpre) as [Hr Hd].
  by rewrite runs_app, removed_app, Hr, Hd.
Qed.

Lemma generate_both_finished df c w w' r :
  generate_both script df c w = (inr r, w') →
  ∃ evs, trace w' = trace w ++ evs
    ∧ runs evs
      = [ffmpeg_cmd script (path_join (TEMP_FRAMES_DIR script) "standard")
           (path_join (OUTPUT_DIR script) "particles_standard.mp4");
         ffmpeg_cmd script (path_join (TEMP_FRAMES_DIR script) "tracking")
           (path_join (OUTPUT_DIR script) "particles_tracked.mp4")]
    ∧ removed evs
      = [path_join (TEMP_FRAMES_DIR script) "standard";
         path_join (TEMP_FRAMES_DIR script) "tracking"].
Proof.
  unfold generate_both. rewrite bind_run.
  destruct (generate_standard_mp4_events script df c w) as (evs1 & Ht1 & Ho1).
  destruct (generate_standard_mp4 script df c w) as [[e|[]] w1]; [done|].
  run_log. rewrite bind_run.
  match goal with |- context [add_event ?ev w1] => set (w2 := add_event ev w1) end.
  destruct (generate_tracking_mp4_events script df c w2) as (evs2 & Ht2 & Ho2).
  destruct (generate_tracking_mp4 script df c w2) as [[e|[]] w3]; [done|].
  intros [= <- <-]. simpl in *.
  apply video_outcome_finished in Ho1 as [Hr1 Hd1].
  apply video_outcome_finished in Ho2 as [Hr2 Hd2].
  exists (evs1 ++ [Log INFO [Txt ""]] ++ evs2).
  rewrite Ht2, Ht1, <- !app_assoc. split; [done|].
  rewrite !runs_app, !removed_app, Hr1, Hr2, Hd1, Hd2. done.
Qed.

(** X4: [main] returns 0 or 1 and nothing else; when it returns 0 the
    encoder has been run exactly twice, first for the standard and then
    for the tracking video, each with the command line of that video,
    and both frame directories have been removed. *)
Theorem main_returns_zero_after_both_videos w status w' :
  main script w = (inr status, w') →
  (status = 0%Z ∨ status = 1%Z)
  ∧ (status = 0%Z →
     ∃ evs, trace w' = trace w ++ evs
       ∧ runs evs
         = [ffmpeg_cmd script (path_join (TEMP_FRAMES_DIR script) "standard")
              (path_join (OUTPUT_DIR script) "particles_standard.mp4");
            ffmpeg_cmd script (path_join (TEMP_FRAMES_DIR script) "tracking")
              (path_join (OUTPUT_DIR script) "particles_tracked.mp4")]
       ∧ removed evs
         = [path_join (TEMP_FRAMES_DIR script) "standard";
            path_join (TEMP_FRAMES_DIR script) "tracking"]).
Proof.
  unfold main. run_log. run_log. rewrite bind_run.
  match goal with |- context [check_dependencies ?w0] =>
    pose proof (check_dependencies_preserves (emits_only reading_event)
                  reading_log w0) as (evs0 & Ht0 & HP0);
    destruct (check_dependencies w0) as [[e|[|]] w1]; [done| |] end.
  2:{ cbn. intros [= <- <-]. split; [by right|done]. }
  cbn [negb]. run_log. rewrite bind_run.
  match goal with |- context [read_binary_simulation ?f ?w0] =>
    pose proof (read_binary_simulation_preserves (emits_only reading_event)
                  reading_log reading_open f w0) as (evs1 & Ht1 & HP1);
    destruct (read_binary_simulation f w0) as [[e|df] w2]; [done|] end.
  rewrite bind_run.
  pose proof (read_parameters_preserves (emits_only reading_event)
                reading_log reading_open (PARAMETER_FILE script) w2)
    as (evs2 & Ht2 & HP2).
  destruct (read_parameters _ w2) as [[e|params] w3]; [done|].
  rewrite bind_run. unfold lift.
  destruct (main_dimensions params df) as [e|c]; [done|].
  run_log. run_log. run_log. rewrite bind_run. unfold try_except.
  match goal with |- context [generate_both script df c ?w0] =>
    destruct (generate_both script df c w0) as [[e|[r|]] w4] eqn:Hg end.
  - unfold ffmpeg_failed. destruct e; try done.
    rewrite bind_run. unfold logging_error at 1, emit, modify. cbv beta iota.
    rewrite bind_run. unfold lift.
    destruct (stderr_text _); [done|]. cbn.
    intros [= <- <-]. split; [by right|done].
  - exfalso. revert Hg. unfold generate_both. rewrite bind_run.
    destruct (generate_standard_mp4 _ _ _ _) as [[?|?] ?]; [done|].
    run_log. rewrite bind_run.
    destruct (generate_tracking_mp4 _ _ _ _) as [[?|?] ?]; done.
  - apply generate_both_finished in Hg as (evs3 & Ht3 & Hr3 & Hd3).
    cbn. intros [= <- <-]. split; [by left|]. intros _.
    simpl in Ht0, Ht1, Ht2, Ht3.
    destruct (reading_no_runs _ HP0) as (Hr0 & Hd0 & _).
    destruct (reading_no_runs _ HP1) as (Hr1 & Hd1 & _).
    destruct (reading_no_runs _ HP2) as (Hr2 & Hd2 & _).
    eexists. simpl. rewrite Ht3. simpl. rewrite Ht2, Ht1. simpl.
    rewrite Ht0. simpl. rewrite <- !app_assoc. split; [reflexivity|].
    rewrite !runs_app, !removed_app, Hr0, Hr1, Hr2, Hr3, Hd0, Hd1, Hd2, Hd3.
    done.
Qed.

End MainEvents.

Lemma main_returns_zero_after_both_videos_witness :
  (@main sample_backend generate_mp4_py (world_with sample_trajectory)).1
  = inr 0%Z
  ∧ ∃ evs,
      trace (@main sample_backend generate_mp4_py
               (world_with sample_trajectory)).2
      = trace (world_with sample_trajectory) ++ evs
      ∧ runs evs
        = [ffmpeg_cmd generate_mp4_py "temp_frames/standard"
             "figures/particles_standard.mp4";
           ffmpeg_cmd generate_mp4_py "temp_frames/tracking"
             "figures/particles_tracked.mp4"]
      ∧ removed evs = ["temp_frames/standard"; "temp_frames/tracking"].
Proof.
  assert ((@main sample_backend generate_mp4_py
             (world_with sample_trajectory)).1 = inr 0%Z) as Hm
    by (vm_compute; reflexivity).
  split; [exact Hm|].
  refine (proj2 (@main_returns_zero_after_both_videos sample_backend
                   generate_mp4_py (world_with sample_trajectory) 0%Z
                   (@main sample_backend generate_mp4_py
                      (world_with sample_trajectory)).2 _) eq_refl).
  rewrite <- Hm. apply surjective_pairing.
Defined.

Lemma is_prefix_app p s : is_prefix p (p +:+ s) = true.
Proof.
  induction p as [|a p IH]; [done|].
  change (Ascii.eqb a a && is_prefix p (p +:+ s) = true).
  by rewrite Ascii.eqb_refl, IH.
Qed.

Lemma string_app_assoc (a b c : string) : (a +:+ b) +:+ c = a +:+ (b +:+ c).
Proof.
  induction a as [|x a IH]; [done|].
  change (String x ((a +:+ b) +:+ c) = String x (a +:+ (b +:+ c))).
  by rewrite IH.
Qed.

Lemma inside_path_join dir name : inside dir (path_join dir name) = true.
Proof.
  unfold inside, path_join. apply orb_true_iff. right.
  rewrite <- string_app_assoc. apply is_prefix_app.
Qed.

Section Files.
Context `{Backend}.
Variable script : Script.

(** X5: a run of [main], whatever its outcome, leaves every file that is
    neither inside one of the two frame directories nor one of the two
    videos as it was: such a file is neither written nor removed, and
    none is created. *)
Theorem main_keeps_other_files w p :
  ¬ frame_or_video script p →
  files (main script w).2 !! p = files w !! p.
Proof.
  intros Hp. revert p Hp.
  change (keeps_files (frame_or_video script) w (main script w).2).
  apply main_preserves; try apply _.
  - intros level msg w0. by apply keeps_files_same.
  - intros path. apply keeps_files_open_read.
  - intros r w0. by apply keeps_files_same.
  - intros path. apply keeps_files_mkdir_parents.
  - intros fig dir idx [->| ->]; apply keeps_files_fig_write_image.
    + left. apply inside_path_join.
    + right; left. apply inside_path_join.
  - intros cmd name [->| ->]; apply keeps_files_subprocess_run.
    + by right; right; left.
    + by right; right; right.
  - intros dir [->| ->]; apply keeps_files_rmtree; intros p Hp.
    + by left.
    + by right; left.
Qed.

End Files.

Lemma main_keeps_other_files_witness :
  ¬ frame_or_video generate_mp4_py "data/simulation.bin"
  ∧ files (@main sample_backend generate_mp4_py (world_with sample_trajectory)).2
      !! "data/simulation.bin"
    = files (world_with sample_trajectory) !! "data/simulation.bin".
Proof.
  assert (¬ frame_or_video generate_mp4_py "data/simulation.bin") as Hp.
  { intros [Hp|[Hp|[Hp|Hp]]]; vm_compute in Hp; discriminate Hp. }
  split; [exact Hp|].
  exact (@main_keeps_other_files sample_backend generate_mp4_py
           (world_with sample_trajectory) "data/simulation.bin" Hp).
Defined.

Section Inputs.
Context `{Backend}.

Lemma new_events_app w w' evs :
  trace w' = trace w ++ evs → new_events w w' = evs.
Proof. intros Ht. unfold new_events. by rewrite Ht, drop_app_length. Qed.

Lemma read_binary_simulation_binary filename w f :
  files w !! filename = Some f →
  ∃ w' evs, read_binary_simulation filename w = (read_binary_contents f, w')
    ∧ trace w' = trace w ++ evs
    ∧ opened evs = [filename].
Proof.
  intros Hf. unfold read_binary_simulation.
  rewrite bind_run. unfold path_exists. rewrite Hf.
  rewrite bool_decide_eq_true_2 by eauto. cbn [orb negb].
  rewrite bind_run. unfold open_read. rewrite Hf.
  rewrite bind_run. unfold lift, read_binary_contents.
  destruct (read_header f) as [e|[[np nf] rest]]; cbn [ebind fst snd].
  { by eexists _, [OpenRead filename]. }
  run_log. rewrite bind_run.
  destruct (read_frames _ _ _ _) as [e|data]; cbn [ebind fst snd];
    eexists _, [_; _]; (split; [reflexivity|]); simpl;
    rewrite <- app_assoc; done.
Qed.

Lemma read_binary_simulation_csv filename w contents :
  files w !! filename = None → filename ∉ dirs w →
  files w !! with_suffix filename ".csv" = Some contents →
  ∃ w' evs, read_binary_simulation filename w
            = (ebind (pd_read_csv contents) convert_csv, w')
    ∧ trace w' = trace w ++ evs
    ∧ opened evs = [with_suffix filename ".csv"].
Proof.
  intros Hf Hd Hc. unfold read_binary_simulation.
  rewrite bind_run. unfold path_exists at 1. rewrite Hf.
  rewrite bool_decide_eq_false_2 by (by intros [? ?]).
  rewrite bool_decide_eq_false_2 by done. cbn [orb negb].
  rewrite bind_run. unfold path_exists. rewrite Hc.
  rewrite bool_decide_eq_true_2 by eauto. cbn [orb].
  run_log. unfold read_csv_simulation. run_log.
  rewrite bind_run. unfold open_read. simpl. rewrite Hc.
  rewrite bind_run. unfold lift.
  destruct (pd_read_csv contents) as [e|t]; cbn [ebind fst snd];
    eexists _, [_; _; _]; (split; [reflexivity|]); simpl;
    rewrite <- !app_assoc; done.
Qed.

Lemma read_binary_simulation_neither filename w :
  files w !! filename = None → filename ∉ dirs w →
  files w !! with_suffix filename ".csv" = None →
  with_suffix filename ".csv" ∉ dirs w →
  read_binary_simulation filename w = (inl (neither_found filename), w).
Proof.
  intros Hf Hd Hc Hcd. unfold read_binary_simulation.
  rewrite bind_run. unfold path_exists at 1. rewrite Hf.
  rewrite bool_decide_eq_false_2 by (by intros [? ?]).
  rewrite bool_decide_eq_false_2 by done. cbn [orb negb].
  rewrite bind_run. unfold path_exists. rewrite Hc.
  rewrite bool_decide_eq_false_2 by (by intros [? ?]).
  rewrite bool_decide_eq_false_2 by done. done.
Qed.

Lemma check_dependencies_ok w :
  kaleido_installed w = true → ffmpeg_on_path w = true →
  check_dependencies w = (inr true, w).
Proof.
  intros Hk Hf. unfold check_dependencies, bind, get. rewrite Hk. simpl.
  by rewrite Hf.
Qed.

(** X6: [read_binary_simulation] prefers the binary file: when it exists
    it is the only file opened, whether or not a CSV file lies next to
    it.  Only when the binary file is absent is the CSV file with the
    same stem read, through [read_csv_simulation]; and when that is
    absent too, [FileNotFoundError] names both paths and nothing has
    been opened or logged. *)
Theorem binary_preferred_over_csv filename w :
  let csv := with_suffix filename ".csv" in
  let res := read_binary_simulation filename w in
  (∀ f, files w !! filename = Some f →
     res.1 = read_binary_contents f
     ∧ opened (new_events w res.2) = [filename])
  ∧ (files w !! filename = None → filename ∉ dirs w →
     (∀ contents, files w !! csv = Some contents →
        res.1 = ebind (pd_read_csv contents) convert_csv
        ∧ opened (new_events w res.2) = [csv])
     ∧ (files w !! csv = None → csv ∉ dirs w →
        res = (inl (neither_found filename), w))).
Proof.
  cbv zeta. split; [|split].
  - intros f Hf.
    destruct (read_binary_simulation_binary filename w f Hf)
      as (w' & evs & Hr & Ht & Ho).
    rewrite Hr. simpl. by rewrite (new_events_app _ _ _ Ht).
  - intros contents Hc.
    destruct (read_binary_simulation_csv filename w contents) as
      (w' & evs & Hr & Ht & Ho); [done..|].
    rewrite Hr. simpl. by rewrite (new_events_app _ _ _ Ht).
  - intros Hc Hcd. by apply read_binary_simulation_neither.
Qed.

(** X7: with both dependencies present and neither the binary input nor
    the CSV file next to it, [main] raises the [FileNotFoundError] that
    names both paths; nothing catches it, so the process of either
    script ends with status 1; only messages have been logged, and no
    file or directory has been touched. *)
Theorem missing_input_ends_script script w :
  kaleido_installed w = true → ffmpeg_on_path w = true →
  files w !! INPUT_FILE script = None → INPUT_FILE script ∉ dirs w →
  files w !! with_suffix (INPUT_FILE script) ".csv" = None →
  with_suffix (INPUT_FILE script) ".csv" ∉ dirs w →
  ∃ w', main script w = (inl (neither_found (INPUT_FILE script)), w')
    ∧ (run_script script w).1 = 1%Z
    ∧ files w' = files w ∧ dirs w' = dirs w
    ∧ Forall (λ ev, ∃ msg, ev = Log INFO msg) (new_events w w').
Proof.
  intros Hk Hf Hi Hid Hc Hcd.
  assert (∃ w', main script w = (inl (neither_found (INPUT_FILE script)), w')
            ∧ files w' = files w ∧ dirs w' = dirs w
            ∧ Forall (λ ev, ∃ msg, ev = Log INFO msg) (new_events w w'))
    as (w' & Hm & Hrest).
  { unfold main. run_log. run_log. rewrite bind_run.
    rewrite check_dependencies_ok by (exact Hk || exact Hf).
    cbn [negb]. run_log. rewrite bind_run.
    rewrite read_binary_simulation_neither by done.
    eexists. split; [reflexivity|]. split; [done|]. split; [done|].
    erewrite (new_events_app w _ [_; _; _]) by (simpl; by rewrite <- !app_assoc).
    repeat constructor; eauto. }
  exists w'. split; [done|]. split; [|done].
  unfold run_script. by rewrite Hm.
Qed.

End Inputs.

Lemma missing_input_ends_script_witness :
  kaleido_installed empty_machine = true ∧ ffmpeg_on_path empty_machine = true
  ∧ (@run_script sample_backend generate_mp4_py empty_machine).1 = 1%Z
  ∧ (@run_script sample_backend scripts_generate_mp4_py empty_machine).1 = 1%Z.
Proof.
  split; [reflexivity|]. split; [reflexivity|].
  split.
  - destruct (@missing_input_ends_script sample_backend generate_mp4_py
                empty_machine) as (w' & _ & Hs & _);
      [reflexivity|reflexivity|reflexivity|set_solver|reflexivity|set_solver|].
    exact Hs.
  - destruct (@missing_input_ends_script sample_backend scripts_generate_mp4_py
                empty_machine) as (w' & _ & Hs & _);
      [reflexivity|reflexivity|reflexivity|set_solver|reflexivity|set_solver|].
    exact Hs.
Defined.

Section Dependencies.
Context `{Backend}.

(** X15: [main] checks the image export library first and the encoder
    second, and stops at the first that is missing: it returns 1 after
    the two banner lines and one error message that names the missing
    dependency (only the library when both are missing), without opening
    or writing anything.  The process of [generate_mp4.py] then ends
    with status 1, that of [scripts/generate_mp4.py] with status 0. *)
Theorem missing_dependency_is_reported script w :
  kaleido_installed w = false ∨ ffmpeg_on_path w = false →
  ∃ w' banner1 banner2,
    main script w = (inr 1%Z, w')
    ∧ new_events w w'
      = [Log INFO banner1; Log INFO banner2;
         Log ERROR
           [Txt (if kaleido_installed w
                 then "ffmpeg not found. Install with: brew install ffmpeg"
                 else "kaleido not installed. Install with: uv add kaleido")]]
    ∧ files w' = files w ∧ dirs w' = dirs w ∧ rng w' = rng w
    ∧ (run_script script w).1 = (if exits_with_main script then 1 else 0)%Z.
Proof.
  intros Hdep.
  assert (∃ w' banner1 banner2,
    main script w = (inr 1%Z, w')
    ∧ trace w'
      = trace w
        ++ [Log INFO banner1; Log INFO banner2;
            Log ERROR
              [Txt (if kaleido_installed w
                    then "ffmpeg not found. Install with: brew install ffmpeg"
                    else "kaleido not installed. Install with: uv add kaleido")]]
    ∧ files w' = files w ∧ dirs w' = dirs w ∧ rng w' = rng w)
    as (w' & b1 & b2 & Hm & Ht & Hf & Hd & Hr).
  { unfold main, bind, check_dependencies, logging_info, logging_error, emit,
      modify, get, ret, add_event. simpl.
    destruct (kaleido_installed w) eqn:Hk; simpl.
    - destruct Hdep as [?|Hf]; [done|]. rewrite Hf. simpl.
      eexists _, _, _. split; [reflexivity|]. simpl.
      rewrite <- !app_assoc. done.
    - eexists _, _, _. split; [reflexivity|]. simpl.
      rewrite <- !app_assoc. done. }
  exists w', b1, b2. split; [done|].
  split; [by apply new_events_app|].
  do 3 (split; [done|]). unfold run_script. by rewrite Hm.
Qed.

End Dependencies.

Lemma missing_dependency_is_reported_witness :
  (kaleido_installed world_without_ffmpeg = false
   ∨ ffmpeg_on_path world_without_ffmpeg = false)
  ∧ (@run_script sample_backend generate_mp4_py world_without_ffmpeg).1 = 1%Z
  ∧ (@run_script sample_backend scripts_generate_mp4_py world_without_ffmpeg).1
    = 0%Z.
Proof.
  assert (kaleido_installed world_without_ffmpeg = false
          ∨ ffmpeg_on_path world_without_ffmpeg = false) as Hdep
    by (right; reflexivity).
  split; [exact Hdep|]. split.
  - destruct (@missing_dependency_is_reported sample_backend generate_mp4_py
                world_without_ffmpeg Hdep)
      as (w' & b1 & b2 & _ & _ & _ & _ & _ & Hs).
    exact Hs.
  - destruct (@missing_dependency_is_reported sample_backend
                scripts_generate_mp4_py world_without_ffmpeg Hdep)
      as (w' & b1 & b2 & _ & _ & _ & _ & _ & Hs).
    exact Hs.
Defined.

Section ParameterFile.
Context `{Backend}.

Lemma parse_parameters_inr text p :
  parse_parameters text = inr p ↔
  ∃ s6 s7, split tab (strip (readline text)) !! 6 = Some s6
    ∧ split tab (strip (readline text)) !! 7 = Some s7
    ∧ py_float s6 = Some (params_Wall p)
    ∧ py_float s7 = Some (params_height p).
Proof.
  unfold parse_parameters, list_index, float_of_str.
  destruct (split tab (strip (readline text)) !! 6) as [s6|]; cbn [ebind].
  2:{ split; [done|]. by intros (? & ? & ? & _). }
  destruct (py_float s6) as [W|] eqn:H6; cbn [ebind].
  2:{ split; [done|]. intros (? & ? & [= <-] & _ & ? & _). congruence. }
  destruct (split tab (strip (readline text)) !! 7) as [s7|]; cbn [ebind].
  2:{ split; [done|]. by intros (? & ? & _ & ? & _). }
  destruct (py_float s7) as [h|] eqn:H7; cbn [ebind].
  2:{ split; [done|]. intros (? & ? & _ & [= <-] & _ & ?). congruence. }
  split.
  - intros [= <-]. eauto 10.
  - intros (? & ? & [= <-] & [= <-] & HW & Hh). destruct p as [W' h'].
    simpl in *. congruence.
Qed.

Lemma read_parameters_cases parameter_file w :
  (∃ contents text p,
      files w !! parameter_file = Some contents
      ∧ decode_utf8 contents = Some text
      ∧ parse_parameters text = inr p
      ∧ read_parameters parameter_file w
        = (inr (Some p), add_event (OpenRead parameter_file) w))
  ∨ (parameters_unusable parameter_file w
     ∧ ∃ w', read_parameters parameter_file w = (inr None, w')).
Proof.
  unfold read_parameters, try_except, parameters_unusable.
  rewrite bind_run. unfold open_read.
  destruct (files w !! parameter_file) as [contents|];
    [|right; split; [done|simpl; eauto]].
  rewrite bind_run. unfold lift at 1, decode_text.
  destruct (decode_utf8 contents) as [text|] eqn:Hd;
    [|right; split; [done|simpl; eauto]].
  rewrite bind_run. unfold lift.
  destruct (parse_parameters text) as [e|p] eqn:Hp.
  - right. split; [|simpl; eauto]. cbv zeta.
    revert Hp. unfold parse_parameters, list_index, float_of_str.
    destruct (split tab (strip (readline text)) !! 6) as [s6|] eqn:H6;
      cbn [ebind].
    2:{ intros _. left. apply lookup_ge_None in H6. lia. }
    destruct (py_float s6) eqn:Hf6; cbn [ebind]; [|eauto].
    destruct (split tab (strip (readline text)) !! 7) as [s7|] eqn:H7;
      cbn [ebind].
    2:{ intros _. left. apply lookup_ge_None in H7. lia. }
    destruct (py_float s7) eqn:Hf7; cbn [ebind]; [done|eauto].
  - left. simpl. eauto 10.
Qed.

(** X8: [read_parameters] returns the parameters exactly when the file
    exists, is text, and the fields 6 and 7 of its first line are
    accepted by [float]; they are then the radius and the height, in
    this order, and nothing is logged.  In every other case, and only
    then, it returns [None]. *)
Theorem parameters_usable_iff parameter_file w :
  (∀ p, (read_parameters parameter_file w).1 = inr (Some p)
        ↔ parameters_usable parameter_file w p)
  ∧ ((read_parameters parameter_file w).1 = inr None
     ↔ parameters_unusable parameter_file w)
  ∧ (∀ p, (read_parameters parameter_file w).1 = inr (Some p) →
       (read_parameters parameter_file w).2
       = add_event (OpenRead parameter_file) w).
Proof.
  destruct (read_parameters_cases parameter_file w)
    as [(contents & text & p & Hf & Hd & Hp & ->)|[Hun [w' ->]]];
    cbn [fst snd].
  - split; [|split].
    + intros p'. unfold parameters_usable. split.
      * intros [= <-]. apply parse_parameters_inr in Hp
          as (s6 & s7 & ? & ? & ? & ?). eauto 10.
      * intros (c' & t' & s6 & s7 & Hf' & Hd' & H6 & H7 & HW & Hh).
        rewrite Hf in Hf'. injection Hf' as <-.
        rewrite Hd in Hd'. injection Hd' as <-.
        assert (parse_parameters text = inr p') as Hp'
          by (apply parse_parameters_inr; by exists s6, s7).
        congruence.
    + split; [done|]. unfold parameters_unusable. rewrite Hf, Hd. cbv zeta.
      apply parse_parameters_inr in Hp as (s6 & s7 & H6 & H7 & HW & Hh).
      intros [Hlen|[(s & Hs & Hn)|(s & Hs & Hn)]].
      * apply lookup_lt_Some in H7. lia.
      * congruence.
      * congruence.
    + done.
  - split; [|split]; [|done|done].
    intros p. split; [done|].
    intros (contents & text & s6 & s7 & Hf & Hd & H6 & H7 & HW & Hh).
    exfalso. unfold parameters_unusable in Hun. rewrite Hf, Hd in Hun.
    cbv zeta in Hun. destruct Hun as [Hlen|[(s & Hs & Hn)|(s & Hs & Hn)]].
    + apply lookup_lt_Some in H7. lia.
    + congruence.
    + congruence.
Qed.

Lemma readline_first_line line rest :
  all_chars (λ c, negb (is_line_end c)) line = true →
  readline (line +:+ line_feed +:+ rest) = line +:+ line_feed
  ∧ readline line = line.
Proof.
  unfold all_chars. induction line as [|c line IH]; [done|].
  cbn [String.list_ascii_of_string forallb]. intros [Hc Hl]%andb_true_iff.
  apply negb_true_iff in Hc. unfold is_line_end in Hc.
  destruct (IH Hl) as [IH1 IH2].
  change (String c line +:+ line_feed +:+ rest)
    with (String c (line +:+ line_feed +:+ rest)).
  change (String c line +:+ line_feed) with (String c (line +:+ line_feed)).
  cbn [readline]. by rewrite Hc, IH1, IH2.
Qed.

Lemma rstrip_line_feed s : rstrip (s +:+ line_feed) = rstrip s.
Proof.
  induction s as [|c s IH]; [done|].
  change (String c s +:+ line_feed) with (String c (s +:+ line_feed)).
  cbn [rstrip]. by rewrite IH.
Qed.

Lemma lstrip_line_feed s :
  lstrip (s +:+ line_feed)
  = match lstrip s with
    | EmptyString => EmptyString
    | r => r +:+ line_feed
    end.
Proof.
  induction s as [|c s IH]; [done|].
  change (String c s +:+ line_feed) with (String c (s +:+ line_feed)).
  cbn [lstrip]. by destruct (is_space c).
Qed.

Lemma strip_line_feed s : strip (s +:+ line_feed) = strip s.
Proof.
  unfold strip. rewrite lstrip_line_feed.
  destruct (lstrip s) as [|c r] eqn:Hs; [done|]. apply rstrip_line_feed.
Qed.

(** X9: only the first line of the parameter file is used: whatever
    follows the first line ending, and that line ending itself, do not
    change what [read_parameters] parses. *)
Theorem only_first_line_is_parsed line rest :
  all_chars (λ c, negb (is_line_end c)) line = true →
  parse_parameters (line +:+ line_feed +:+ rest) = parse_parameters line.
Proof.
  intros Hline. unfold parse_parameters.
  destruct (readline_first_line line rest Hline) as [-> ->].
  by rewrite strip_line_feed.
Qed.

End ParameterFile.

Lemma only_first_line_is_parsed_witness :
  all_chars (λ c, negb (is_line_end c)) "0.1" = true
  ∧ @parse_parameters sample_backend ("0.1" +:+ line_feed +:+ "1 2 3")
    = @parse_parameters sample_backend "0.1".
Proof.
  split; [reflexivity|].
  apply (@only_first_line_is_parsed sample_backend "0.1" "1 2 3"). reflexivity.
Defined.

Lemma lookup_colors_ok (pc : gmap Z string) ps (colour : Z → string) :
  (∀ p, p ∈ ps → pc !! p = Some (colour p)) →
  lookup_colors pc ps = inr (colour <$> ps).
Proof.
  induction ps as [|p ps IH]; intros Hok; [done|].
  cbn [lookup_colors]. rewrite (Hok p) by left. cbn [ebind].
  rewrite IH by (intros q Hq; apply Hok; by right). done.
Qed.

Section Tracking.
Context `{Backend}.
Hypothesis rng_permutation_ok : ∀ s n, (rng_permutation s n).1 ≡ₚ seq 0 n.

(** The figure of a tracking frame, for the sample and the colours that
    [select_tracked] has returned. *)
Lemma tracking_figure_built script df w tracked pc w' timestep c :
  select_tracked script df w = (inr (tracked, pc), w') →
  "time" ∈ df_columns df → "x-position" ∈ df_columns df →
  "y-position" ∈ df_columns df → "z-position" ∈ df_columns df →
  ∃ fig cs,
    tracking_figure df timestep tracked pc c = inr fig
    ∧ fig_marker_color fig = ColorList cs
    ∧ fig_x fig = x_position <$> tracked_rows df timestep tracked
    ∧ fig_y fig = y_position <$> tracked_rows df timestep tracked
    ∧ fig_z fig = z_position <$> tracked_rows df timestep tracked
    ∧ Forall2 (λ r colour,
                 ∃ i : nat, tracked !! i = Some (Particles r)
                   ∧ colour = hsl (360 * Z.of_nat i / Z.of_nat (length tracked)))
        (tracked_rows df timestep tracked) cs.
Proof using rng_permutation_ok.
  intros Hsel Ht Hx Hy Hz.
  destruct (select_tracked_inv rng_permutation_ok _ _ _ _ _ _ Hsel)
    as (p & k & Hp & Hk & -> & Hlen & Hk1 & Hnd & Hsub).
  assert ("Particles" ∈ df_columns df) as Hcol.
  { unfold df_get in Hp. by destruct (bool_decide_reflect
      ("Particles" ∈ df_columns df)). }
  assert (Z.of_nat (length tracked) = k) as Hlenk by lia.
  (* the colour of a particle of the sample *)
  assert (∃ colour : Z → string,
            ∀ q, q ∈ tracked →
              dict_zip tracked (colors k) !! q = Some (colour q)
              ∧ ∃ i : nat, tracked !! i = Some q
                  ∧ colour q = hsl (360 * Z.of_nat i / Z.of_nat (length tracked)))
    as (colour & Hcolour).
  { exists (λ q, default EmptyString (dict_zip tracked (colors k) !! q)).
    intros q Hq. apply list_elem_of_lookup in Hq as [i Hi].
    assert (i < Z.to_nat k) as Hik by (apply lookup_lt_Some in Hi; lia).
    pose proof (colors_lookup k i Hik) as Hci.
    rewrite (dict_zip_lookup tracked (colors k) i q _ Hnd Hi Hci). simpl.
    split; [done|]. exists i. split; [done|]. by rewrite Hlenk. }
  unfold tracking_figure.
  rewrite (df_get_present df _ time Ht), (df_get_present df _ Particles Hcol).
  cbn [ebind]. fold (tracked_rows df timestep tracked).
  set (rows := tracked_rows df timestep tracked).
  rewrite (df_get_present (mkDataFrame _ rows) _ Particles Hcol).
  cbn [ebind df_rows].
  rewrite (lookup_colors_ok _ _ colour).
  2:{ intros q (r & -> & Hr)%list_elem_of_fmap. apply Hcolour.
      apply list_elem_of_filter in Hr. tauto. }
  cbn [ebind].
  rewrite (df_get_present (mkDataFrame _ rows) _ x_position Hx),
    (df_get_present (mkDataFrame _ rows) _ y_position Hy),
    (df_get_present (mkDataFrame _ rows) _ z_position Hz).
  cbn [ebind df_rows]. eexists _, _. split; [reflexivity|].
  cbn [fig_marker_color fig_x fig_y fig_z]. do 4 (split; [reflexivity|]).
  rewrite <- list_fmap_compose. apply Forall2_fmap_r, Forall_Forall2_diag.
  apply Forall_forall. intros r Hr. simpl. apply Hcolour.
  apply list_elem_of_filter in Hr. tauto.
Qed.

(** X10: with the sample and the colours that [generate_tracking_mp4]
    has drawn, the figure of every timestep can be built whenever the
    table has the position columns: no row shown lacks a colour.  The
    rows shown are those of the timestep whose particle is in the
    sample, in table order, and the marker of each row has the colour of
    its particle, which is the colour at the position where the particle
    was drawn. *)
Theorem tracked_rows_are_coloured script df w tracked pc w' timestep c :
  select_tracked script df w = (inr (tracked, pc), w') →
  "time" ∈ df_columns df → "x-position" ∈ df_columns df →
  "y-position" ∈ df_columns df → "z-position" ∈ df_columns df →
  ∃ fig cs,
    tracking_figure df timestep tracked pc c = inr fig
    ∧ fig_marker_color fig = ColorList cs
    ∧ fig_x fig = x_position <$> tracked_rows df timestep tracked
    ∧ fig_y fig = y_position <$> tracked_rows df timestep tracked
    ∧ fig_z fig = z_position <$> tracked_rows df timestep tracked
    ∧ Forall2 (λ r colour,
                 ∃ i : nat, tracked !! i = Some (Particles r)
                   ∧ colour = hsl (360 * Z.of_nat i / Z.of_nat (length tracked)))
        (tracked_rows df timestep tracked) cs.
Proof using rng_permutation_ok.
  intros Hsel Ht Hx Hy Hz.
  exact (tracking_figure_built script df w tracked pc w' timestep c
           Hsel Ht Hx Hy Hz).
Qed.

End Tracking.

Lemma tracked_rows_are_coloured_witness :
  (∀ s n, (@rng_permutation sample_backend s n).1 ≡ₚ seq 0 n)
  ∧ "time" ∈ df_columns sample_table
  ∧ ∃ fig cs,
      tracking_figure sample_table 3 [0%Z] (dict_zip [0%Z] (colors 1))
        sample_cylinder = inr fig
      ∧ fig_marker_color fig = ColorList cs
      ∧ fig_x fig = x_position <$> tracked_rows sample_table 3 [0%Z]
      ∧ fig_y fig = y_position <$> tracked_rows sample_table 3 [0%Z]
      ∧ fig_z fig = z_position <$> tracked_rows sample_table 3 [0%Z]
      ∧ Forall2 (λ r colour,
                   ∃ i : nat, [0%Z] !! i = Some (Particles r)
                     ∧ colour = hsl (360 * Z.of_nat i / Z.of_nat (length [0%Z])))
          (tracked_rows sample_table 3 [0%Z]) cs.
Proof.
  assert (∀ s n, (@rng_permutation sample_backend s n).1 ≡ₚ seq 0 n) as Hperm
    by (intros; reflexivity).
  assert (∀ name, bool_decide (name ∈ df_columns sample_table) = true →
            name ∈ df_columns sample_table) as Hcol
    by (intros name; apply bool_decide_eq_true_1).
  split; [exact Hperm|]. split; [apply Hcol; vm_compute; reflexivity|].
  apply (@tracked_rows_are_coloured sample_backend Hperm generate_mp4_py
           sample_table (world_with sample_trajectory) [0%Z]
           (dict_zip [0%Z] (colors 1))
           (@select_tracked sample_backend generate_mp4_py sample_table
              (world_with sample_trajectory)).2 3%Z sample_cylinder).
  - vm_compute; reflexivity.
  - apply Hcol; vm_compute; reflexivity.
  - apply Hcol; vm_compute; reflexivity.
  - apply Hcol; vm_compute; reflexivity.
  - apply Hcol; vm_compute; reflexivity.
Defined.

Section NoRows.
Context `{Backend}.

Lemma timesteps_of_no_rows df :
  "time" ∈ df_columns df → df_rows df = [] → timesteps_of df = inr [].
Proof.
  intros Ht Hr. unfold timesteps_of.
  rewrite (df_get_present df _ time Ht), Hr. done.
Qed.

(** X11: on a table that has its columns but no row (a CSV file with
    only its header line), [generate_tracking_mp4] raises [ValueError]
    when it draws the sample, before it creates its frame directory and
    without consuming the random generator, whereas
    [generate_standard_mp4] creates its frame directory, renders no
    frame and still starts the encoder on it. *)
Theorem no_rows_stops_tracking script df c w k :
  "time" ∈ df_columns df → "Particles" ∈ df_columns df → df_rows df = [] →
  tracked_count (TRACK_PERCENTAGE script) 0 = inr k →
  files w !! path_join (TEMP_FRAMES_DIR script) "standard" = None →
  generate_tracking_mp4 script df c w
  = (inl (ValueError "'a' cannot be empty unless no samples are taken"), w)
  ∧ ∃ msg finished,
      trace (generate_standard_mp4 script df c w).2
      = trace w
        ++ [Log INFO msg; Mkdir (path_join (TEMP_FRAMES_DIR script) "standard")]
        ++ encoder_events script
             (path_join (TEMP_FRAMES_DIR script) "standard")
             (path_join (OUTPUT_DIR script) "particles_standard.mp4") finished.
Proof.
  intros Ht Hp Hr Hk Hdir. split.
  - unfold generate_tracking_mp4. rewrite bind_run. unfold lift.
    rewrite (timesteps_of_no_rows df Ht Hr). rewrite bind_run.
    unfold select_tracked. rewrite bind_run. unfold lift.
    rewrite (df_get_present df _ Particles Hp), Hr. cbn [fmap list_fmap unique length].
    rewrite bind_run, Hk. rewrite bind_run.
    pose proof (tracked_count_ge_1 _ _ _ Hk) as Hk1.
    unfold np_random_choice. cbn [length].
    rewrite bool_decide_eq_true_2 by done.
    destruct (Z.eqb_spec k 0) as [->|_]; [lia|]. done.
  - unfold generate_standard_mp4. rewrite bind_run. unfold lift.
    rewrite (timesteps_of_no_rows df Ht Hr). run_log. rewrite bind_run.
    unfold mkdir_parents. cbn [files add_event]. rewrite Hdir.
    rewrite bool_decide_eq_false_2 by (by intros [? ?]).
    rewrite bind_run. unfold frame_loop, enumerate. cbn [length seq zip zip_with for_each ret].
    match goal with |- context [create_mp4 _ _ _ ?w0] => set (w1 := w0) end.
    assert (path_join (TEMP_FRAMES_DIR script) "standard" ∈ dirs w1) as Hin
      by (unfold w1; simpl; set_solver).
    destruct (create_mp4_events script
                (path_join (TEMP_FRAMES_DIR script) "standard")
                (path_join (OUTPUT_DIR script) "particles_standard.mp4") w1 Hin)
      as [[Hev _]|[Hev _]]; eexists _, _; rewrite Hev; unfold w1; simpl;
      rewrite <- !app_assoc; reflexivity.
Qed.

End NoRows.

Lemma no_rows_stops_tracking_witness :
  "time" ∈ df_columns header_only_table
  ∧ "Particles" ∈ df_columns header_only_table
  ∧ df_rows header_only_table = []
  ∧ tracked_count (TRACK_PERCENTAGE generate_mp4_py) 0 = inr 1%Z
  ∧ files empty_machine
      !! path_join (TEMP_FRAMES_DIR generate_mp4_py) "standard" = None
  ∧ @generate_tracking_mp4 sample_backend generate_mp4_py header_only_table
      sample_cylinder empty_machine
    = (inl (ValueError "'a' cannot be empty unless no samples are taken"),
       empty_machine).
Proof.
  assert ("time" ∈ df_columns header_only_table) as H1
    by (apply (bool_decide_unpack _); reflexivity).
  assert ("Particles" ∈ df_columns header_only_table) as H2
    by (apply (bool_decide_unpack _); reflexivity).
  assert (tracked_count (TRACK_PERCENTAGE generate_mp4_py) 0 = inr 1%Z) as H3
    by (vm_compute; reflexivity).
  split; [exact H1|]. split; [exact H2|]. split; [reflexivity|].
  split; [exact H3|]. split; [reflexivity|].
  exact (proj1 (@no_rows_stops_tracking sample_backend generate_mp4_py
                  header_only_table sample_cylinder empty_machine 1%Z
                  H1 H2 eq_refl H3 eq_refl)).
Defined.

Section TrackingFrames.
Context `{Backend}.
Variable script : Script.

(** X12: [generate_tracking_mp4] draws its sample once, before the first
    frame: when every frame renders, it writes exactly one image per
    distinct timestep, in ascending order of the timesteps, into
    [frame_{idx:04d}.png] of the tracking frame directory, and every one
    of these images shows the same sample with the same colours. *)
Theorem one_sample_for_all_frames df c w ts tracked pc w1 :
  timesteps_of df = inr ts →
  select_tracked script df w = (inr (tracked, pc), w1) →
  files w !! path_join (TEMP_FRAMES_DIR script) "tracking" = None →
  (∀ t, t ∈ ts → ∃ fig image,
     tracking_figure df t tracked pc c = inr fig ∧ write_image fig = inr image) →
  ∃ evs,
    trace (generate_tracking_mp4 script df c w).2 = trace w ++ evs
    ∧ Forall2 (λ it im,
                 im.1 = path_join (path_join (TEMP_FRAMES_DIR script) "tracking")
                          (frame_name it.1)
                 ∧ tracking_figure df it.2 tracked pc c = inr im.2)
        (enumerate ts) (images evs).
Proof.
  intros Hts Hsel Hdir Hok.
  pose proof (select_tracked_preserves script (emits_only reading_event)
                (λ l m, emits_emit _ _ I) (emits_set_rng _) df w)
    as (evs0 & Ht0 & HP0).
  pose proof (select_tracked_preserves script (keeps_files (λ _, False))
                (λ l m w0, keeps_files_same _ _ _ eq_refl)
                (λ r w0, keeps_files_same _ _ _ eq_refl) df w) as Hf0.
  rewrite Hsel in Ht0, Hf0. simpl in Ht0, Hf0.
  destruct (reading_no_runs _ HP0) as (_ & _ & Hi0).
  unfold generate_tracking_mp4. rewrite bind_run. unfold lift. rewrite Hts.
  rewrite bind_run, Hsel. rewrite bind_run.
  unfold mkdir_parents. rewrite (Hf0 _ (λ x, x)), Hdir.
  rewrite bool_decide_eq_false_2 by (by intros [? ?]).
  rewrite bind_run.
  set (w2 := add_event (Mkdir _) _).
  destruct (frame_loop_images script
              (path_join (TEMP_FRAMES_DIR script) "tracking")
              (λ t, tracking_figure df t tracked pc c)
              (λ timestep frame_path,
                 render_tracking_frame df timestep tracked pc c frame_path)
              ts w2 ltac:(done) Hok)
    as (w3 & evs & -> & Ht3 & Himgs).
  destruct (create_mp4_no_image script
              (path_join (TEMP_FRAMES_DIR script) "tracking")
              (path_join (OUTPUT_DIR script) "particles_tracked.mp4") w3)
    as (evs2 & Ht4 & Himgs2).
  exists (evs0 ++ [Mkdir (path_join (TEMP_FRAMES_DIR script) "tracking")]
          ++ evs ++ evs2). split.
  - rewrite Ht4, Ht3. unfold w2. simpl. rewrite Ht0, <- !app_assoc. done.
  - rewrite !images_app, Hi0, Himgs2. simpl. by rewrite app_nil_r.
Qed.

End TrackingFrames.

Lemma one_sample_for_all_frames_witness :
  timesteps_of sample_table = inr [3; 5]%Z
  ∧ ∃ evs,
      trace (@generate_tracking_mp4 sample_backend generate_mp4_py sample_table
               sample_cylinder (world_with sample_trajectory)).2
      = trace (world_with sample_trajectory) ++ evs
      ∧ Forall2 (λ it im,
                   im.1 = path_join
                            (path_join (TEMP_FRAMES_DIR generate_mp4_py) "tracking")
                            (frame_name it.1)
                   ∧ tracking_figure sample_table it.2 [0%Z]
                       (dict_zip [0%Z] (colors 1)) sample_cylinder = inr im.2)
          (enumerate [3; 5]%Z) (images evs).
Proof.
  assert (timesteps_of sample_table = inr [3; 5]%Z) as H1
    by (vm_compute; reflexivity).
  split; [exact H1|].
  apply (@one_sample_for_all_frames sample_backend generate_mp4_py sample_table
           sample_cylinder (world_with sample_trajectory) [3; 5]%Z [0%Z]
           (dict_zip [0%Z] (colors 1))
           (@select_tracked sample_backend generate_mp4_py sample_table
              (world_with sample_trajectory)).2 H1).
  - vm_compute; reflexivity.
  - vm_compute; reflexivity.
  - intros t Ht.
    apply elem_of_cons in Ht as [->|Ht];
      [eexists _, []; split; [vm_compute; reflexivity|reflexivity]|].
    apply elem_of_cons in Ht as [->|Ht];
      [eexists _, []; split; [vm_compute; reflexivity|reflexivity]|].
    by apply elem_of_nil in Ht.
Defined.

(** ** The range of heights *)

Lemma foldl_min_spec r : ∀ v,
  Forall not_nan (v :: r) →
  let m := foldl (λ a b, if fleb a b then a else b) v r in
  m ∈ v :: r ∧ ∀ u, u ∈ v :: r → fleb m u = true.
Proof.
  induction r as [|b r IH]; intros v Hnn; simpl.
  - split; [apply list_elem_of_here|]. intros u ->%list_elem_of_singleton.
    apply Forall_cons in Hnn as [Hv _].
    apply fleb_key; [done|done|apply key_le_refl].
  - apply Forall_cons in Hnn as [Hv Hnn]. apply Forall_cons in Hnn as [Hb Hr].
    set (a := if fleb v b then v else b).
    assert (not_nan a) as Ha by (unfold a; by destruct (fleb v b)).
    assert (fleb a v = true ∧ fleb a b = true ∧ (a = v ∨ a = b))
      as (Hva & Hba & Hab).
    { unfold a. destruct (fleb v b) eqn:E.
      - split; [|split; [done|by left]].
        apply fleb_key; [done|done|apply key_le_refl].
      - split; [|split; [|by right]].
        + apply fleb_key; [done|done|].
          destruct (key_le_total (fkey v) (fkey b)) as [Hvb|]; [|done].
          apply (fleb_key v b Hv Hb) in Hvb. congruence.
        + apply fleb_key; [done|done|apply key_le_refl]. }
    destruct (IH a) as [Hin Hmin]; [by constructor|].
    set (m := foldl _ a r) in *.
    assert (not_nan m) as Hm.
    { apply elem_of_cons in Hin as [->|Hin]; [done|].
      by eapply Forall_forall in Hr. }
    split.
    + apply elem_of_cons in Hin as [->|Hin].
      * destruct Hab as [->| ->]; [left|right; left].
      * by do 2 right.
    + assert (fleb m a = true) as Hma by (apply Hmin; left).
      intros u [->|[->|Hu]%elem_of_cons]%elem_of_cons.
      * by apply (fleb_trans m a v).
      * by apply (fleb_trans m a b).
      * apply Hmin. by right.
Qed.

Lemma Forall_present s : Forall not_nan (present s).
Proof.
  apply Forall_forall. intros v Hv. unfold present in Hv.
  apply list_elem_of_filter in Hv. tauto.
Qed.

(** [Series.max()] and [Series.min()] are attained among the values that
    are not NaN and bound them all. *)
Lemma series_extrema (s : list float) :
  present s ≠ [] →
  series_min s ∈ present s ∧ series_max s ∈ present s
  ∧ ∀ u, u ∈ present s →
      fleb (series_min s) u = true ∧ fleb u (series_max s) = true.
Proof.
  intros Hne. pose proof (Forall_present s) as Hnn.
  unfold series_min, series_max. fold (present s).
  destruct (present s) as [|v r]; [done|].
  destruct (foldl_min_spec r v Hnn) as [Hmin Hlb].
  destruct (foldl_max_spec r v Hnn) as [Hmax Hub].
  split; [done|]. split; [done|]. intros u Hu. split; [by apply Hlb|by apply Hub].
Qed.

(** X13: the range of heights that [main] of [generate_mp4.py] passes
    on is read from the table whether or not the parameter file could
    be used: its ends are the least and the greatest height of a row,
    NaN heights apart, and every such height lies between them.  The
    height of the parameter file enters the logged height only. *)
Theorem z_range_is_read_from_data params df c :
  main_dimensions params df = inr c →
  present (z_position <$> df_rows df) ≠ [] →
  (∃ r, r ∈ df_rows df ∧ height_min c = z_position r)
  ∧ (∃ r, r ∈ df_rows df ∧ height_max c = z_position r)
  ∧ (∀ r, r ∈ df_rows df → not_nan (z_position r) →
       fleb (height_min c) (z_position r) = true
       ∧ fleb (z_position r) (height_max c) = true)
  ∧ (∀ p, params = Some p → Wall c = params_Wall p ∧ height c = params_height p)
  ∧ ∀ params' c', main_dimensions params' df = inr c' →
      height_min c' = height_min c ∧ height_max c' = height_max c.
Proof.
  intros Hc Hne.
  assert (∃ W h, c = mkCylinder W h (series_min (z_position <$> df_rows df))
                     (series_max (z_position <$> df_rows df))
                 ∧ "z-position" ∈ df_columns df
                 ∧ ∀ p, params = Some p → W = params_Wall p ∧ h = params_height p)
    as (W & h & -> & Hz & Hp).
  { revert Hc. unfold main_dimensions.
    destruct (bool_decide_reflect ("z-position" ∈ df_columns df)) as [Hz|Hz].
    - rewrite !(df_get_present df _ z_position Hz).
      destruct params as [p|]; cbn [ebind].
      + intros [= <-]. eexists _, _. split; [done|]. split; [done|].
        by intros ? [= <-].
      + destruct (data_Wall df); cbn [ebind]; [done|].
        intros [= <-]. eexists _, _. split; [done|]. split; [done|]. done.
    - rewrite !(df_get_absent df _ z_position Hz).
      destruct params as [p|]; cbn [ebind]; [done|].
      by destruct (data_Wall df). }
  destruct (series_extrema _ Hne) as (Hmin & Hmax & Hb).
  cbn [height_min height_max Wall height].
  split; [|split; [|split; [|split]]].
  - unfold present in Hmin. apply list_elem_of_filter in Hmin as [_ Hmin].
    apply list_elem_of_fmap in Hmin as (r & Hr & Hin). eauto.
  - unfold present in Hmax. apply list_elem_of_filter in Hmax as [_ Hmax].
    apply list_elem_of_fmap in Hmax as (r & Hr & Hin). eauto.
  - intros r Hr Hnn. apply Hb. unfold present. apply list_elem_of_filter.
    split; [done|]. apply list_elem_of_fmap. eauto.
  - done.
  - intros params' c'. unfold main_dimensions.
    rewrite !(df_get_present df _ z_position Hz).
    destruct params' as [p'|]; cbn [ebind].
    + by intros [= <-].
    + destruct (data_Wall df) as [e|W']; cbn [ebind]; [done|].
      by intros [= <-].
Qed.

Lemma z_range_is_read_from_data_witness :
  main_dimensions None table_3_4
  = inr (mkCylinder (fmul (float_of_Z 4) F1_1)
           (fsub (S754_zero false) (S754_zero false))
           (S754_zero false) (S754_zero false))
  ∧ present (z_position <$> df_rows table_3_4) ≠ []
  ∧ ∀ params' c', main_dimensions params' table_3_4 = inr c' →
      height_min c' = S754_zero false ∧ height_max c' = S754_zero false.
Proof.
  assert (main_dimensions None table_3_4
          = inr (mkCylinder (fmul (float_of_Z 4) F1_1)
                   (fsub (S754_zero false) (S754_zero false))
                   (S754_zero false) (S754_zero false))) as Hc
    by (vm_compute; reflexivity).
  assert (present (z_position <$> df_rows table_3_4) ≠ []) as Hne
    by (vm_compute; discriminate).
  split; [exact Hc|]. split; [exact Hne|].
  exact (proj2 (proj2 (proj2 (proj2
           (z_range_is_read_from_data None table_3_4 _ Hc Hne))))).
Defined.

Lemma for_each_app {A} (l1 l2 : list A) (body : A → M unit) w :
  for_each (l1 ++ l2) body w
  = match for_each l1 body w with
    | (inl e, w') => (inl e, w')
    | (inr _, w') => for_each l2 body w'
    end.
Proof.
  revert w. induction l1 as [|x l1 IH]; intros w; [done|].
  rewrite <- app_comm_cons, !for_each_cons.
  destruct (body x w) as [[e|[]] w1]; [done|]. apply IH.
Qed.

Lemma enumerate_lookup {A} (l : list A) k x :
  l !! k = Some x → enumerate l !! k = Some (k, x).
Proof.
  intros Hk. unfold enumerate. apply lookup_zip_with_Some.
  exists k, x. split; [done|]. split; [|done].
  apply lookup_seq. split; [done|]. by apply lookup_lt_Some in Hk.
Qed.

Section RenderFailure.
Context `{Backend}.
Variable script : Script.

(** The loop over the frames when the one after [items1] cannot be
    rendered. *)
Lemma frame_items_fail temp_dir num_frames (figure : Z → exn + Figure)
    (render : Z → string → M unit) items1 k t items2 e w :
  (∀ t path w, render t path w
               = (mlet fig := lift (figure t) in fig_write_image fig path) w) →
  (∀ it, it ∈ items1 →
     ∃ fig image, figure it.2 = inr fig ∧ write_image fig = inr image) →
  (figure t = inl e ∨ ∃ fig, figure t = inr fig ∧ write_image fig = inl e) →
  ∃ w' evs,
    for_each (items1 ++ (k, t) :: items2) (λ it,
      let '(idx, timestep) := it in
      let frame_path := path_join temp_dir (frame_name idx) in
      for_each (frame_progress script idx num_frames timestep) logging_info ;;
      render timestep frame_path) w = (inl e, w')
    ∧ trace w' = trace w ++ evs
    ∧ Forall2 (λ it im, im.1 = path_join temp_dir (frame_name it.1)
                        ∧ figure it.2 = inr im.2)
        items1 (take (length items1) (images evs)).
Proof.
  intros Hrender Hbefore Hfail. rewrite for_each_app.
  destruct (frame_items_images script temp_dir num_frames figure render
              Hrender items1 w Hbefore) as (w1 & evs1 & Hrun & Ht1 & Himgs).
  rewrite Hrun. rewrite for_each_cons. cbv beta iota zeta.
  rewrite bind_run.
  destruct (for_each_logging_info
              (frame_progress script k num_frames t) w1) as (w2 & -> & Ht2).
  rewrite Hrender, bind_run. unfold lift.
  pose proof (Forall2_length _ _ _ Himgs) as Hlen.
  destruct Hfail as [Hf|(fig & Hf & Hw)]; rewrite Hf.
  - eexists _, _. split; [reflexivity|]. split.
    + by rewrite Ht2, Ht1, <- app_assoc.
    + rewrite images_app, images_logs, app_nil_r.
      rewrite take_ge by lia. done.
  - unfold fig_write_image. rewrite Hw.
    eexists _, (evs1 ++ (Log INFO <$> frame_progress script k num_frames t)
                ++ [WriteImage (path_join temp_dir (frame_name k)) fig]).
    split; [reflexivity|]. split.
    + simpl. by rewrite Ht2, Ht1, <- !app_assoc.
    + rewrite !images_app, images_logs. simpl.
      rewrite take_app_length' by done. done.
Qed.

(** The frame loop when frame [k] is the first that cannot be rendered. *)
Lemma frame_loop_fails temp_dir (figure : Z → exn + Figure)
    (render : Z → string → M unit) ts k t e w :
  (∀ t path w, render t path w
               = (mlet fig := lift (figure t) in fig_write_image fig path) w) →
  ts !! k = Some t →
  (∀ j t', j < k → ts !! j = Some t' →
     ∃ fig image, figure t' = inr fig ∧ write_image fig = inr image) →
  (figure t = inl e ∨ ∃ fig, figure t = inr fig ∧ write_image fig = inl e) →
  ∃ w' evs,
    frame_loop script temp_dir ts render w = (inl e, w')
    ∧ trace w' = trace w ++ evs
    ∧ Forall2 (λ it im, im.1 = path_join temp_dir (frame_name it.1)
                        ∧ figure it.2 = inr im.2)
        (take k (enumerate ts)) (take k (images evs)).
Proof.
  intros Hrender Hk Hbefore Hfail.
  pose proof (enumerate_lookup ts k t Hk) as Hit.
  pose proof (frame_items_fail temp_dir (length ts) figure render
                (take k (enumerate ts)) k t (drop (S k) (enumerate ts)) e w
                Hrender) as Hrun.
  rewrite (take_drop_middle _ _ _ Hit) in Hrun.
  assert (length (take k (enumerate ts)) = k) as Hlen.
  { rewrite length_take. unfold enumerate.
    rewrite length_zip_with, length_seq. apply lookup_lt_Some in Hk. lia. }
  rewrite Hlen in Hrun. apply Hrun; [|done].
  intros [j t'] Hj. simpl.
  apply list_elem_of_lookup in Hj as [i Hi].
  apply lookup_take_Some in Hi as [Hi Hik].
  unfold enumerate in Hi. apply lookup_zip_with_Some in Hi
    as (? & ? & [= <- <-] & Hs & Hi).
  apply lookup_seq in Hs as [-> _]. by apply (Hbefore i).
Qed.

(** X14: when frame [k] is the first that cannot be rendered, because
    its figure cannot be built or because the image export raises,
    [generate_standard_mp4] raises that very exception: the frames
    before [k] have been written, the encoder is not started and the
    frame directory is left in place. *)
Theorem render_failure_stops_video df c w ts k t e :
  timesteps_of df = inr ts →
  files w !! path_join (TEMP_FRAMES_DIR script) "standard" = None →
  ts !! k = Some t →
  (∀ j t', j < k → ts !! j = Some t' →
     ∃ fig image, standard_figure df t' c = inr fig ∧ write_image fig = inr image) →
  (standard_figure df t c = inl e
   ∨ ∃ fig, standard_figure df t c = inr fig ∧ write_image fig = inl e) →
  ∃ w' evs,
    generate_standard_mp4 script df c w = (inl e, w')
    ∧ trace w' = trace w ++ evs
    ∧ runs evs = [] ∧ removed evs = []
    ∧ path_join (TEMP_FRAMES_DIR script) "standard" ∈ dirs w'
    ∧ Forall2 (λ it im,
                 im.1 = path_join (path_join (TEMP_FRAMES_DIR script) "standard")
                          (frame_name it.1)
                 ∧ standard_figure df it.2 c = inr im.2)
        (take k (enumerate ts)) (take k (images evs)).
Proof.
  intros Hts Hdir Hk Hbefore Hfail.
  set (temp_dir := path_join (TEMP_FRAMES_DIR script) "standard") in *.
  unfold generate_standard_mp4. rewrite bind_run. unfold lift. rewrite Hts.
  run_log. rewrite bind_run. fold temp_dir.
  unfold mkdir_parents. cbn [files add_event]. rewrite Hdir.
  rewrite bool_decide_eq_false_2 by (by intros [? ?]).
  rewrite bind_run.
  set (w1 := add_event (Mkdir _) _).
  set (render := λ timestep frame_path,
         render_standard_frame df timestep c frame_path).
  destruct (frame_loop_fails temp_dir (λ t, standard_figure df t c) render
              ts k t e w1 ltac:(done) Hk Hbefore Hfail)
    as (w2 & evs & Hloop & Ht2 & Himgs).
  pose proof (frame_loop_preserves script (emits_only rendering_event)
                (λ l m, emits_emit _ _ I) temp_dir ts render) as Hev.
  pose proof (frame_loop_preserves script same_dirs (λ l m w0, eq_refl)
                temp_dir ts render) as Hd.
  specialize (Hev ltac:(intros; apply render_standard_frame_preserves;
                          [apply _|]; intros; by apply emits_fig_write_image) w1).
  specialize (Hd ltac:(intros; apply render_standard_frame_preserves;
                         [apply _|]; intros; apply same_dirs_fig_write_image) w1).
  rewrite Hloop in Hev, Hd |- *. simpl in Hev, Hd.
  destruct Hev as (evs' & Ht2' & HP).
  assert (evs' = evs) as -> by (rewrite Ht2 in Ht2'; by apply app_inv_head in Ht2').
  destruct (rendering_no_runs _ HP) as [Hr Hrm].
  eexists w2, (_ :: _ :: evs). split; [reflexivity|]. split.
  { rewrite Ht2. unfold w1. simpl. by rewrite <- !app_assoc. }
  split; [done|]. split; [done|]. split.
  { unfold same_dirs in Hd. rewrite Hd. unfold w1. simpl.
    apply elem_of_union. left. apply elem_of_union. right.
    by apply elem_of_singleton. }
  done.
Qed.

End RenderFailure.

Lemma render_failure_stops_video_witness :
  timesteps_of sample_table = inr [3; 5]%Z
  ∧ ∃ w' evs,
      @generate_standard_mp4 failing_export_backend generate_mp4_py sample_table
        sample_cylinder (world_with sample_trajectory)
      = (inl (BackendError "image export failed"), w')
      ∧ trace w' = trace (world_with sample_trajectory) ++ evs
      ∧ runs evs = [] ∧ removed evs = []
      ∧ path_join (TEMP_FRAMES_DIR generate_mp4_py) "standard" ∈ dirs w'
      ∧ Forall2 (λ it im,
                   im.1 = path_join
                            (path_join (TEMP_FRAMES_DIR generate_mp4_py) "standard")
                            (frame_name it.1)
                   ∧ standard_figure sample_table it.2 sample_cylinder
                     = inr im.2)
          (take 0 (enumerate [3; 5]%Z)) (take 0 (images evs)).
Proof.
  assert (timesteps_of sample_table = inr [3; 5]%Z) as H1
    by (vm_compute; reflexivity).
  split; [exact H1|].
  apply (@render_failure_stops_video failing_export_backend generate_mp4_py
           sample_table sample_cylinder (world_with sample_trajectory)
           [3; 5]%Z 0 3%Z (BackendError "image export failed") H1).
  - vm_compute; reflexivity.
  - reflexivity.
  - intros j t' Hj. lia.
  - right. eexists. split; [vm_compute; reflexivity|reflexivity].
Defined.

(** ** The animated figure of [generate_video.py] *)

Lemma animation_frames_inv frame items fs :
  animation_frames frame items = inr fs →
  Forall2 (λ it f, frame it.1 it.2 = inr f) items fs.
Proof.
  revert fs. induction items as [|[idx t] items IH]; intros fs; simpl.
  - intros [= <-]. constructor.
  - destruct (frame idx t) as [e|f] eqn:Hf; [done|]. cbn [ebind].
    destruct (animation_frames frame items) as [e|fs']; [done|]. cbn [ebind].
    intros [= <-]. constructor; [done|by apply IH].
Qed.

Lemma slider_steps_inv timesteps indices steps :
  slider_steps timesteps indices = inr steps →
  Forall2 (λ i s, ∃ t, timesteps !! i = Some t
                    ∧ s = mkSliderStep ("frame" +:+ pretty i) (pretty t))
    indices steps.
Proof.
  revert steps. induction indices as [|i indices IH]; intros steps; simpl.
  - intros [= <-]. constructor.
  - unfold list_index. destruct (timesteps !! i) as [t|] eqn:Ht; [|done].
    cbn [ebind].
    destruct (slider_steps timesteps indices) as [e|steps']; [done|].
    cbn [ebind]. intros [= <-]. constructor; [eauto|by apply IH].
Qed.

Lemma standard_animation_frame_inv df idx t f :
  standard_animation_frame df idx t = inr f →
  f = mkAnimationFrame ("frame" +:+ pretty idx)
        (x_position <$> filter (λ r, time r = t) (df_rows df))
        (y_position <$> filter (λ r, time r = t) (df_rows df))
        (z_position <$> filter (λ r, time r = t) (df_rows df))
        ColorByHeight
        (Particles <$> filter (λ r, time r = t) (df_rows df)).
Proof.
  unfold standard_animation_frame, df_get. cbn [df_columns df_rows].
  repeat (destruct (bool_decide _); cbn [ebind]; [|done]).
  by intros [= <-].
Qed.

(** X16: on a table that has its columns but no row,
    [create_standard_visualization] of [generate_video.py] raises
    [IndexError] at [timesteps[0]], after it has logged that there are 0
    frames. *)
Theorem no_rows_break_animation df c w :
  "time" ∈ df_columns df → df_rows df = [] →
  create_standard_visualization df c w
  = (inl (IndexError 0 0),
     add_event (Log INFO [Txt "Creating standard visualization (";
                          Txt "0"; Txt " frames)..."]) w).
Proof.
  intros Ht Hr. unfold create_standard_visualization.
  rewrite bind_run. unfold lift.
  assert (timesteps_of df = inr []) as ->.
  { unfold timesteps_of. by rewrite (df_get_present df _ time Ht), Hr. }
  run_log. rewrite bind_run. cbn [enumerate length seq zip zip_with animation_frames].
  rewrite bind_run, (df_get_present df _ time Ht). rewrite bind_run. done.
Qed.

(** X17: when [create_standard_visualization] returns, the table has at
    least one timestep, and the figure has one frame and one slider step
    per distinct timestep, in ascending order: at position [i] the frame
    is named [frame{i}] and shows the rows of the timestep at that
    position, and the step at [i] shows that frame and is labelled with
    that timestep.  Before any frame is played the figure shows the
    data of the first frame. *)
Theorem slider_steps_match_frames df c w a w' :
  create_standard_visualization df c w = (inr a, w') →
  ∃ ts, timesteps_of df = inr ts ∧ ts ≠ []
    ∧ length (anim_frames a) = length ts
    ∧ length (anim_steps a) = length ts
    ∧ (∀ i t, ts !! i = Some t →
         ∃ f s, anim_frames a !! i = Some f ∧ anim_steps a !! i = Some s
           ∧ frame_label f = "frame" +:+ pretty i
           ∧ step_frame s = frame_label f
           ∧ step_label s = pretty t
           ∧ frame_x f = x_position <$> filter (λ r, time r = t) (df_rows df)
           ∧ frame_y f = y_position <$> filter (λ r, time r = t) (df_rows df)
           ∧ frame_z f = z_position <$> filter (λ r, time r = t) (df_rows df)
           ∧ frame_customdata f
             = Particles <$> filter (λ r, time r = t) (df_rows df))
    ∧ ∃ f0, anim_frames a !! 0 = Some f0
        ∧ anim_x a = frame_x f0 ∧ anim_y a = frame_y f0
        ∧ anim_z a = frame_z f0 ∧ anim_customdata a = frame_customdata f0.
Proof.
  unfold create_standard_visualization. rewrite bind_run. unfold lift.
  destruct (timesteps_of df) as [e|ts] eqn:Hts; [done|].
  run_log. rewrite bind_run.
  destruct (animation_frames _ _) as [e|frames] eqn:Hframes; [done|].
  rewrite bind_run. destruct (df_get df "time" time) as [e|times]; [done|].
  rewrite bind_run. unfold list_index.
  destruct (ts !! 0) as [t0|] eqn:Ht0; [|done].
  rewrite bind_run.
  destruct (df_get _ "x-position" x_position) as [e|x] eqn:Hx; [done|].
  rewrite bind_run.
  destruct (df_get _ "y-position" y_position) as [e|y] eqn:Hy; [done|].
  rewrite bind_run.
  destruct (df_get _ "z-position" z_position) as [e|z] eqn:Hz; [done|].
  rewrite bind_run.
  destruct (df_get _ "Particles" Particles) as [e|p] eqn:Hp; [done|].
  rewrite bind_run.
  destruct (slider_steps ts _) as [e|steps] eqn:Hsteps; [done|].
  intros [= <- <-]. cbn [anim_frames anim_steps anim_x anim_y anim_z
                           anim_customdata].
  apply animation_frames_inv in Hframes. apply slider_steps_inv in Hsteps.
  pose proof (Forall2_length _ _ _ Hframes) as Hlf.
  pose proof (Forall2_length _ _ _ Hsteps) as Hls.
  unfold enumerate in Hlf. rewrite length_zip_with, length_seq in Hlf.
  rewrite length_seq in Hls.
  assert (∀ i t, ts !! i = Some t →
            ∃ f, frames !! i = Some f
              ∧ f = mkAnimationFrame ("frame" +:+ pretty i)
                      (x_position <$> filter (λ r, time r = t) (df_rows df))
                      (y_position <$> filter (λ r, time r = t) (df_rows df))
                      (z_position <$> filter (λ r, time r = t) (df_rows df))
                      ColorByHeight
                      (Particles <$> filter (λ r, time r = t) (df_rows df)))
    as Hframe.
  { intros i t Hi. pose proof (enumerate_lookup ts i t Hi) as Hit.
    destruct (Forall2_lookup_l _ _ _ _ _ Hframes Hit) as (f & Hf & Hfi).
    exists f. split; [done|]. by apply standard_animation_frame_inv in Hfi. }
  exists ts. split; [done|]. split; [by intros ->|].
  split; [lia|]. split; [lia|]. split.
  - intros i t Hi. destruct (Hframe i t Hi) as (f & Hf & ->).
    assert (seq 0 (length ts) !! i = Some i) as Hsi.
    { apply lookup_seq. split; [done|]. by apply lookup_lt_Some in Hi. }
    destruct (Forall2_lookup_l _ _ _ _ _ Hsteps Hsi) as (s & Hs & t' & Ht' & ->).
    rewrite Hi in Ht'. injection Ht' as <-.
    eexists _, _. split; [done|]. split; [done|]. done.
  - destruct (Hframe 0 t0 Ht0) as (f0 & Hf0 & ->). eexists. split; [done|].
    unfold df_get in Hx, Hy, Hz, Hp. cbn [df_columns df_rows] in Hx, Hy, Hz, Hp.
    repeat case_bool_decide; try done.
    injection Hx as <-. injection Hy as <-. injection Hz as <-.
    injection Hp as <-. done.
Qed.

Lemma no_rows_break_animation_witness :
  "time" ∈ df_columns header_only_table
  ∧ df_rows header_only_table = []
  ∧ (@create_standard_visualization header_only_table sample_cylinder
       empty_machine).1 = inl (IndexError 0 0).
Proof.
  assert ("time" ∈ df_columns header_only_table) as H1
    by (apply (bool_decide_unpack _); reflexivity).
  split; [exact H1|]. split; [reflexivity|].
  rewrite (no_rows_break_animation header_only_table sample_cylinder
             empty_machine H1 eq_refl).
  reflexivity.
Defined.

Lemma slider_steps_match_frames_witness :
  (create_standard_visualization sample_table sample_cylinder
     (world_with sample_trajectory)).1
  = inr (mkAnimation
           "Active Brownian Particles - Standard View<br><sub>3 particles</sub>"
           (Wall sample_cylinder) (height_min sample_cylinder)
           (height_max sample_cylinder)
           (replicate 3 (S754_zero false)) (replicate 3 (S754_zero false))
           (replicate 3 (S754_zero false)) ColorByHeight [0; 1; 2]%Z
           [mkAnimationFrame "frame0" (replicate 3 (S754_zero false))
              (replicate 3 (S754_zero false)) (replicate 3 (S754_zero false))
              ColorByHeight [0; 1; 2]%Z;
            mkAnimationFrame "frame1" (replicate 3 (S754_zero false))
              (replicate 3 (S754_zero false)) (replicate 3 (S754_zero false))
              ColorByHeight [0; 1; 2]%Z]
           [mkSliderStep "frame0" "3"; mkSliderStep "frame1" "5"])
  ∧ ∃ ts, timesteps_of sample_table = inr ts ∧ ts ≠ [] ∧ length ts = 2.
Proof.
  assert ((create_standard_visualization sample_table sample_cylinder
             (world_with sample_trajectory)).1
          = inr (mkAnimation
           "Active Brownian Particles - Standard View<br><sub>3 particles</sub>"
           (Wall sample_cylinder) (height_min sample_cylinder)
           (height_max sample_cylinder)
           (replicate 3 (S754_zero false)) (replicate 3 (S754_zero false))
           (replicate 3 (S754_zero false)) ColorByHeight [0; 1; 2]%Z
           [mkAnimationFrame "frame0" (replicate 3 (S754_zero false))
              (replicate 3 (S754_zero false)) (replicate 3 (S754_zero false))
              ColorByHeight [0; 1; 2]%Z;
            mkAnimationFrame "frame1" (replicate 3 (S754_zero false))
              (replicate 3 (S754_zero false)) (replicate 3 (S754_zero false))
              ColorByHeight [0; 1; 2]%Z]
           [mkSliderStep "frame0" "3"; mkSliderStep "frame1" "5"])) as Hrun
    by (vm_compute; reflexivity).
  split; [exact Hrun|].
  destruct (slider_steps_match_frames sample_table sample_cylinder
              (world_with sample_trajectory) _
              (create_standard_visualization sample_table sample_cylinder
                 (world_with sample_trajectory)).2
              ltac:(rewrite <- Hrun; apply surjective_pairing))
    as (ts & Hts & Hne & _ & Hlen & _).
  exists ts. split; [exact Hts|]. split; [exact Hne|]. by rewrite <- Hlen.
Defined.

(** ** The benchmark summary *)

Lemma fleb_of_not_fltb a b :
  not_nan a → not_nan b → fltb a b = false → fleb b a = true.
Proof.
  intros Ha Hb Hlt. apply fleb_key; [done|done|].
  destruct (key_le_dec (fkey b) (fkey a)) as [|Hn]; [done|].
  apply (fltb_key a b Ha Hb) in Hn. congruence.
Qed.

Lemma fleb_of_fltb a b :
  not_nan a → not_nan b → fltb a b = true → fleb a b = true.
Proof.
  intros Ha Hb Hlt. apply fleb_key; [done|done|].
  apply (fltb_key a b Ha Hb) in Hlt.
  destruct (key_le_total (fkey a) (fkey b)); done.
Qed.

(** X18: the configuration that [print_summary] recommends for a row
    whose three times are numbers is one whose time no other
    configuration undercuts; between equal times it prefers the single
    CPU to OpenMP and OpenMP to the GPU, which is recommended only when
    it is strictly faster than both others. *)
Theorem recommended_config_is_fastest row :
  not_nan (Single_CPU_Time row) → not_nan (OpenMP_6_Time row) →
  not_nan (GPU_Time row) →
  (recommended_config row = "GPU Metal"
   ∧ fltb (GPU_Time row) (OpenMP_6_Time row) = true
   ∧ fltb (GPU_Time row) (Single_CPU_Time row) = true)
  ∨ (recommended_config row = "OpenMP (6 threads)"
     ∧ fltb (OpenMP_6_Time row) (Single_CPU_Time row) = true
     ∧ fleb (OpenMP_6_Time row) (GPU_Time row) = true)
  ∨ (recommended_config row = "Single CPU"
     ∧ fleb (Single_CPU_Time row) (OpenMP_6_Time row) = true
     ∧ fleb (Single_CPU_Time row) (GPU_Time row) = true).
Proof.
  intros Hs Ho Hg. unfold recommended_config.
  destruct (fltb (GPU_Time row) (OpenMP_6_Time row)) eqn:Hgo;
    destruct (fltb (GPU_Time row) (Single_CPU_Time row)) eqn:Hgs;
    cbn [andb]; [by left|..];
    destruct (fltb (OpenMP_6_Time row) (Single_CPU_Time row)) eqn:Hos.
  - right; left. split; [done|]. split; [done|].
    apply (fleb_trans _ (Single_CPU_Time row)); [done..| |].
    + by apply fleb_of_fltb.
    + by apply fleb_of_not_fltb.
  - right; right. split; [done|].
    split; [by apply fleb_of_not_fltb|by apply fleb_of_not_fltb].
  - right; left. split; [done|]. split; [done|]. by apply fleb_of_not_fltb.
  - right; right. split; [done|]. split; [by apply fleb_of_not_fltb|].
    apply (fleb_trans _ (OpenMP_6_Time row)); [done..| |].
    + by apply fleb_of_not_fltb.
    + by apply fleb_of_not_fltb.
  - right; left. split; [done|]. split; [done|]. by apply fleb_of_not_fltb.
  - right; right. split; [done|].
    split; [by apply fleb_of_not_fltb|by apply fleb_of_not_fltb].
Qed.

Lemma recommended_config_is_fastest_witness :
  Forall (λ row, not_nan (Single_CPU_Time row) ∧ not_nan (OpenMP_6_Time row)
                 ∧ not_nan (GPU_Time row)) sample_benchmark
  ∧ recommended_config <$> sample_benchmark
    = ["Single CPU"; "OpenMP (6 threads)"; "GPU Metal"; "GPU Metal"]
  ∧ ∀ row, row ∈ sample_benchmark →
      (recommended_config row = "GPU Metal"
       ∧ fltb (GPU_Time row) (OpenMP_6_Time row) = true
       ∧ fltb (GPU_Time row) (Single_CPU_Time row) = true)
      ∨ (recommended_config row = "OpenMP (6 threads)"
         ∧ fltb (OpenMP_6_Time row) (Single_CPU_Time row) = true
         ∧ fleb (OpenMP_6_Time row) (GPU_Time row) = true)
      ∨ (recommended_config row = "Single CPU"
         ∧ fleb (Single_CPU_Time row) (OpenMP_6_Time row) = true
         ∧ fleb (Single_CPU_Time row) (GPU_Time row) = true).
Proof.
  assert (Forall (λ row, not_nan (Single_CPU_Time row)
                         ∧ not_nan (OpenMP_6_Time row)
                         ∧ not_nan (GPU_Time row)) sample_benchmark) as Hnn
    by (repeat constructor).
  split; [exact Hnn|]. split; [vm_compute; reflexivity|].
  intros row Hrow.
  destruct (proj1 (Forall_forall _ _) Hnn row Hrow) as (Hs & Ho & Hg).
  exact (recommended_config_is_fastest row Hs Ho Hg).
Defined.

Lemma argmax_from_spec s : ∀ best_idx best idx (seen : list Z),
  length seen = idx → seen !! best_idx = Some best →
  (∀ v, v ∈ seen → (v ≤ best)%Z) →
  (∀ j v, j < best_idx → seen !! j = Some v → (v < best)%Z) →
  ∃ m, (seen ++ s) !! argmax_from best_idx best idx s = Some m
    ∧ (∀ v, v ∈ seen ++ s → (v ≤ m)%Z)
    ∧ ∀ j v, j < argmax_from best_idx best idx s →
        (seen ++ s) !! j = Some v → (v < m)%Z.
Proof.
  induction s as [|v s IH]; intros best_idx best idx seen Hlen Hbest Hmax Hfirst.
  - rewrite app_nil_r. simpl. eauto.
  - cbn [argmax_from].
    replace (seen ++ v :: s) with ((seen ++ [v]) ++ s)
      by (by rewrite <- app_assoc).
    destruct (Z.ltb_spec best v) as [Hlt|Hge].
    + apply IH.
      * rewrite length_app. simpl. lia.
      * rewrite lookup_app_r by lia. by rewrite Hlen, Nat.sub_diag.
      * intros u [Hu|Hu%list_elem_of_singleton]%elem_of_app; [|lia].
        apply Hmax in Hu. lia.
      * intros j u Hj Hu. rewrite lookup_app_l in Hu by lia.
        assert (u ∈ seen) as Hin by (by eapply list_elem_of_lookup_2).
        apply Hmax in Hin. lia.
    + apply IH.
      * rewrite length_app. simpl. lia.
      * rewrite lookup_app_l by (by apply lookup_lt_Some in Hbest). done.
      * intros u [Hu|Hu%list_elem_of_singleton]%elem_of_app; [by apply Hmax|lia].
      * intros j u Hj Hu. apply (Hfirst j); [done|].
        apply lookup_lt_Some in Hbest.
        by rewrite lookup_app_l in Hu by lia.
Qed.

(** X19: the summary of [print_summary] reports the first row, in file
    order, among those with the largest particle count; a table without
    rows makes it raise [ValueError], and the positional lookup that
    follows [idxmax] never fails. *)
Theorem summary_reports_first_largest rows :
  match summary_row rows with
  | inr r =>
      ∃ i, rows !! i = Some r
        ∧ (∀ r', r' ∈ rows → (bench_Particles r' ≤ bench_Particles r)%Z)
        ∧ ∀ j r', j < i → rows !! j = Some r' →
            (bench_Particles r' < bench_Particles r)%Z
  | inl e =>
      rows = [] ∧ e = ValueError "attempt to get argmax of an empty sequence"
  end.
Proof.
  unfold summary_row, idxmax. destruct rows as [|r0 rows]; [done|].
  rewrite fmap_cons. cbn [ebind].
  destruct (argmax_from_spec (bench_Particles <$> rows) 0 (bench_Particles r0)
              1 [bench_Particles r0]) as (m & Hm & Hmax & Hfirst).
  - done.
  - done.
  - by intros v ->%list_elem_of_singleton.
  - intros j v Hj. lia.
  - change ([bench_Particles r0] ++ (bench_Particles <$> rows))
      with (bench_Particles <$> r0 :: rows) in *.
    set (i := argmax_from 0 (bench_Particles r0) 1 (bench_Particles <$> rows)) in *.
    rewrite list_lookup_fmap in Hm. unfold iloc.
    destruct ((r0 :: rows) !! i) as [r|] eqn:Hr; [|done].
    injection Hm as <-. exists i. split; [done|]. split.
    + intros r' Hr'. apply Hmax. apply list_elem_of_fmap. eauto.
    + intros j r' Hj Hr'. apply (Hfirst j); [done|].
      by rewrite list_lookup_fmap, Hr'.
Qed.

(** ** A run that succeeds *)

#[local] Instance same_ffmpeg_preorder : PreOrder same_ffmpeg.
Proof.
  split; [done|]. intros w1 w2 w3 H1 H2. unfold same_ffmpeg in *. congruence.
Qed.

#[local] Instance no_file_at_preorder path : PreOrder (no_file_at path).
Proof.
  split; [by intros w ?|]. intros w1 w2 w3 H1 H2 Hn. by apply H2, H1.
Qed.

Lemma list_ascii_of_string_app (s1 s2 : string) :
  String.list_ascii_of_string (s1 +:+ s2)
  = String.list_ascii_of_string s1 ++ String.list_ascii_of_string s2.
Proof.
  induction s1 as [|a s1 IH]; [done|].
  change (String a s1 +:+ s2) with (String a (s1 +:+ s2)).
  simpl. by rewrite IH.
Qed.

(** A video is never one of the frame directories, and neither is a
    frame. *)
Lemma video_is_not_frame_dir (out temp name : string) :
  name = "particles_standard.mp4" ∨ name = "particles_tracked.mp4" →
  path_join out name ≠ path_join temp "tracking"
  ∧ path_join out name ≠ path_join temp "standard".
Proof.
  intros Hname.
  assert (∃ stem, name = stem +:+ "4") as [stem ->]
    by (destruct Hname as [-> | ->];
        [by exists "particles_standard.mp"|by exists "particles_tracked.mp"]).
  unfold path_join.
  split; intros Heq; apply (f_equal String.list_ascii_of_string) in Heq;
    rewrite !list_ascii_of_string_app in Heq.
  - change (String.list_ascii_of_string "tracking")
      with (String.list_ascii_of_string "trackin" ++ ["g"%char]) in Heq.
    change (String.list_ascii_of_string "4") with ["4"%char] in Heq.
    rewrite !app_assoc in Heq. by apply app_inj_tail in Heq as [_ ?].
  - change (String.list_ascii_of_string "standard")
      with (String.list_ascii_of_string "standar" ++ ["d"%char]) in Heq.
    change (String.list_ascii_of_string "4") with ["4"%char] in Heq.
    rewrite !app_assoc in Heq. by apply app_inj_tail in Heq as [_ ?].
Qed.

Lemma frame_is_not_frame_dir (temp : string) dir idx other :
  dir = path_join temp "standard" ∨ dir = path_join temp "tracking" →
  other = path_join temp "standard" ∨ other = path_join temp "tracking" →
  path_join dir (frame_name idx) ≠ other.
Proof.
  intros Hdir Hother Heq. apply (f_equal String.length) in Heq.
  unfold path_join in Heq.
  destruct Hdir as [-> | ->], Hother as [-> | ->]; unfold path_join in Heq;
    rewrite !string_length_app in Heq; simpl in Heq; lia.
Qed.

Section Success.
Context `{Backend}.
Variable script : Script.

Lemma same_ffmpeg_trivial {A} (m : M A) :
  (∀ w, ffmpeg_on_path (m w).2 = ffmpeg_on_path w) → preserves same_ffmpeg m.
Proof. intros Hm w. apply Hm. Qed.

Lemma same_ffmpeg_main_phase :
  (∀ level msg, preserves same_ffmpeg (emit (Log level msg)))
  ∧ (∀ path, preserves same_ffmpeg (open_read path))
  ∧ (∀ r w, same_ffmpeg w (set_rng r w))
  ∧ (∀ path, preserves same_ffmpeg (mkdir_parents path))
  ∧ (∀ fig path, preserves same_ffmpeg (fig_write_image fig path))
  ∧ (∀ cmd out, preserves same_ffmpeg (subprocess_run cmd out))
  ∧ (∀ dir, preserves same_ffmpeg (rmtree dir)).
Proof.
  repeat split.
  - intros path w. unfold open_read. by destruct (files w !! path).
  - intros path w. unfold mkdir_parents. by destruct (bool_decide _).
  - intros fig path w. unfold fig_write_image. by destruct (write_image fig).
  - intros cmd out w. unfold subprocess_run, same_ffmpeg. simpl.
    destruct (ffmpeg_on_path w) eqn:Hf; [|done].
    destruct (written _); by destruct (returncode _ =? 0)%Z.
  - intros dir w. unfold rmtree. by destruct (bool_decide _).
Qed.

Lemma no_file_at_same path w w' :
  files w' = files w → no_file_at path w w'.
Proof. intros Hf Hn. by rewrite Hf. Qed.

Lemma no_file_at_main_phase path :
  (∀ level msg, preserves (no_file_at path) (emit (Log level msg)))
  ∧ (∀ p, preserves (no_file_at path) (open_read p))
  ∧ (∀ r w, no_file_at path w (set_rng r w))
  ∧ (∀ p, preserves (no_file_at path) (mkdir_parents p))
  ∧ (∀ fig p, p ≠ path → preserves (no_file_at path) (fig_write_image fig p))
  ∧ (∀ cmd out, out ≠ path → preserves (no_file_at path) (subprocess_run cmd out))
  ∧ (∀ dir, preserves (no_file_at path) (rmtree dir)).
Proof.
  repeat split.
  - intros level msg w. by apply no_file_at_same.
  - intros p w. apply no_file_at_same. unfold open_read.
    by destruct (files w !! p).
  - intros r w. by apply no_file_at_same.
  - intros p w. apply no_file_at_same. unfold mkdir_parents.
    by destruct (bool_decide _).
  - intros fig p Hp w Hn. unfold fig_write_image.
    destruct (write_image fig); [done|]. simpl.
    by rewrite lookup_insert_ne.
  - intros cmd out Hp w Hn. unfold subprocess_run. simpl.
    destruct (ffmpeg_on_path w); [|done].
    assert (files (match written (run_encoder cmd (files w)) with
                   | Some video =>
                       set_files (<[out := video]> (files w))
                         (add_event (RunProcess cmd) w)
                   | None => add_event (RunProcess cmd) w
                   end) !! path = None) as Hw.
    { destruct (written _); [|done]. simpl. by rewrite lookup_insert_ne. }
    by destruct (returncode _ =? 0)%Z.
  - intros dir w Hn. unfold rmtree. destruct (bool_decide _); [|done]. simpl.
    apply map_lookup_filter_None. by left.
Qed.

Hypothesis write_image_ok : ∀ fig, ∃ image, write_image fig = inr image.
Hypothesis encoder_ok : ∀ cmd fs, returncode (run_encoder cmd fs) = 0%Z.

Lemma create_mp4_succeeds temp_dir output_mp4 w :
  ffmpeg_on_path w = true → temp_dir ∈ dirs w →
  ∃ w', create_mp4 script temp_dir output_mp4 w = (inr tt, w').
Proof using encoder_ok.
  intros Hf Hdir.
  unfold create_mp4, bind, logging_info, emit, modify, subprocess_run, rmtree.
  simpl. rewrite Hf. simpl. rewrite encoder_ok. simpl.
  destruct (written _); simpl; rewrite bool_decide_eq_true_2 by done; eauto.
Qed.

Lemma standard_figure_ok df t c :
  "time" ∈ df_columns df → "x-position" ∈ df_columns df →
  "y-position" ∈ df_columns df → "z-position" ∈ df_columns df →
  ∃ fig, standard_figure df t c = inr fig.
Proof.
  intros Ht Hx Hy Hz. unfold standard_figure, df_get. cbn [df_columns df_rows].
  rewrite !bool_decide_eq_true_2 by done. cbn [ebind]. eauto.
Qed.

(** Creating the frame directory, rendering every frame and encoding,
    when every figure can be built. *)
Lemma frames_then_encoder_succeed temp_dir output_mp4 ts
    (figure : Z → exn + Figure) (render : Z → string → M unit) w :
  (∀ t path w, render t path w
               = (mlet fig := lift (figure t) in fig_write_image fig path) w) →
  (∀ t, ∃ fig, figure t = inr fig) →
  ffmpeg_on_path w = true → files w !! temp_dir = None →
  ∃ w', (mkdir_parents temp_dir ;;
         frame_loop script temp_dir ts render ;;
         create_mp4 script temp_dir output_mp4) w = (inr tt, w').
Proof using write_image_ok encoder_ok.
  intros Hrender Hfig Hf Hnone. rewrite bind_run.
  pose proof (mkdir_parents_dir temp_dir w) as Hmk.
  destruct same_ffmpeg_main_phase as (Flog & _ & _ & Fmk & Fwr & _ & _).
  pose proof (Fmk temp_dir w) as Hf1.
  unfold mkdir_parents in *. rewrite Hnone in *.
  rewrite bool_decide_eq_false_2 in * by (by intros [? ?]).
  specialize (Hmk _ eq_refl). unfold same_ffmpeg in Hf1. simpl in Hf1.
  set (w1 := add_event _ _) in *.
  rewrite bind_run.
  destruct (frame_loop_images script temp_dir figure render ts w1 Hrender)
    as (w2 & evs & Hloop & _ & _).
  { intros t _. destruct (Hfig t) as [fig Hfg].
    destruct (write_image_ok fig) as [image Him]. eauto. }
  pose proof (frame_loop_preserves script same_ffmpeg Flog temp_dir ts render)
    as Hf2.
  pose proof (frame_loop_preserves script same_dirs same_dirs_log
                temp_dir ts render) as Hd2.
  specialize (Hf2 ltac:(intros t idx w0; rewrite Hrender;
                          destruct (figure t); [done|apply Fwr]) w1).
  specialize (Hd2 ltac:(intros t idx w0; rewrite Hrender;
                          destruct (figure t);
                          [done|apply same_dirs_fig_write_image]) w1).
  rewrite Hloop in Hf2, Hd2 |- *. simpl in Hf2, Hd2.
  unfold same_ffmpeg in Hf2. unfold same_dirs in Hd2.
  apply create_mp4_succeeds; [rewrite Hf2; exact Hf|by rewrite Hd2].
Qed.

Lemma generate_standard_mp4_succeeds df c w :
  "time" ∈ df_columns df → "x-position" ∈ df_columns df →
  "y-position" ∈ df_columns df → "z-position" ∈ df_columns df →
  ffmpeg_on_path w = true →
  files w !! path_join (TEMP_FRAMES_DIR script) "standard" = None →
  ∃ w', generate_standard_mp4 script df c w = (inr tt, w').
Proof using write_image_ok encoder_ok.
  intros Ht Hx Hy Hz Hf Hnone. unfold generate_standard_mp4.
  rewrite bind_run. unfold lift, timesteps_of.
  rewrite (df_get_present df _ time Ht). cbn [ebind]. run_log.
  apply (frames_then_encoder_succeed _ _ _ (λ t, standard_figure df t c));
    [done| |done|done].
  intros t. by apply standard_figure_ok.
Qed.

Hypothesis rng_permutation_ok : ∀ s n, (rng_permutation s n).1 ≡ₚ seq 0 n.

Lemma generate_tracking_mp4_succeeds df c w p k :
  "time" ∈ df_columns df → "x-position" ∈ df_columns df →
  "y-position" ∈ df_columns df → "z-position" ∈ df_columns df →
  df_get df "Particles" Particles = inr p →
  tracked_count (TRACK_PERCENTAGE script) (length (unique p)) = inr k →
  (k ≤ Z.of_nat (length (unique p)))%Z →
  ffmpeg_on_path w = true →
  files w !! path_join (TEMP_FRAMES_DIR script) "tracking" = None →
  ∃ w', generate_tracking_mp4 script df c w = (inr tt, w').
Proof using All.
  intros Ht Hx Hy Hz Hp Hk Hle Hf Hnone. unfold generate_tracking_mp4.
  rewrite bind_run. unfold lift, timesteps_of.
  rewrite (df_get_present df _ time Ht). cbn [ebind]. rewrite bind_run.
  destruct (select_tracked_ok rng_permutation_ok script df w p k Hp Hk Hle)
    as (tracked & w1 & Hsel & _).
  destruct same_ffmpeg_main_phase as (Flog & _ & Frng & _).
  destruct (no_file_at_main_phase (path_join (TEMP_FRAMES_DIR script) "tracking"))
    as (Nlog & _ & Nrng & _).
  pose proof (select_tracked_preserves script same_ffmpeg Flog Frng df w) as Hf1.
  pose proof (select_tracked_preserves script (no_file_at _) Nlog Nrng df w)
    as Hn1.
  rewrite Hsel in Hf1, Hn1 |- *. simpl in Hf1, Hn1.
  unfold same_ffmpeg in Hf1.
  apply (frames_then_encoder_succeed _ _ _
           (λ t, tracking_figure df t tracked (dict_zip tracked (colors k)) c));
    [done| |congruence|by apply Hn1].
  intros t.
  destruct (tracking_figure_built rng_permutation_ok script df w tracked _ w1 t c
              Hsel Ht Hx Hy Hz) as (fig & cs & Hfig & _).
  eauto.
Qed.

End Success.

#[local] Instance same_machine_preorder : PreOrder same_machine.
Proof.
  split; [done|]. intros w1 w2 w3 (?&?&?&?) (?&?&?&?).
  unfold same_machine. repeat split; congruence.
Qed.

Lemma same_machine_reading `{Backend} :
  (∀ level msg, preserves same_machine (emit (Log level msg)))
  ∧ (∀ path, preserves same_machine (open_read path)).
Proof.
  split; [done|]. intros path w. unfold open_read.
  by destruct (files w !! path).
Qed.

Lemma filter_all {A} (P : A → Prop) `{∀ x, Decision (P x)} (l : list A) :
  (∀ x, x ∈ l → P x) → filter P l = l.
Proof.
  induction l as [|x l IH]; intros Hall; [done|].
  rewrite filter_cons_True by (apply Hall; left).
  rewrite IH; [done|]. intros y Hy. apply Hall. by right.
Qed.

Lemma filter_none {A} (P : A → Prop) `{∀ x, Decision (P x)} (l : list A) :
  (∀ x, x ∈ l → ¬ P x) → filter P l = [].
Proof.
  induction l as [|x l IH]; intros Hall; [done|].
  rewrite filter_cons_False by (apply Hall; left).
  apply IH. intros y Hy. apply Hall. by right.
Qed.

(** The distinct values of a list that starts with all of them. *)
Lemma unique_app_NoDup {A} `{EqDecision A} (l r : list A) :
  NoDup l → (∀ y, y ∈ r → y ∈ l) → unique (l ++ r) = l.
Proof.
  intros Hnd Hsub.
  assert (∀ l', NoDup l' →
            unique (l' ++ r) = l' ++ filter (λ y, y ∉ l') (unique r)) as Hgen.
  { clear Hnd. induction l' as [|x l' IH]; intros Hnd'.
    - simpl. symmetry. apply filter_all. intros y _. apply not_elem_of_nil.
    - apply NoDup_cons in Hnd' as [Hx Hnd'].
      rewrite <- app_comm_cons. cbn [unique]. rewrite IH by done.
      rewrite filter_app, <- app_comm_cons. f_equal. f_equal.
      + apply filter_all. intros y Hy ->. done.
      + rewrite list_filter_filter. apply list_filter_iff.
        intros y. rewrite not_elem_of_cons. tauto. }
  rewrite Hgen by done.
  rewrite filter_none; [apply app_nil_r|].
  intros y Hy Hn. apply (proj1 (elem_of_unique r y)) in Hy.
  exact (Hn (Hsub y Hy)).
Qed.

Lemma Particles_row_at f n i : 
  Particles <$> (row_at f n i <$> seq 0 n) = Z.of_nat <$> seq 0 n.
Proof. rewrite <- list_fmap_compose. by apply list_fmap_ext. Qed.

(** The particle ids of a decoded file with at least one frame:
    0, 1, ..., n - 1. *)
Lemma unique_Particles_rows_by_offset f n k :
  0 < k →
  unique (Particles <$> rows_by_offset f n k) = Z.of_nat <$> seq 0 n.
Proof.
  intros Hk. destruct k as [|k]; [lia|]. unfold rows_by_offset.
  cbn [seq mbind list_bind]. rewrite fmap_app, Particles_row_at.
  apply unique_app_NoDup.
  - apply (NoDup_fmap_2 _), NoDup_seq.
  - intros y (r & -> & Hr)%list_elem_of_fmap.
    apply list_elem_of_bind in Hr as (i & Hr & _).
    apply list_elem_of_fmap in Hr as (p & -> & Hp).
    apply list_elem_of_fmap. by exists p.
Qed.

Section Run.
Context `{Backend}.
Variable script : Script.
Hypothesis rng_permutation_ok : ∀ s n, (rng_permutation s n).1 ≡ₚ seq 0 n.
Hypothesis write_image_ok : ∀ fig, ∃ image, write_image fig = inr image.
Hypothesis encoder_ok : ∀ cmd fs, returncode (run_encoder cmd fs) = 0%Z.

(** X20: a run on a machine with both dependencies and a whole binary
    trajectory of at least one frame and one particle succeeds: provided
    that the image export and the encoder do not fail, that the sample
    size does not exceed the number of particles and that no file lies
    where the frame directories go, [main] returns 0 (whatever the
    parameter file holds), and so does the process. *)
Theorem main_succeeds w f num_particles num_frames rest k :
  kaleido_installed w = true → ffmpeg_on_path w = true →
  files w !! INPUT_FILE script = Some f →
  read_header f = inr (num_particles, num_frames, rest) →
  (0 < num_particles)%Z → (0 < num_frames)%Z → is_truncated f = false →
  tracked_count (TRACK_PERCENTAGE script) (Z.to_nat num_particles) = inr k →
  (k ≤ num_particles)%Z →
  files w !! path_join (TEMP_FRAMES_DIR script) "standard" = None →
  files w !! path_join (TEMP_FRAMES_DIR script) "tracking" = None →
  ∃ w', main script w = (inr 0%Z, w') ∧ (run_script script w).1 = 0%Z.
Proof using All.
  intros Hk Hf Hin Hh Hnp Hnf Ht Hcount Hle Hstd Htrk.
  assert (∃ w', main script w = (inr 0%Z, w')) as [w' Hm].
  2:{ exists w'. split; [done|]. unfold run_script. rewrite Hm. simpl.
      by destruct (exits_with_main script). }
  (* the table *)
  pose proof (read_binary_contents_whole f _ _ _ Hh ltac:(lia) Ht) as Hdf.
  set (rows := rows_by_offset f (Z.to_nat num_particles) (Z.to_nat num_frames))
    in *.
  assert (unique (Particles <$> rows) = Z.of_nat <$> seq 0 (Z.to_nat num_particles))
    as Hids by (apply unique_Particles_rows_by_offset; lia).
  assert (DataFrame_of_dicts rows = mkDataFrame binary_columns rows) as Hcols.
  { assert (length rows ≠ 0) as Hlen.
    { intros Hlen. apply (f_equal length) in Hids.
      rewrite length_fmap, length_seq in Hids.
      destruct rows; [simpl in Hids; lia|done]. }
    by destruct rows. }
  rewrite Hcols in Hdf. set (df := mkDataFrame binary_columns rows) in *.
  assert (∀ name, bool_decide (name ∈ binary_columns) = true →
            name ∈ df_columns df) as Hcol
    by (intros name; apply bool_decide_eq_true_1).
  (* the statements of [main] up to the [try] *)
  destruct same_machine_reading as [Mlog Mopen].
  unfold main. run_log. run_log. rewrite bind_run.
  rewrite check_dependencies_ok by (exact Hk || exact Hf).
  cbn [negb]. run_log. rewrite bind_run.
  match goal with |- context [read_binary_simulation ?p ?w0] =>
    destruct (read_binary_simulation_binary p w0 f Hin) as (w1 & ? & Hr & _);
    pose proof (read_binary_simulation_preserves same_machine Mlog Mopen p w0)
      as Hm1;
    rewrite Hr in Hm1 |- *
  end.
  rewrite Hdf. rewrite bind_run.
  pose proof (read_parameters_preserves same_machine Mlog Mopen
                (PARAMETER_FILE script) w1) as Hm2.
  destruct (read_parameters_returns (PARAMETER_FILE script) w1)
    as (params & w2 & Hpar).
  rewrite Hpar in Hm2 |- *. rewrite bind_run. unfold lift.
  destruct (main_dimensions_binary_columns params rows) as [c Hc].
  fold df in Hc. rewrite Hc. run_log. run_log. run_log.
  simpl in Hm1, Hm2.
  destruct Hm1 as (Hf1 & _ & _ & Hff1). destruct Hm2 as (Hf2 & _ & _ & Hff2).
  simpl in Hf1, Hff1.
  match goal with |- ∃ _, bind _ _ ?w0 = _ => set (w3 := w0) end.
  assert (files w3 = files w) as Hf3 by (unfold w3; simpl; congruence).
  assert (ffmpeg_on_path w3 = true) as Hff3 by (unfold w3; simpl; congruence).
  (* the two videos *)
  rewrite bind_run. unfold try_except, generate_both. rewrite bind_run.
  destruct (generate_standard_mp4_succeeds script write_image_ok encoder_ok df c w3)
    as [w4 Hstd4]; [apply Hcol; reflexivity..|done|by rewrite Hf3|].
  destruct same_ffmpeg_main_phase as (Flog & Fopen & Frng & Fmk & Fwr & Frun & Frm).
  destruct (no_file_at_main_phase (path_join (TEMP_FRAMES_DIR script) "tracking"))
    as (Nlog & Nopen & Nrng & Nmk & Nwr & Nrun & Nrm).
  pose proof (generate_standard_mp4_preserves script same_ffmpeg Flog Fopen Frng
                Fmk (λ fig dir idx _, Fwr fig _) (λ cmd name _, Frun cmd _)
                (λ dir _, Frm dir) df c w3) as Hff4.
  pose proof (generate_standard_mp4_preserves script (no_file_at _) Nlog Nopen
                Nrng Nmk
                (λ fig dir idx Hdir,
                   Nwr fig _ (frame_is_not_frame_dir _ dir idx _ Hdir
                                (or_intror eq_refl)))
                (λ cmd name Hname,
                   Nrun cmd _ (proj1 (video_is_not_frame_dir _ _ name Hname)))
                (λ dir _, Nrm dir) df c w3) as Hn4.
  rewrite Hstd4 in Hff4, Hn4 |- *. simpl in Hff4, Hn4.
  unfold same_ffmpeg in Hff4.
  run_log. rewrite bind_run.
  destruct (generate_tracking_mp4_succeeds script write_image_ok encoder_ok
              rng_permutation_ok df c
              (add_event (Log INFO [Txt ""]) w4) (Particles <$> rows) k)
    as [w5 Htrk5].
  - apply Hcol; reflexivity.
  - apply Hcol; reflexivity.
  - apply Hcol; reflexivity.
  - apply Hcol; reflexivity.
  - apply df_get_present. apply Hcol; reflexivity.
  - by rewrite Hids, length_fmap, length_seq.
  - rewrite Hids, length_fmap, length_seq. lia.
  - simpl. congruence.
  - simpl. apply Hn4. by rewrite Hf3.
  - rewrite Htrk5. cbn [ret]. do 5 run_log. eauto.
Qed.

End Run.

Lemma main_succeeds_witness :
  (∀ s n, (@rng_permutation sample_backend s n).1 ≡ₚ seq 0 n)
  ∧ read_header sample_trajectory = inr (3%Z, 2%Z, drop 8 sample_trajectory)
  ∧ is_truncated sample_trajectory = false
  ∧ tracked_count (TRACK_PERCENTAGE generate_mp4_py) (Z.to_nat 3) = inr 1%Z
  ∧ ∃ w', @main sample_backend generate_mp4_py (world_with sample_trajectory)
          = (inr 0%Z, w')
      ∧ (@run_script sample_backend generate_mp4_py
           (world_with sample_trajectory)).1 = 0%Z.
Proof.
  assert (∀ s n, (@rng_permutation sample_backend s n).1 ≡ₚ seq 0 n) as Hperm
    by (intros; reflexivity).
  assert (read_header sample_trajectory
          = inr (3%Z, 2%Z, drop 8 sample_trajectory)) as Hh
    by (vm_compute; reflexivity).
  assert (is_truncated sample_trajectory = false) as Ht
    by (vm_compute; reflexivity).
  assert (tracked_count (TRACK_PERCENTAGE generate_mp4_py) (Z.to_nat 3)
          = inr 1%Z) as Hk by (vm_compute; reflexivity).
  split; [exact Hperm|]. split; [exact Hh|]. split; [exact Ht|].
  split; [exact Hk|].
  apply (@main_succeeds sample_backend generate_mp4_py Hperm
           (λ fig, ex_intro _ [] eq_refl) (λ cmd fs, eq_refl)
           (world_with sample_trajectory) sample_trajectory 3 2
           (drop 8 sample_trajectory) 1).
  - reflexivity.
  - reflexivity.
  - reflexivity.
  - exact Hh.
  - lia.
  - lia.
  - exact Ht.
  - exact Hk.
  - lia.
  - reflexivity.
  - reflexivity.
Defined.
